(** * tools/prepare_sfm.py: conversion of an SfM export

    A shallow embedding of [tools/prepare_sfm.py] and the properties of
    its four functions: [extrapolate_json], [prepare_intrinsic],
    [prepare_rototranslation] and [convert_sfm_to_parquet].

    Python objects are the values of [value]; exceptions are the
    constructors of [exn]; a computation that may raise returns a
    [result]; the script's effects (files, the random generator) are
    threaded through a [world].  Python floats are IEEE 754 binary64
    numbers, taken from the Standard Library's [SpecFloat]. *)

From Stdlib Require Import ZArith List String Ascii Lia Bool.
From Stdlib Require Import Floats.SpecFloat.
From stdpp Require Import base option list gmap strings pretty.

Set Warnings "-register-all".

Local Open Scope string_scope.
Local Open Scope Z_scope.

(** ** Python objects *)

(** binary64: 53 bits of precision, infinities at exponent 1024. *)
Abbreviation float := spec_float.
Definition prec : Z := 53.
Definition emax : Z := 1024.

Definition float_nan : float := S754_nan.

(** The objects [json.load] produces, and the pandas [Series] that
    [DataFrame.loc] and column selection hand back. *)
Inductive value : Type :=
  | VNone
  | VBool (b : bool)
  | VInt (z : Z)
  | VFloat (f : float)
  | VStr (s : string)
  | VList (l : list value)
  | VDict (d : list (string * value))
  | VSeries (cells : list value).

Inductive exn : Type :=
  | KeyError (k : value)
  | IndexError
  | TypeError
  | ValueError
  | AttributeError
  | OverflowError
  | JSONDecodeError
  | FileNotFoundError
  | Unmodelled.

Inductive result (A : Type) : Type :=
  | Ok (a : A)
  | Err (e : exn).
Arguments Ok {A} a.
Arguments Err {A} e.

Definition bind {A B} (r : result A) (k : A -> result B) : result B :=
  match r with
  | Ok a => k a
  | Err e => Err e
  end.

Declare Scope py_scope.
Delimit Scope py_scope with py.
Notation "'let*' x ':=' r 'in' k" := (bind r (fun x => k))
  (at level 10, x name, r at level 100, k at level 200) : py_scope.
Notation "'let*' ' p ':=' r 'in' k" := (bind r (fun p => k))
  (at level 10, p pattern, r at level 100, k at level 200) : py_scope.
Local Open Scope py_scope.

Definition is_ok {A} (r : result A) : bool :=
  match r with Ok _ => true | Err _ => false end.

Definition raises {A} (r : result A) : Prop := exists e, r = Err e.

(** [for x in l: f x], collecting the results, stopping at the first
    exception. *)
Fixpoint mapM {A B} (f : A -> result B) (l : list A) : result (list B) :=
  match l with
  | [] => Ok []
  | a :: l' => let* b := f a in let* bs := mapM f l' in Ok (b :: bs)
  end.

(** ** Floats *)

Definition float_mul : float -> float -> float := SFmul prec emax.

(** [float(n)] for an [int]: correctly rounded, [OverflowError] past the
    largest double. *)
Definition float_of_Z (n : Z) : result float :=
  match binary_normalize prec emax n 0 false with
  | S754_infinity _ => Err OverflowError
  | f => Ok f
  end.

(** A double of small integral value, for writing constants. *)
Definition fl (n : Z) : float := binary_normalize prec emax n 0 false.

(** [int(f)]: truncation toward zero. *)
Definition int_of_float (f : float) : result Z :=
  match f with
  | S754_zero _ => Ok 0
  | S754_infinity _ => Err OverflowError
  | S754_nan => Err ValueError
  | S754_finite s m e =>
      let a := if 0 <=? e then Zpos m * 2 ^ e else Zpos m / 2 ^ (- e) in
      Ok (if s then - a else a)
  end.

(** The literal [0.8]: the double nearest to 4/5. *)
Definition float_0_8 : float := S754_finite false 7205759403792794 (-53).

(** [n * f] for an [int] and a [float]: the int is converted first. *)
Definition mul_int_float (n : Z) (f : float) : result float :=
  let* x := float_of_Z n in Ok (float_mul x f).

(** ** Builtins on objects *)

Fixpoint chars (s : string) : list value :=
  match s with
  | EmptyString => []
  | String c s' => VStr (String c EmptyString) :: chars s'
  end.

(** [list(v)] (also what a [for] loop or a comprehension iterates). *)
Definition py_list (v : value) : result (list value) :=
  match v with
  | VList l => Ok l
  | VDict d => Ok (map (fun kv => VStr (fst kv)) d)
  | VStr s => Ok (chars s)
  | VSeries cells => Ok cells
  | _ => Err TypeError
  end.

Fixpoint dict_get (d : list (string * value)) (k : string) : option value :=
  match d with
  | [] => None
  | (k', v) :: d' => if String.eqb k' k then Some v else dict_get d' k
  end.

(** [d[k] = v] on a dict: replaces in place or appends. *)
Fixpoint dict_set (d : list (string * value)) (k : string) (v : value)
  : list (string * value) :=
  match d with
  | [] => [(k, v)]
  | (k', v') :: d' =>
      if String.eqb k' k then (k', v) :: d' else (k', v') :: dict_set d' k v
  end.

(** [v[k]] for a string [k]. *)
Definition getitem_str (v : value) (k : string) : result value :=
  match v with
  | VDict d =>
      match dict_get d k with
      | Some x => Ok x
      | None => Err (KeyError (VStr k))
      end
  | _ => Err TypeError
  end.

(** [l[i]] on a list, for a literal index [i >= 0]. *)
Definition list_item {A} (l : list A) (i : nat) : result A :=
  match l !! i with
  | Some x => Ok x
  | None => Err IndexError
  end.

(** [v[i]] for a literal index [i >= 0]: a list or string by position,
    a Series with its default index by label [i]. *)
Definition getitem_nat (v : value) (i : nat) : result value :=
  match v with
  | VList l => list_item l i
  | VStr s => list_item (chars s) i
  | VSeries cells =>
      match cells !! i with
      | Some x => Ok x
      | None => Err (KeyError (VInt (Z.of_nat i)))
      end
  | VDict _ => Err (KeyError (VInt (Z.of_nat i)))
  | _ => Err TypeError
  end.

(** ** pandas frames

    A frame holds its column labels, its index labels and its rows of
    cells.  The constructor first lays the objects out in a table, then
    gives each column a dtype: a column of numbers becomes [int64],
    [uint64] or [float64] (with [None] and missing cells read as NaN),
    a column of booleans [bool], any other column keeps its Python
    objects ([object]; so does a column of text, as in pandas before
    3.0).  A [float64] cell is a [VFloat], an [int64] cell a [VInt], a
    [bool] cell a [VBool].  The constructor is modelled for what
    [json.load] gives for a JSON array or [null]; pandas also accepts a
    JSON object, column-wise, which this development leaves out
    ([Unmodelled]). *)

Inductive label : Type :=
  | LStr (s : string)
  | LInt (i : Z).

Record DataFrame : Type := mkDF {
  columns : list label;
  index : list value;
  rows : list (list value)
}.

(** A row handed out by [iterrows] or [loc]: a Series labelled by the
    frame's columns. *)
Definition Row : Type := list (label * value).

(** What [df.loc[key]] returns: the row when one index label matches,
    a frame otherwise. *)
Inductive selection : Type :=
  | OneRow (r : Row)
  | ManyRows (d : DataFrame).

Definition label_is (k : string) (l : label) : bool :=
  match l with
  | LStr s => String.eqb s k
  | LInt _ => false
  end.

Fixpoint find_col (cols : list label) (k : string) : option nat :=
  match cols with
  | [] => None
  | c :: cols' =>
      if label_is k c then Some O else S <$> find_col cols' k
  end.

Fixpoint row_get (r : Row) (k : string) : option value :=
  match r with
  | [] => None
  | (c, v) :: r' => if label_is k c then Some v else row_get r' k
  end.

(** [RangeIndex(n)] *)
Definition range_index (n : nat) : list value :=
  map (fun i => VInt (Z.of_nat i)) (seq 0 n).

Definition range_labels (n : nat) : list label :=
  map (fun i => LInt (Z.of_nat i)) (seq 0 n).

(** Width of a list of rows: the longest one. *)
Definition width (rs : list (list value)) : nat := max_list (map length rs).

(** pandas turns a list of lists into a table as wide as its longest
    row; shorter rows are filled with [None] up to that width. *)
Definition pad (k : nat) (r : list value) : list value :=
  r ++ replicate (k - length r) VNone.

(** The object laid out for a record in a column, before the column
    gets its dtype: the record's value, NaN when the key is missing. *)
Definition cell_of (d : list (string * value)) (c : string) : value :=
  match dict_get d c with
  | Some v => v
  | None => VFloat float_nan
  end.

Definition add_key (ks : list string) (k : string) : list string :=
  if existsb (String.eqb k) ks then ks else ks ++ [k].

(** Column labels of a list of records: keys in order of first
    appearance. *)
Definition union_keys (ds : list (list (string * value))) : list string :=
  fold_left (fun ks d => fold_left add_key (map fst d) ks) ds [].

(** [x.keys()] needs a dict. *)
Definition as_dict (v : value) : result (list (string * value)) :=
  match v with
  | VDict d => Ok d
  | _ => Err AttributeError
  end.

(** [dict(x)], for a dict; pandas applies it to each record when column
    names are given. *)
Definition py_dict (v : value) : result (list (string * value)) :=
  match v with
  | VDict d => Ok d
  | _ => Err Unmodelled
  end.

(** *** Column dtypes

    [lib.maybe_convert_objects] scans the objects of a column, noting
    what it has seen, and stops at the first object that is neither a
    number, a boolean nor [None], or at an int that does not fit 64
    bits: the column then keeps its objects. *)
Inductive dtype : Type := DObject | DBool | DInt | DUInt | DFloat.

Record Seen : Type := mkSeen {
  null_ : bool;
  nan_ : bool;
  bool_ : bool;
  int_ : bool;
  uint_ : bool;
  sint_ : bool;
  float_ : bool;
  object_ : bool
}.

Definition Seen_init : Seen :=
  mkSeen false false false false false false false false.

Definition INT64_MIN : Z := - 2 ^ 63.
Definition INT64_MAX : Z := 2 ^ 63 - 1.
Definition UINT64_MAX : Z := 2 ^ 64 - 1.

(** [Seen.saw_int] *)
Definition saw_int (s : Seen) (z : Z) : Seen :=
  mkSeen (null_ s) (nan_ s) (bool_ s) true
         (uint_ s || ((INT64_MAX <? z) && (z <=? UINT64_MAX)))
         (sint_ s || ((INT64_MIN <=? z) && (z <? 0)))
         (float_ s) (object_ s).

Definition saw_object (s : Seen) : Seen :=
  mkSeen (null_ s) (nan_ s) (bool_ s) (int_ s) (uint_ s) (sint_ s)
         (float_ s) true.

(** One turn of the scan; the boolean tells whether the scan stops.
    Every int is also stored as a double, which raises past the largest
    double; ints seen after a [None] are not checked against the 64-bit
    range. *)
Definition see (s : Seen) (v : value) : result (Seen * bool) :=
  match v with
  | VNone =>
      Ok (mkSeen true (nan_ s) (bool_ s) (int_ s) (uint_ s) (sint_ s)
                 (float_ s) (object_ s), false)
  | VFloat S754_nan =>
      Ok (mkSeen (null_ s) true (bool_ s) (int_ s) (uint_ s) (sint_ s)
                 (float_ s) (object_ s), false)
  | VBool _ =>
      Ok (mkSeen (null_ s) (nan_ s) true (int_ s) (uint_ s) (sint_ s)
                 (float_ s) (object_ s), false)
  | VFloat _ =>
      Ok (mkSeen (null_ s) (nan_ s) (bool_ s) (int_ s) (uint_ s) (sint_ s)
                 true (object_ s), false)
  | VInt z =>
      let* _ := float_of_Z z in
      if null_ s
      then Ok (mkSeen (null_ s) (nan_ s) (bool_ s) true (uint_ s) (sint_ s)
                      (float_ s) (object_ s), false)
      else
        let s' := saw_int s z in
        if (uint_ s' && sint_ s') || (UINT64_MAX <? z) || (z <? INT64_MIN)
        then Ok (saw_object s', true)
        else Ok (s', false)
  | VStr _ | VList _ | VDict _ | VSeries _ => Ok (saw_object s, true)
  end.

Fixpoint scan (s : Seen) (col : list value) : result Seen :=
  match col with
  | [] => Ok s
  | v :: col' =>
      let* '(s', stop) := see s v in
      if stop then Ok s' else scan s' col'
  end.

(** The dtype the scan settles on. *)
Definition result_dtype (s : Seen) : dtype :=
  if object_ s then DObject
  else if bool_ s then
    (if negb (int_ s || float_ s) && negb (nan_ s || null_ s)
     then DBool else DObject)
  else if null_ s || nan_ s then
    (if float_ s || int_ s || nan_ s then DFloat else DObject)
  else if float_ s then DFloat
  else if int_ s then (if uint_ s then DUInt else DInt)
  else DObject.

Definition infer_dtype (col : list value) : result dtype :=
  let* s := scan Seen_init col in Ok (result_dtype s).

(** The cell a column of dtype [dt] holds for an object: in a [float64]
    column [None] is NaN and an int is its double. *)
Definition convert_cell (dt : dtype) (v : value) : value :=
  match dt, v with
  | DFloat, VNone => VFloat float_nan
  | DFloat, VInt z => VFloat (fl z)
  | _, _ => v
  end.

(** Text, lists and dicts always stop the scan: they are stored as
    they are, and so is every object of their column. *)
Definition is_object (v : value) : bool :=
  match v with
  | VStr _ | VList _ | VDict _ | VSeries _ => true
  | _ => false
  end.

(** Column [j] of a table of rows. *)
Definition column_cells (j : nat) (rs : list (list value)) : list value :=
  map (fun r => default VNone (r !! j)) rs.

Definition infer_dtypes (k : nat) (rs : list (list value))
  : result (list dtype) :=
  mapM (fun j => infer_dtype (column_cells j rs)) (seq 0 k).

(** [convert_object_array]: each of the [k] columns of a table of
    objects gets its dtype. *)
Definition convert_object_array (k : nat) (rs : list (list value))
  : result (list (list value)) :=
  let* dts := infer_dtypes k rs in
  Ok (map (zip_with convert_cell dts) rs).

(** The dtypes of the columns of a frame. *)
Definition dtype_of (col : list value) : dtype :=
  match infer_dtype col with
  | Ok dt => dt
  | Err _ => DObject
  end.

Definition frame_dtypes (df : DataFrame) : list dtype :=
  map (fun j => dtype_of (column_cells j (rows df)))
      (seq 0 (length (columns df))).

Definition is_numeric (dt : dtype) : bool :=
  match dt with
  | DInt | DUInt | DFloat => true
  | _ => false
  end.

Definition is_dtype (a b : dtype) : bool :=
  match a, b with
  | DObject, DObject | DBool, DBool | DInt, DInt | DUInt, DUInt
  | DFloat, DFloat => true
  | _, _ => false
  end.

(** A row taken out of a frame is a Series of one dtype, the common one
    of the columns: [float64] when the columns are numeric and not all
    [int64] or all [uint64], which turns the ints of the row into
    doubles; otherwise the cells are kept. *)
Definition upcasts (dts : list dtype) : bool :=
  forallb is_numeric dts
  && (existsb (is_dtype DFloat) dts
      || (existsb (is_dtype DInt) dts && existsb (is_dtype DUInt) dts)).

Definition interleave (dts : list dtype) (r : list value) : list value :=
  if upcasts dts then map (convert_cell DFloat) r else r.

(** [pd.DataFrame(data)].  The first element decides how the list is
    read: a list of dicts gives one column per key, a list of lists one
    column per position (labelled 0, 1, ...), anything else a single
    column labelled 0. *)
Definition pd_DataFrame (data : value) : result DataFrame :=
  match data with
  | VNone | VList [] => Ok (mkDF [] [] [])
  | VList ((VDict _ :: _) as l) =>
      let* ds := mapM as_dict l in
      let cols := union_keys ds in
      let* cells := convert_object_array (length cols)
                      (map (fun d => map (cell_of d) cols) ds) in
      Ok (mkDF (map LStr cols) (range_index (length ds)) cells)
  | VList ((VList _ :: _) as l) =>
      let* rs := mapM py_list l in
      let* cells := convert_object_array (width rs)
                      (map (pad (width rs)) rs) in
      Ok (mkDF (range_labels (width rs)) (range_index (length rs)) cells)
  | VList l =>
      let* cells := convert_object_array 1 (map (fun x => [x]) l) in
      Ok (mkDF [LInt 0] (range_index (length l)) cells)
  | VDict _ | VSeries _ => Err Unmodelled
  | _ => Err ValueError
  end.

(** [pd.DataFrame(data, columns=cols)] for a Python list [data].  For a
    list of lists the number of names must be the width of the table,
    else pandas raises ValueError; for a list of dicts the names select
    the keys. *)
Definition pd_DataFrame_columns (data : list value) (cols : list string)
  : result DataFrame :=
  match data with
  | [] => Ok (mkDF (map LStr cols) [] [])
  | VList _ :: _ =>
      let* rs := mapM py_list data in
      if Nat.eqb (width rs) (length cols)
      then
        let* cells := convert_object_array (width rs)
                        (map (pad (width rs)) rs) in
        Ok (mkDF (map LStr cols) (range_index (length rs)) cells)
      else Err ValueError
  | VDict _ :: _ =>
      let* ds := mapM py_dict data in
      let* cells := convert_object_array (length cols)
                      (map (fun d => map (cell_of d) cols) ds) in
      Ok (mkDF (map LStr cols) (range_index (length ds)) cells)
  | _ :: _ =>
      let* cells := convert_object_array 1 (map (fun x => [x]) data) in
      if Nat.eqb (length cols) 1
      then Ok (mkDF (map LStr cols) (range_index (length data)) cells)
      else Err ValueError
  end.

(** [df[k]]: the column as a Series, [KeyError] when no column has that
    label. *)
Definition df_column (df : DataFrame) (k : string) : result value :=
  match find_col (columns df) k with
  | Some j => Ok (VSeries (map (fun r => default VNone (r !! j)) (rows df)))
  | None => Err (KeyError (VStr k))
  end.

(** [df.set_index(k)]: column [k] becomes the index.  Labels need not
    be unique ([verify_integrity] is off by default): no row is dropped
    or merged. *)
Definition set_index (df : DataFrame) (k : string) : result DataFrame :=
  match find_col (columns df) k with
  | Some j =>
      Ok (mkDF (delete j (columns df))
               (map (fun r => default VNone (r !! j)) (rows df))
               (map (delete j) (rows df)))
  | None => Err (KeyError (VStr k))
  end.

(** [df.iterrows()] *)
Definition iterrows (df : DataFrame) : list (value * Row) :=
  zip (index df)
      (map (fun r => zip (columns df) (interleave (frame_dtypes df) r))
           (rows df)).

(** Whether a finite double has the integral value [z]. *)
Definition float_is_int (f : float) (z : Z) : bool :=
  match f with
  | S754_zero _ => z =? 0
  | S754_finite s m e =>
      let a := if s then Zneg m else Zpos m in
      if 0 <=? e then z =? a * 2 ^ e
      else (a mod 2 ^ (- e) =? 0) && (z =? a / 2 ^ (- e))
  | _ => false
  end.

(** Whether an index label is the one asked for. *)
Definition label_match (key lab : value) : bool :=
  match key, lab with
  | VStr s, VStr t => String.eqb s t
  | VInt x, VInt y => x =? y
  | VBool x, VBool y => Bool.eqb x y
  | VNone, VNone => true
  | VFloat S754_nan, VFloat S754_nan => true
  | VFloat f, VFloat g => SFeqb f g
  | VInt x, VFloat f | VFloat f, VInt x => float_is_int f x
  | _, _ => false
  end.

(** The rows of [df] whose index label matches [key], in frame order. *)
Definition loc_rows (df : DataFrame) (key : value)
  : list (value * list value) :=
  filter (fun ir => label_match key (fst ir) = true) (zip (index df) (rows df)).

Definition hashable (v : value) : bool :=
  match v with
  | VList _ | VDict _ | VSeries _ => false
  | _ => true
  end.

Definition frame_of_rows (df : DataFrame) (irs : list (value * list value))
  : DataFrame :=
  mkDF (columns df) (map fst irs) (map snd irs).

(** One label of a list key: its rows, [KeyError] when there is none. *)
Definition loc_label (df : DataFrame) (key : value)
  : result (list (value * list value)) :=
  if hashable key then
    match loc_rows df key with
    | [] => Err (KeyError key)
    | irs => Ok irs
    end
  else Err TypeError.

(** [df.loc[key]]: for a scalar key, the row whose label matches, a
    frame of all of them when several do, [KeyError] when none does;
    for a list of keys, the frame of the rows of each key. *)
Definition df_loc (df : DataFrame) (key : value) : result selection :=
  match key with
  | VList keys =>
      let* found := mapM (loc_label df) keys in
      Ok (ManyRows (frame_of_rows df (concat found)))
  | VDict _ | VSeries _ => Err TypeError
  | _ =>
      match loc_rows df key with
      | [] => Err (KeyError key)
      | [(_, r)] =>
          Ok (OneRow (zip (columns df) (interleave (frame_dtypes df) r)))
      | irs => Ok (ManyRows (frame_of_rows df irs))
      end
  end.

(** Subscripting by a string, [x[k]], on the objects the script
    subscripts: dicts, rows, frames and selections. *)
Class GetItem (T : Type) := getitem : T -> string -> result value.

#[export] Instance value_GetItem : GetItem value := getitem_str.

#[export] Instance Row_GetItem : GetItem Row := fun r k =>
  match row_get r k with
  | Some v => Ok v
  | None => Err (KeyError (VStr k))
  end.

#[export] Instance DataFrame_GetItem : GetItem DataFrame := df_column.

#[export] Instance selection_GetItem : GetItem selection := fun s k =>
  match s with
  | OneRow r => getitem r k
  | ManyRows d => getitem d k
  end.

(** ** The script *)

Section Script.

(** Three library functions are taken as they are: [float] on a string,
    [str] on an object, [json.loads]. *)
Variable float_of_string : string -> option float.
Variable py_str : value -> string.
Variable json_loads : string -> result value.

(** The generator behind [random]: [randbelow n g] draws below [n]. *)
Variable rng : Type.
Variable randbelow : nat -> rng -> nat * rng.

Definition float_scalar (v : value) : result float :=
  match v with
  | VFloat f => Ok f
  | VInt z => float_of_Z z
  | VBool b => Ok (if b then fl 1 else fl 0)
  | VStr s =>
      match float_of_string s with
      | Some f => Ok f
      | None => Err ValueError
      end
  | _ => Err TypeError
  end.

(** [float(v)].  A Series of two cells or more, or of none, raises
    TypeError.  A Series of exactly one cell depends on the version of
    pandas (converted before 3.0, TypeError from 3.0 on), which the
    script does not pin: that case is left out. *)
Definition py_float (v : value) : result float :=
  match v with
  | VSeries [_] => Err Unmodelled
  | _ => float_scalar v
  end.

(** Conversion of one cell by [astype(float)]: as [float], with [None]
    read as NaN. *)
Definition np_float (v : value) : result float :=
  match v with
  | VNone => Ok float_nan
  | VList _ => Err ValueError
  | _ => float_scalar v
  end.

(** [df.astype(float)] *)
Definition astype_float (df : DataFrame) : result DataFrame :=
  let* rs := mapM (mapM np_float) (rows df) in
  Ok (mkDF (columns df) (index df) (map (map VFloat) rs)).

(** [series.to_list()] *)
Definition to_list (v : value) : result (list value) :=
  match v with
  | VSeries cells => Ok cells
  | _ => Err AttributeError
  end.

(** [s.replace(old, new)] for one-character [old] and [new]. *)
Fixpoint replace_char (old new : ascii) (s : string) : string :=
  match s with
  | EmptyString => EmptyString
  | String c s' =>
      String (if Ascii.eqb c old then new else c) (replace_char old new s')
  end.

Definition single_quote : ascii := "'"%char.
Definition double_quote : ascii := "034"%char.

(** *** Files *)

(** A text file is known by the document [json.load] reads from it
    ([None] when it is not JSON); a parquet file by its table. *)
Inductive file : Type :=
  | TextFile (doc : option value)
  | ParquetFile (table : DataFrame).

(** [with open(name) as f: json.load(f)] *)
Definition json_load (fs : gmap string file) (name : string) : result value :=
  match fs !! name with
  | None => Err FileNotFoundError
  | Some (TextFile (Some v)) => Ok v
  | Some _ => Err JSONDecodeError
  end.

(** *** extrapolate_json *)

Definition extrapolate_json (fs : gmap string file) (name : string)
  : result (DataFrame * DataFrame * DataFrame * DataFrame) :=
  let* data := json_load fs name in
  let* s := getitem_str data "structure" in
  let* xs := py_list s in
  let* pts := mapM (fun x => getitem_str x "X") xs in
  let* structure := pd_DataFrame_columns pts ["x"; "y"; "z"] in
  let* structure := astype_float structure in
  let* v := getitem_str data "views" in
  let* views := pd_DataFrame v in
  let* views := set_index views "poseId" in
  let* p := getitem_str data "poses" in
  let* poses := pd_DataFrame p in
  let* i := getitem_str data "intrinsics" in
  let* intrinsics := pd_DataFrame i in
  Ok (structure, views, poses, intrinsics).

(** *** prepare_intrinsic *)

Definition prepare_intrinsic {T} `{GetItem T} (intrinsic : T)
  : result (list (list value)) :=
  let* pp := getitem intrinsic "principalPoint" in
  let* p0 := getitem_nat pp 0 in
  let* x := getitem_nat p0 0 in
  let* cx := py_float x in
  let* pp := getitem intrinsic "principalPoint" in
  let* p0 := getitem_nat pp 0 in
  let* y := getitem_nat p0 1 in
  let* cy := py_float y in
  let* fls := getitem intrinsic "focalLength" in
  let* f0 := getitem_nat fls 0 in
  let* f := py_float f0 in
  let s := VInt 0 in
  Ok [[VFloat f; s; VFloat cx];
      [VInt 0; VFloat f; VFloat cy];
      [VInt 0; VInt 0; VInt 1]].

(** *** prepare_rototranslation *)

(** [str(pose)] with every single quote replaced by a double quote,
    then [json.loads]. *)
Definition reparse (pose : value) : result value :=
  json_loads (replace_char single_quote double_quote (py_str pose)).

Definition prepare_rototranslation {T} `{GetItem T} (original : T)
  : result (list (list value)) :=
  let* pose := getitem original "pose" in
  let* data := reparse pose in
  let* tr := getitem_str data "transform" in
  let* rotation := getitem_str tr "rotation" in
  let* tr := getitem_str data "transform" in
  let* transform := getitem_str tr "center" in
  let* rs := py_list rotation in
  let* rotation := mapM py_float rs in
  let* ts := py_list transform in
  let* transform := mapM py_float ts in
  let* r0 := list_item rotation 0 in
  let* r1 := list_item rotation 1 in
  let* r2 := list_item rotation 2 in
  let* t0 := list_item transform 0 in
  let* r3 := list_item rotation 3 in
  let* r4 := list_item rotation 4 in
  let* r5 := list_item rotation 5 in
  let* t1 := list_item transform 1 in
  let* r6 := list_item rotation 6 in
  let* r7 := list_item rotation 7 in
  let* r8 := list_item rotation 8 in
  let* t2 := list_item transform 2 in
  Ok [[VFloat r0; VFloat r1; VFloat r2; VFloat t0];
      [VFloat r3; VFloat r4; VFloat r5; VFloat t1];
      [VFloat r6; VFloat r7; VFloat r8; VFloat t2];
      [VInt 0; VInt 0; VInt 0; VInt 1]].

(** *** Output records *)

(** The dict [new_pose], with its six keys. *)
Record image_record : Type := mkImage {
  image_path : value;
  T_pointcloud_camera : list (list value);
  camera_intrinsics : list (list value);
  camera_height : float;
  camera_width : float;
  camera_id : Z
}.

Definition matrix_value (m : list (list value)) : value :=
  VList (map VList m).

(** The entry in row [i], column [j] of a matrix. *)
Definition entry (m : list (list value)) (i j : nat) : option value :=
  match m !! i with
  | Some r => r !! j
  | None => None
  end.

Definition record_value (r : image_record) : value :=
  VDict [("image_path", image_path r);
         ("T_pointcloud_camera", matrix_value (T_pointcloud_camera r));
         ("camera_intrinsics", matrix_value (camera_intrinsics r));
         ("camera_height", VFloat (camera_height r));
         ("camera_width", VFloat (camera_width r));
         ("camera_id", VInt (camera_id r))].

(** The paths [json.dump] is known to write: text, [None], a double, a
    list or a dict.  An int or a boolean taken out of a frame is a
    Python object when its column is of dtype [object] and a numpy
    scalar, which [json.dump] rejects, when the column is [int64] or
    [bool]; a record does not say which. *)
Definition serializable (v : value) : bool :=
  match v with
  | VSeries _ | VInt _ | VBool _ => false
  | _ => true
  end.

Definition is_series (v : value) : bool :=
  match v with
  | VSeries _ => true
  | _ => false
  end.

(** The document [json.dump] writes for a list of records.  A Series
    is not serializable; a path that is an int or a boolean is left
    out. *)
Definition json_document (l : list image_record) : result value :=
  if existsb (fun r => is_series (image_path r)) l then Err TypeError
  else if forallb (fun r => serializable (image_path r)) l
  then Ok (VList (map record_value l))
  else Err Unmodelled.

(** *** Assembly: the body of the loop over [poses.iterrows()] *)

Definition assemble_one (images intrinsic : DataFrame) (i : value * Row)
  : result image_record :=
  let* id := getitem (snd i) "poseId" in
  let* view := df_loc images id in
  let* path := getitem view "path" in
  let* T := prepare_rototranslation (snd i) in
  let* K := prepare_intrinsic intrinsic in
  let* view := df_loc images id in
  let* h := getitem view "height" in
  let* height := py_float h in
  let* view := df_loc images id in
  let* w := getitem view "width" in
  let* width := py_float w in
  Ok (mkImage path T K height width 0).

Definition assemble (images poses intrinsic : DataFrame)
  : result (list image_record) :=
  mapM (assemble_one images intrinsic) (iterrows poses).

(** *** random.shuffle *)

(** [x[i], x[j] = x[j], x[i]].  In [shuffle] both indices are in range:
    [i < len(x)] and [randbelow] draws [j <= i]. *)
Definition swap {A} (x : list A) (i j : nat) : list A :=
  match x !! i, x !! j with
  | Some a, Some b => <[j := a]> (<[i := b]> x)
  | _, _ => x
  end.

(** The loop [for i in reversed(range(1, len(x)))], from index [i]
    down to 1. *)
Fixpoint shuffle_from {A} (i : nat) (x : list A) (g : rng) : list A * rng :=
  match i with
  | O => (x, g)
  | S i' =>
      let '(j, g') := randbelow (S i) g in
      shuffle_from i' (swap x i j) g'
  end.

Definition shuffle {A} (x : list A) (g : rng) : list A * rng :=
  shuffle_from (length x - 1) x g.

(** *** The split *)

(** Where a slice bound [k] falls in a list of length [n]. *)
Definition slice_bound (n : nat) (k : Z) : nat :=
  if k <? 0 then Z.to_nat (Z.of_nat n + k) else Nat.min n (Z.to_nat k).

(** [l[:k]] and [l[k:]] *)
Definition slice_to {A} (l : list A) (k : Z) : list A :=
  take (slice_bound (length l) k) l.
Definition slice_from {A} (l : list A) (k : Z) : list A :=
  drop (slice_bound (length l) k) l.

(** [int(n * 0.8)] *)
Definition split_index (n : Z) : result Z :=
  let* p := mul_int_float n float_0_8 in
  int_of_float p.

(** The train and val lists cut from the shuffled records. *)
Definition split_train_val {A} (list_images : list A)
  : result (list A * list A) :=
  let* split := split_index (Z.of_nat (length list_images)) in
  Ok (slice_to list_images split, slice_from list_images split).

(** *** convert_sfm_to_parquet *)

Record world : Type := mkWorld {
  files : gmap string file;
  gen : rng
}.

(** A step of the script: it may raise, and leaves a world behind
    either way. *)
Definition M (A : Type) : Type := world -> result A * world.

Definition bindM {A B} (m : M A) (k : A -> M B) : M B :=
  fun w =>
    match m w with
    | (Ok a, w') => k a w'
    | (Err e, w') => (Err e, w')
    end.

Notation "'do*' x ':=' m 'in' k" := (bindM m (fun x => k))
  (at level 10, x name, m at level 100, k at level 200).
Notation "'do*' ' p ':=' m 'in' k" := (bindM m (fun p => k))
  (at level 10, p pattern, m at level 100, k at level 200).

Definition lift {A} (r : result A) : M A := fun w => (r, w).

Definition read_sfm (name : string)
  : M (DataFrame * DataFrame * DataFrame * DataFrame) :=
  fun w => (extrapolate_json (files w) name, w).

(** [df.to_parquet(path)] *)
Definition to_parquet (df : DataFrame) (path : string) : M unit :=
  fun w => (Ok tt, mkWorld (<[path := ParquetFile df]> (files w)) (gen w)).

(** [with open(name, 'w') as f: json.dump(l, f)]: opening truncates the
    file; when serialization fails what is left is not a document. *)
Definition json_dump (l : list image_record) (name : string) : M unit :=
  fun w =>
    match json_document l with
    | Ok v => (Ok tt, mkWorld (<[name := TextFile (Some v)]> (files w)) (gen w))
    | Err e => (Err e, mkWorld (<[name := TextFile None]> (files w)) (gen w))
    end.

(** [random.shuffle(l)] *)
Definition random_shuffle {A} (l : list A) : M (list A) :=
  fun w => let '(l', g') := shuffle l (gen w) in (Ok l', mkWorld (files w) g').

(** Lines 100-102: the point-cloud table and its file. *)
Definition write_point_cloud (pd_structure : DataFrame) : M unit :=
  do* point_cloud_df := lift (
      let* X := getitem pd_structure "X" in
      let* l := to_list X in
      let* df := pd_DataFrame_columns l ["x"; "y"; "z"] in
      astype_float df) in
  to_parquet point_cloud_df "./point_cloud.parquet".

(** Lines 104-132: the records, their shuffle and split, and the two
    manifests. *)
Definition write_manifests (images poses intrinsic : DataFrame) : M unit :=
  do* list_images := lift (assemble images poses intrinsic) in
  do* list_images := random_shuffle list_images in
  do* '(train, val) := lift (split_train_val list_images) in
  do* _ := json_dump train "train.json" in
  json_dump val "val.json".

Definition convert_sfm_to_parquet : M unit :=
  do* '(pd_structure, images, poses, intrinsic) := read_sfm "sfm.json" in
  do* _ := write_point_cloud pd_structure in
  write_manifests images poses intrinsic.

End Script.

Arguments shuffle {rng} randbelow {A} x g.
Arguments shuffle_from {rng} randbelow {A} i x g.
Arguments mkWorld {rng} files gen.
Arguments files {rng} w.
Arguments gen {rng} w.
Arguments bindM {rng A B} m k w.
Arguments lift {rng A} r w.
Arguments read_sfm float_of_string {rng} name w.
Arguments to_parquet {rng} df path w.
Arguments json_dump {rng} l name w.
Arguments random_shuffle {rng} randbelow {A} l w.
Arguments write_point_cloud float_of_string {rng} pd_structure w.
Arguments write_manifests float_of_string py_str json_loads {rng} randbelow
  images poses intrinsic w.
Arguments convert_sfm_to_parquet float_of_string py_str json_loads {rng}
  randbelow w.

(** ** A runtime to run the script on

    Concrete stand-ins for the three library functions and the
    generator, used to run the script on sample exports.  They cover a
    fragment of what the library functions accept:
    - [json_loads] reads JSON texts whose strings hold no backslash
      escape; numbers are read as Python reads them, an int without
      fraction or exponent, else the nearest double;
    - [float_of_string] reads the numerals of JSON's grammar, with
      blanks around them; the other spellings [float] accepts (a
      leading plus sign or leading zeros, a bare point, underscores,
      inf, nan) are rejected;
    - [py_str] prints [None], booleans, ints, floats (the shortest
      decimal that reads back as the float, laid out as [repr] does),
      text of printable ASCII characters, and lists and dicts of
      these; a Series is printed as a question mark. *)

Module Runtime.

Definition is_digit (c : ascii) : bool :=
  let n := nat_of_ascii c in (48 <=? n)%nat && (n <=? 57)%nat.

Definition is_space (c : ascii) : bool :=
  let n := nat_of_ascii c in
  (n =? 32)%nat || (n =? 9)%nat || (n =? 10)%nat || (n =? 13)%nat.

Fixpoint skip_ws (s : string) : string :=
  match s with
  | String c s' => if is_space c then skip_ws s' else s
  | EmptyString => s
  end.

Definition starts_digit (s : string) : bool :=
  match s with
  | String c _ => is_digit c
  | EmptyString => false
  end.

(** [m * 10 ^ e] for [m >= 0], with the sign [neg], as the nearest
    double. *)
Definition float_of_decimal (neg : bool) (m e : Z) : float :=
  if m =? 0 then S754_zero neg
  else if 400 <? e then S754_infinity neg
  else if e <? - 400 - Z.log2 m then S754_zero neg
  else if 0 <=? e
  then binary_normalize prec emax ((if neg then - m else m) * 10 ^ e) 0 false
  else SFdiv prec emax (S754_finite neg (Z.to_pos m) 0)
                       (S754_finite false (Z.to_pos (10 ^ (- e))) 0).

(** Leading decimal digits read after [acc]: the value, how many were
    read, and the rest. *)
Fixpoint digits (acc k : Z) (s : string) : Z * Z * string :=
  match s with
  | String c s' =>
      if is_digit c
      then digits (10 * acc + (Z.of_nat (nat_of_ascii c) - 48)) (k + 1) s'
      else (acc, k, s)
  | EmptyString => (acc, k, s)
  end.

(** A fraction: a point and at least one digit. *)
Definition fraction (n : Z) (s : string) : option (Z * Z * string) :=
  match s with
  | String "." s' => if starts_digit s' then Some (digits n 0 s') else None
  | _ => None
  end.

(** An exponent: e or E, an optional sign and at least one digit. *)
Definition exponent (s : string) : option (Z * string) :=
  match s with
  | String c s' =>
      if Ascii.eqb c "e" || Ascii.eqb c "E" then
        let '(neg, s1) :=
          match s' with
          | String "-" t => (true, t)
          | String "+" t => (false, t)
          | _ => (false, s')
          end in
        if starts_digit s1
        then let '(x, _, s2) := digits 0 0 s1 in
             Some (if neg then - x else x, s2)
        else None
      else None
  | EmptyString => None
  end.

(** A numeral of JSON: its sign, its digits [m] and exponent [e] (it
    stands for [m * 10 ^ e]), whether it has a fraction or an exponent,
    and the rest. *)
Definition numeral (s : string) : option (bool * Z * Z * bool * string) :=
  let '(neg, s1) :=
    match s with
    | String "-" s' => (true, s')
    | _ => (false, s)
    end in
  if starts_digit s1 then
    let '(n, k, s2) := digits 0 0 s1 in
    if String.prefix "0" s1 && (1 <? k) then None
    else
      match fraction n s2 with
      | Some (m, d, s3) =>
          match exponent s3 with
          | Some (x, s4) => Some (neg, m, x - d, true, s4)
          | None => Some (neg, m, - d, true, s3)
          end
      | None =>
          match exponent s2 with
          | Some (x, s4) => Some (neg, n, x, true, s4)
          | None => Some (neg, n, 0, false, s2)
          end
      end
  else None.

Definition literal (w : string) (v : value) (s : string)
  : option (value * string) :=
  if String.prefix w s
  then Some (v, String.substring (String.length w)
                                 (String.length s - String.length w) s)
  else None.

(** A number: an int when the numeral has neither fraction nor
    exponent, else the nearest double. *)
Definition number (s : string) : option (value * string) :=
  match numeral s with
  | Some (neg, m, e, true, r) => Some (VFloat (float_of_decimal neg m e), r)
  | Some (neg, m, _, false, r) => Some (VInt (if neg then - m else m), r)
  | None => literal "-Infinity" (VFloat (S754_infinity true)) s
  end.

(** The text of a string literal up to its closing double quote;
    escapes are outside the fragment. *)
Fixpoint string_body (s : string) : option (string * string) :=
  match s with
  | EmptyString => None
  | String c s' =>
      if Ascii.eqb c "034" then Some (EmptyString, s')
      else if Ascii.eqb c "\" then None
      else '(b, r) ← string_body s'; Some (String c b, r)
  end.

Fixpoint parse_value (fuel : nat) (s : string) : option (value * string) :=
  match fuel with
  | O => None
  | S fuel =>
      match skip_ws s with
      | String "[" s1 =>
          match skip_ws s1 with
          | String "]" s2 => Some (VList [], s2)
          | s2 => '(vs, r) ← parse_elems fuel s2; Some (VList vs, r)
          end
      | String "{" s1 =>
          match skip_ws s1 with
          | String "}" s2 => Some (VDict [], s2)
          | s2 => '(d, r) ← parse_members fuel s2 []; Some (VDict d, r)
          end
      | String "034" s1 => '(b, r) ← string_body s1; Some (VStr b, r)
      | String "t" _ as s1 => literal "true" (VBool true) s1
      | String "f" _ as s1 => literal "false" (VBool false) s1
      | String "n" _ as s1 => literal "null" VNone s1
      | String "N" _ as s1 => literal "NaN" (VFloat S754_nan) s1
      | String "I" _ as s1 =>
          literal "Infinity" (VFloat (S754_infinity false)) s1
      | s1 => number s1
      end
  end
with parse_elems (fuel : nat) (s : string) : option (list value * string) :=
  match fuel with
  | O => None
  | S fuel =>
      '(v, s1) ← parse_value fuel s;
      match skip_ws s1 with
      | String "," s2 => '(vs, r) ← parse_elems fuel s2; Some (v :: vs, r)
      | String "]" s2 => Some ([v], s2)
      | _ => None
      end
  end
with parse_members (fuel : nat) (s : string) (acc : list (string * value))
  : option (list (string * value) * string) :=
  match fuel with
  | O => None
  | S fuel =>
      match skip_ws s with
      | String "034" s1 =>
          '(k, s2) ← string_body s1;
          match skip_ws s2 with
          | String ":" s3 =>
              '(v, s4) ← parse_value fuel s3;
              let acc := dict_set acc k v in
              match skip_ws s4 with
              | String "," s5 => parse_members fuel s5 acc
              | String "}" s5 => Some (acc, s5)
              | _ => None
              end
          | _ => None
          end
      | _ => None
      end
  end.

(** [json.loads] on the fragment. *)
Definition json_loads (s : string) : result value :=
  match parse_value (S (String.length s)) s with
  | Some (v, r) =>
      match skip_ws r with
      | EmptyString => Ok v
      | _ => Err JSONDecodeError
      end
  | None => Err JSONDecodeError
  end.

(** [float] on a string of the fragment. *)
Definition float_of_string (s : string) : option float :=
  match numeral (skip_ws s) with
  | Some (neg, m, e, _, r) =>
      match skip_ws r with
      | EmptyString => Some (float_of_decimal neg m e)
      | _ => None
      end
  | None => None
  end.

Fixpoint contains (c : ascii) (s : string) : bool :=
  match s with
  | String c' s' => Ascii.eqb c c' || contains c s'
  | EmptyString => false
  end.

(** Backslash-escape the backslash and the quote in use. *)
Fixpoint escape (q : ascii) (s : string) : string :=
  match s with
  | String c s' =>
      if Ascii.eqb c "\" || Ascii.eqb c q
      then String "\" (String c (escape q s'))
      else String c (escape q s')
  | EmptyString => EmptyString
  end.

(** [repr] of a string: single quotes, unless the text has a single
    quote and no double quote. *)
Definition repr_str (s : string) : string :=
  let q : ascii :=
    if contains single_quote s && negb (contains double_quote s)
    then double_quote else single_quote in
  String q (escape q s) ++ String q EmptyString.

Fixpoint join (sep : string) (l : list string) : string :=
  match l with
  | [] => EmptyString
  | [x] => x
  | x :: l' => x ++ sep ++ join sep l'
  end.

(** Whether the decimal [dg * 10 ^ x] reads back as [f]. *)
Definition round_trips (f : float) (dg x : Z) : bool :=
  match SFcompare (float_of_decimal false dg x) f with
  | Some Eq => true
  | _ => false
  end.

(** The exponent [x] with [10 ^ x <= n / d < 10 ^ (x + 1)], found next
    to its estimate from the binary logarithms. *)
Definition decimal_exponent (n d : Z) : Z :=
  let le10 x := d * 10 ^ Z.max 0 x <=? n * 10 ^ Z.max 0 (- x) in
  let x := (Z.log2 n - Z.log2 d) * 30103 / 100000 in
  if le10 (x + 1) then x + 1 else if le10 x then x else x - 1.

(** The [p]-digit decimals next to [n / d], when one reads back as [f]:
    its digits and the exponent of its first digit. *)
Definition candidate (f : float) (n d x p : Z) : option (Z * Z) :=
  let s := p - 1 - x in
  let num := n * 10 ^ Z.max 0 s in
  let den := d * 10 ^ Z.max 0 (- s) in
  let lo := num / den in
  let r := num mod den in
  let hi := lo + 1 in
  let ok_lo := round_trips f lo (- s) in
  let ok_hi := round_trips f hi (- s) in
  let nearer_hi := (den <? 2 * r) || ((den =? 2 * r) && Z.odd lo) in
  let pick :=
    if ok_lo && ok_hi then (if nearer_hi then hi else lo)
    else if ok_lo then lo else hi in
  if ok_lo || ok_hi
  then Some (if pick =? 10 ^ p then (10 ^ (p - 1), x + 1) else (pick, x))
  else None.

(** The first precision, from [p] on, at which a decimal reads back. *)
Fixpoint shortest (fuel : nat) (f : float) (n d x p : Z) : option (Z * Z) :=
  match fuel with
  | O => None
  | S fuel =>
      match candidate f n d x p with
      | Some r => Some r
      | None => shortest fuel f n d x (p + 1)
      end
  end.

Fixpoint strip_zeros (fuel : nat) (z : Z) : Z :=
  match fuel with
  | O => z
  | S fuel =>
      if (z mod 10 =? 0) && negb (z =? 0)
      then strip_zeros fuel (z / 10)
      else z
  end.

Fixpoint zeros (n : nat) : string :=
  match n with
  | O => EmptyString
  | S n => String "0" (zeros n)
  end.

Definition take_string (n : nat) (s : string) : string :=
  String.substring 0 n s.

Definition drop_string (n : nat) (s : string) : string :=
  String.substring n (String.length s - n) s.

(** The digits [ds] with the decimal point after the first [decpt] of
    them, as [repr] lays them out. *)
Definition layout (ds : string) (decpt : Z) : string :=
  let nd := Z.of_nat (String.length ds) in
  if (decpt <=? -4) || (16 <? decpt) then
    let x := decpt - 1 in
    let e := pretty (Z.abs x) in
    take_string 1 ds
    ++ (if 1 <? nd then "." ++ drop_string 1 ds else "")
    ++ "e" ++ (if x <? 0 then "-" else "+")
    ++ (if Z.abs x <? 10 then "0" else "") ++ e
  else if decpt <=? 0 then "0." ++ zeros (Z.to_nat (- decpt)) ++ ds
  else if nd <=? decpt then ds ++ zeros (Z.to_nat (decpt - nd)) ++ ".0"
  else take_string (Z.to_nat decpt) ds ++ "."
       ++ drop_string (Z.to_nat decpt) ds.

(** [repr] of a float: the shortest decimal that reads back as it. *)
Definition repr_float (f : float) : string :=
  match f with
  | S754_nan => "nan"
  | S754_infinity s => if s then "-inf" else "inf"
  | S754_zero s => if s then "-0.0" else "0.0"
  | S754_finite s m e =>
      let n := if 0 <=? e then Zpos m * 2 ^ e else Zpos m in
      let d := if 0 <=? e then 1 else 2 ^ (- e) in
      let x := decimal_exponent n d in
      match shortest 17 (S754_finite false m e) n d x 1 with
      | Some (dg, x) =>
          (if s then "-" else "")
          ++ layout (pretty (strip_zeros 17 dg)) (x + 1)
      | None => "?"
      end
  end.

Fixpoint repr (v : value) : string :=
  match v with
  | VNone => "None"
  | VBool b => if b then "True" else "False"
  | VInt z => pretty z
  | VFloat f => repr_float f
  | VStr s => repr_str s
  | VList l => "[" ++ join ", " (map repr l) ++ "]"
  | VDict d =>
      "{" ++ join ", " (map (fun kv => repr_str (fst kv) ++ ": " ++ repr (snd kv)) d)
          ++ "}"
  | VSeries _ => "?"
  end.

(** [str] on the fragment. *)
Definition py_str (v : value) : string :=
  match v with
  | VStr s => s
  | _ => repr v
  end.

(** A linear congruential generator. *)
Definition rng : Type := nat.
Definition randbelow (n : nat) (g : rng) : nat * rng :=
  ((g `mod` n)%nat, ((75 * g + 74) `mod` 4093)%nat).

End Runtime.

(** ** Sample exports *)

Module Sample.

Definition identity_rotation : value :=
  VList (map VInt [1; 0; 0; 0; 1; 0; 0; 0; 1]).

Definition transform_of (rotation : value) (center : list Z) : value :=
  VDict [("transform",
          VDict [("rotation", rotation);
                 ("center", VList (map VInt center))])].

Definition pose_entry (id : string) (center : list Z) : value :=
  VDict [("poseId", VStr id);
         ("pose", transform_of identity_rotation center)].

(** A pose whose rotation has eight numbers. *)
Definition short_pose : value :=
  VDict [("poseId", VStr "p1");
         ("pose", transform_of (VList (map VInt [1; 0; 0; 0; 1; 0; 0; 0]))
                               [1; 2; 3])].

Definition view_entry (id path : string) : value :=
  VDict [("poseId", VStr id); ("path", VStr path);
         ("height", VInt 480); ("width", VInt 640)].

Definition point (xyz : list Z) : value :=
  VDict [("X", VList (map VInt xyz))].

Definition intrinsic_entry : value :=
  VDict [("principalPoint", VList [VFloat (fl 100); VFloat (fl 50)]);
         ("focalLength", VFloat (fl 800))].

Definition document (structure views poses : list value) : value :=
  VDict [("structure", VList structure); ("views", VList views);
         ("poses", VList poses); ("intrinsics", VList [intrinsic_entry])].

Definition views5 : list value :=
  [view_entry "p1" "a.jpg"; view_entry "p2" "b.jpg"; view_entry "p3" "c.jpg";
   view_entry "p4" "d.jpg"; view_entry "p5" "e.jpg"].

Definition poses5 : list value :=
  [pose_entry "p1" [1; 2; 3]; pose_entry "p2" [4; 5; 6];
   pose_entry "p3" [7; 8; 9]; pose_entry "p4" [1; 1; 1];
   pose_entry "p5" [2; 2; 2]].

(** A well-formed export: two points, five views and their poses. *)
Definition sfm : value :=
  document [point [1; 2; 3]; point [4; 5; 6]] views5 poses5.

(** The same with a two-coordinate point after a three-coordinate one. *)
Definition sfm_ragged : value :=
  document [point [1; 2; 3]; point [4; 5]] views5 poses5.

(** The same with two views under the pose identifier p1. *)
Definition sfm_duplicate : value :=
  document [point [1; 2; 3]]
           [view_entry "p1" "a.jpg"; view_entry "p1" "b.jpg"]
           [pose_entry "p1" [1; 2; 3]].

(** A pose whose identifier no view carries. *)
Definition sfm_orphan : value :=
  document [point [1; 2; 3]] [view_entry "p1" "a.jpg"]
           [pose_entry "p9" [1; 2; 3]].

Definition disk (doc : value) : gmap string file :=
  {["sfm.json" := TextFile (Some doc)]}.

Definition start (doc : value) : world Runtime.rng :=
  mkWorld (disk doc) 42%nat.

(** The four frames of an export, empty ones when loading fails. *)
Definition frames (doc : value)
  : DataFrame * DataFrame * DataFrame * DataFrame :=
  match extrapolate_json Runtime.float_of_string (disk doc) "sfm.json" with
  | Ok t => t
  | Err _ => let e := mkDF [] [] [] in (e, e, e, e)
  end.

Definition structure_of (doc : value) : DataFrame := (frames doc).1.1.1.
Definition views_of (doc : value) : DataFrame := (frames doc).1.1.2.
Definition poses_of (doc : value) : DataFrame := (frames doc).1.2.
Definition intrinsics_of (doc : value) : DataFrame := (frames doc).2.

(** The records assembled from an export. *)
Definition records (doc : value) : result (list image_record) :=
  assemble Runtime.float_of_string Runtime.py_str Runtime.json_loads
           (views_of doc) (poses_of doc) (intrinsics_of doc).

Definition record_list (doc : value) : list image_record :=
  match records doc with
  | Ok l => l
  | Err _ => []
  end.

(** The first pose row of an export. *)
Definition first_pose (doc : value) : value * Row :=
  match iterrows (poses_of doc) with
  | i :: _ => i
  | [] => (VNone, [])
  end.

(** A pose whose numbers have fractions and exponents: a rotation about
    the vertical axis and a center, as floats. *)
Definition dec (neg : bool) (m e : Z) : value :=
  VFloat (Runtime.float_of_decimal neg m e).

Definition turned_pose : value :=
  VDict [("transform",
          VDict [("rotation",
                  VList [dec false 7071067811865476 (-16); dec true 0 0;
                         dec false 7071067811865476 (-16);
                         dec false 0 0; dec false 1 0; dec false 0 0;
                         dec true 7071067811865476 (-16); dec false 0 0;
                         dec false 7071067811865476 (-16)]);
                 ("center",
                  VList [dec false 125 (-2); dec true 35 (-6);
                         dec false 6 22])])].

(** The record of section 4.2 of the specification. *)
Definition intrinsic_record : value :=
  VDict [("principalPoint", VList [VList [VFloat (fl 100); VFloat (fl 50)]]);
         ("focalLength", VList [VFloat (fl 800)])].

End Sample.

(** * Properties *)

(** ** Exceptions propagate *)

Lemma bind_Ok {A B} (r : result A) (k : A -> result B) (b : B) :
  bind r k = Ok b -> exists a, r = Ok a /\ k a = Ok b.
Proof. destruct r as [a|e]; simpl; [eauto | discriminate]. Qed.

Lemma not_Ok_raises {A} (r : result A) :
  (forall a, r <> Ok a) -> raises r.
Proof.
  destruct r as [a|e]; intros H; [destruct (H a); reflexivity | exists e; reflexivity].
Qed.

Lemma is_ok_true {A} (r : result A) : is_ok r = true -> exists a, r = Ok a.
Proof. destruct r; [eauto | discriminate]. Qed.

(** Peel the successful steps off a hypothesis [bind r k = Ok b]. *)
Ltac bind_inv H :=
  repeat match type of H with
         | bind _ _ = Ok _ =>
             let a := fresh "a" in
             let E := fresh "E" in
             apply bind_Ok in H as (a & E & H)
         end.

Lemma mapM_length {A B} (f : A -> result B) (l : list A) (l' : list B) :
  mapM f l = Ok l' -> length l' = length l.
Proof.
  revert l'. induction l as [|a l IH]; intros l' H; simpl in H.
  - injection H as <-. reflexivity.
  - bind_inv H. injection H as <-. simpl. f_equal. eauto.
Qed.

Lemma mapM_app_Err {A B} (f : A -> result B) pre x post bs e :
  mapM f pre = Ok bs -> f x = Err e -> mapM f (pre ++ x :: post) = Err e.
Proof.
  revert bs. induction pre as [|a pre IH]; intros bs Hpre Hx; simpl.
  - rewrite Hx. reflexivity.
  - simpl in Hpre. bind_inv Hpre. rewrite E. simpl.
    erewrite IH by eauto. reflexivity.
Qed.

Lemma mapM_elem_raises {A B} (f : A -> result B) pre x post :
  raises (f x) -> raises (mapM f (pre ++ x :: post)).
Proof.
  intros [e Hx]. induction pre as [|a pre IH]; simpl.
  - rewrite Hx. exists e. reflexivity.
  - destruct (f a) as [b|e']; simpl; [|eexists; reflexivity].
    destruct IH as [e' ->]. eexists; reflexivity.
Qed.

(** ** Lists, records and labels *)

Lemma find_col_LInt k cols :
  Forall (fun c => exists i, c = LInt i) cols -> find_col cols k = None.
Proof.
  induction 1 as [|c cols [i ->] _ IH]; simpl; [reflexivity|].
  rewrite IH. reflexivity.
Qed.

Lemma range_labels_LInt n :
  Forall (fun c => exists i, c = LInt i) (range_labels n).
Proof.
  unfold range_labels. apply Forall_forall. intros c Hc.
  apply list_elem_of_In, in_map_iff in Hc as (i & <- & _). eauto.
Qed.

Lemma find_col_LStr cols k j :
  find_col (map LStr cols) k = Some j -> cols !! j = Some k.
Proof.
  revert j. induction cols as [|c cols IH]; intros j; simpl; [discriminate|].
  destruct (String.eqb c k) eqn:E.
  - intros [= <-]. apply String.eqb_eq in E as ->. reflexivity.
  - destruct (find_col (map LStr cols) k) as [j'|]; simpl; [|discriminate].
    intros [= <-]. simpl. auto.
Qed.

Lemma mapM_Forall2 {A B} (f : A -> result B) (l : list A) (l' : list B) :
  mapM f l = Ok l' -> Forall2 (fun a b => f a = Ok b) l l'.
Proof.
  revert l'. induction l as [|a l IH]; intros l' H; simpl in H.
  - injection H as <-. constructor.
  - bind_inv H. injection H as <-. constructor; auto.
Qed.

Lemma pad_length (k : nat) (r : list value) :
  (length r <= k)%nat -> length (pad k r) = k.
Proof.
  intros H. unfold pad. rewrite length_app, length_replicate. lia.
Qed.

Lemma dict_get_is_Some (d : list (string * value)) (k : string) :
  is_Some (dict_get d k) <-> k ∈ map fst d.
Proof.
  induction d as [|[k' v] d IH]; simpl.
  - split; [intros [x Hx]; discriminate | intros H; inversion H].
  - destruct (String.eqb k' k) eqn:E.
    + apply String.eqb_eq in E as ->. split; [left | eauto].
    + apply String.eqb_neq in E. rewrite IH. split; [right; assumption|].
      intros H. inversion H; subst; [congruence | assumption].
Qed.

Lemma add_key_elem (ks : list string) (k k' : string) :
  k' ∈ add_key ks k <-> k' ∈ ks \/ k' = k.
Proof.
  unfold add_key. destruct (existsb (String.eqb k) ks) eqn:E.
  - split; [auto|]. intros [H | ->]; [assumption|].
    apply existsb_exists in E as (x & Hx & Hxk).
    apply String.eqb_eq in Hxk as ->. apply list_elem_of_In. assumption.
  - rewrite elem_of_app, list_elem_of_singleton. reflexivity.
Qed.

Lemma fold_add_key_elem (keys ks : list string) (k : string) :
  k ∈ fold_left add_key keys ks <-> k ∈ ks \/ k ∈ keys.
Proof.
  revert ks. induction keys as [|x keys IH]; intros ks; simpl.
  - split; [auto | intros [H | H]; [assumption | inversion H]].
  - rewrite IH, add_key_elem, elem_of_cons. tauto.
Qed.

Lemma union_keys_acc_elem (ds : list (list (string * value)))
    (ks : list string) (k : string) :
  k ∈ fold_left (fun ks d => fold_left add_key (map fst d) ks) ds ks
  <-> k ∈ ks \/ exists d, d ∈ ds /\ k ∈ map fst d.
Proof.
  revert ks. induction ds as [|d ds IH]; intros ks; simpl.
  - split; [auto | intros [H | (d & H & _)]; [assumption | inversion H]].
  - rewrite IH, fold_add_key_elem. split.
    + intros [[H | H] | (d' & H1 & H2)]; [auto | right; exists d; split; [left|assumption] |].
      right. exists d'. split; [right; assumption | assumption].
    + intros [H | (d' & H1 & H2)]; [auto|].
      apply elem_of_cons in H1 as [-> | H1]; [auto|]. right. eauto.
Qed.

(** The columns of a frame of records are the keys that occur in some
    record. *)
Lemma union_keys_elem (ds : list (list (string * value))) (k : string) :
  k ∈ union_keys ds <-> exists d, d ∈ ds /\ is_Some (dict_get d k).
Proof.
  unfold union_keys. rewrite union_keys_acc_elem. split.
  - intros [H | (d & H1 & H2)]; [inversion H|].
    exists d. rewrite dict_get_is_Some. auto.
  - intros (d & H1 & H2). right. exists d. rewrite <- dict_get_is_Some. auto.
Qed.

Lemma find_col_present (cols : list string) (k : string) :
  k ∈ cols -> exists j, find_col (map LStr cols) k = Some j.
Proof.
  induction cols as [|c cols IH]; intros H; [inversion H|]. simpl.
  destruct (String.eqb c k) eqn:E; [eauto|].
  apply String.eqb_neq in E.
  apply elem_of_cons in H as [-> | H]; [congruence|].
  destruct (IH H) as [j ->]. simpl. eauto.
Qed.

Lemma find_col_Some_elem (cols : list string) (k : string) j :
  find_col (map LStr cols) k = Some j -> k ∈ cols.
Proof.
  intros H%find_col_LStr. eapply list_elem_of_lookup_2. eassumption.
Qed.

(** ** Column dtypes *)

Lemma mapM_lookup {A B} (f : A -> result B) (l : list A) (l' : list B) j b :
  mapM f l = Ok l' -> l' !! j = Some b ->
  exists a, l !! j = Some a /\ f a = Ok b.
Proof.
  revert l' j. induction l as [|a l IH]; intros l' j H Hj; simpl in H.
  - injection H as <-. discriminate.
  - bind_inv H. injection H as <-. destruct j as [|j]; simpl in *.
    + injection Hj as <-. eauto.
    + eauto.
Qed.

Lemma mapM_total {A B} (f : A -> result B) (l : list A) :
  (forall a, a ∈ l -> exists b, f a = Ok b) -> exists l', mapM f l = Ok l'.
Proof.
  induction l as [|a l IH]; intros H; simpl; [eauto|].
  destruct (H a) as [b ->]; [left|]. simpl.
  destruct IH as [l' ->]; [intros; apply H; right; assumption|].
  simpl. eauto.
Qed.

Lemma mapM_ext_in {A B} (f g : A -> result B) (l : list A) :
  (forall a, a ∈ l -> f a = g a) -> mapM f l = mapM g l.
Proof.
  induction l as [|a l IH]; intros H; simpl; [reflexivity|].
  rewrite (H a) by left. rewrite IH; [reflexivity|].
  intros; apply H; right; assumption.
Qed.

Lemma mapM_elem_Ok {A B} (f : A -> result B) (l : list A) (l' : list B) a :
  mapM f l = Ok l' -> a ∈ l -> exists b, f a = Ok b.
Proof.
  revert l'. induction l as [|x l IH]; intros l' H Ha; simpl in H.
  - inversion Ha.
  - bind_inv H. inversion Ha; subst; eauto.
Qed.

Lemma see_stop s v s' : see s v = Ok (s', true) -> object_ s' = true.
Proof.
  unfold see. destruct v as [| |z|[]| | | |]; try discriminate;
    try (intros [= <-]; reflexivity).
  destruct (float_of_Z z); simpl; [|discriminate].
  destruct (null_ s); [discriminate|].
  case_match; [|discriminate]. intros [= <-]. reflexivity.
Qed.

Lemma see_object s v : is_object v = true -> see s v = Ok (saw_object s, true).
Proof. destruct v; try discriminate; reflexivity. Qed.

Lemma see_int s z r : see s (VInt z) = Ok r -> float_of_Z z = Ok (fl z).
Proof.
  unfold see, float_of_Z, fl.
  destruct (binary_normalize prec emax z 0 false); simpl;
    try discriminate; reflexivity.
Qed.

Lemma scan_object s col s' :
  scan s col = Ok s' -> (exists v, v ∈ col /\ is_object v = true) ->
  object_ s' = true.
Proof.
  revert s. induction col as [|v col IH]; intros s H (x & Hx & Ho).
  - inversion Hx.
  - simpl in H. bind_inv H. destruct a as [s1 [|]].
    + injection H as <-. eapply see_stop; eassumption.
    + inversion Hx; subst.
      * rewrite see_object in E by assumption. discriminate.
      * eapply IH; eauto.
Qed.

Lemma result_dtype_object s : object_ s = true -> result_dtype s = DObject.
Proof. unfold result_dtype. intros ->. reflexivity. Qed.

Lemma infer_dtype_object col dt :
  infer_dtype col = Ok dt -> (exists v, v ∈ col /\ is_object v = true) ->
  dt = DObject.
Proof.
  unfold infer_dtype. intros H Hv. bind_inv H. injection H as <-.
  apply result_dtype_object. eapply scan_object; eassumption.
Qed.

Lemma dtype_of_object col :
  (exists v, v ∈ col /\ is_object v = true) -> dtype_of col = DObject.
Proof.
  unfold dtype_of. intros Hv. destruct (infer_dtype col) eqn:E; [|reflexivity].
  eapply infer_dtype_object; eassumption.
Qed.

Lemma result_dtype_DFloat s : result_dtype s = DFloat -> object_ s = false.
Proof.
  unfold result_dtype. destruct (object_ s); [discriminate|reflexivity].
Qed.

(** A column that got a numeric dtype was scanned to its end: each of
    its ints has a double. *)
Lemma scan_ints s col s' z :
  scan s col = Ok s' -> object_ s' = false -> VInt z ∈ col ->
  float_of_Z z = Ok (fl z).
Proof.
  revert s. induction col as [|v col IH]; intros s H Ho Hz.
  - inversion Hz.
  - simpl in H. bind_inv H. destruct a as [s1 [|]].
    + injection H as <-. apply see_stop in E. congruence.
    + inversion Hz; subst; [eapply see_int; eassumption | eauto].
Qed.

Lemma infer_dtype_DFloat_int col z :
  infer_dtype col = Ok DFloat -> VInt z ∈ col -> float_of_Z z = Ok (fl z).
Proof.
  unfold infer_dtype. intros H Hz. bind_inv H. injection H as H.
  eapply scan_ints; eauto using result_dtype_DFloat.
Qed.

Lemma see_total s v :
  (forall z, v = VInt z -> exists f, float_of_Z z = Ok f) ->
  exists r, see s v = Ok r.
Proof.
  intros H. destruct v as [| |z|[]| | | |]; simpl; eauto.
  destruct (H z eq_refl) as [f ->]. simpl.
  destruct (null_ s); [eauto|]. case_match; eauto.
Qed.

Lemma scan_total s col :
  (forall z, VInt z ∈ col -> exists f, float_of_Z z = Ok f) ->
  exists s', scan s col = Ok s'.
Proof.
  revert s. induction col as [|v col IH]; intros s H; simpl; [eauto|].
  destruct (see_total s v) as [[s1 stop] ->].
  { intros z ->. apply H. left. }
  simpl. destruct stop; [eauto|]. apply IH. intros z Hz. apply H. right. assumption.
Qed.

Lemma infer_dtype_total col :
  (forall z, VInt z ∈ col -> exists f, float_of_Z z = Ok f) ->
  exists dt, infer_dtype col = Ok dt.
Proof.
  intros H. unfold infer_dtype. destruct (scan_total Seen_init col H) as [s ->].
  simpl. eauto.
Qed.

Lemma convert_cell_object dt v : is_object v = true -> convert_cell dt v = v.
Proof. destruct dt, v; try discriminate; reflexivity. Qed.

Lemma column_cells_elem j (rs : list (list value)) r v :
  r ∈ rs -> r !! j = Some v -> v ∈ column_cells j rs.
Proof.
  intros Hr Hv. unfold column_cells. apply list_elem_of_fmap.
  exists r. rewrite Hv. auto.
Qed.

Lemma column_cells_inv j (rs : list (list value)) v :
  v ∈ column_cells j rs -> v = VNone \/ exists r, r ∈ rs /\ r !! j = Some v.
Proof.
  unfold column_cells. intros (r & -> & Hr)%list_elem_of_fmap.
  destruct (r !! j) eqn:E; simpl; eauto.
Qed.

Lemma infer_dtypes_length k rs dts :
  infer_dtypes k rs = Ok dts -> length dts = k.
Proof.
  unfold infer_dtypes. intros H. apply mapM_length in H.
  rewrite H, length_seq. reflexivity.
Qed.

Lemma infer_dtypes_lookup k rs dts j dt :
  infer_dtypes k rs = Ok dts -> dts !! j = Some dt ->
  infer_dtype (column_cells j rs) = Ok dt.
Proof.
  unfold infer_dtypes. intros H Hj.
  destruct (mapM_lookup _ _ _ _ _ H Hj) as (a & Ha & Hf).
  apply lookup_seq in Ha as [-> _]. assumption.
Qed.

Lemma convert_object_array_inv k rs cells :
  convert_object_array k rs = Ok cells ->
  exists dts, infer_dtypes k rs = Ok dts /\ length dts = k
              /\ cells = map (zip_with convert_cell dts) rs.
Proof.
  unfold convert_object_array. intros H. bind_inv H. injection H as <-.
  eauto using infer_dtypes_length.
Qed.

(** The cell a frame of records holds for a record and a key: the
    record's object for the key, under the dtype of the key's column. *)
Lemma record_cell (ds : list (list (string * value))) dts d k :
  infer_dtypes (length (union_keys ds))
    (map (fun d => map (cell_of d) (union_keys ds)) ds) = Ok dts ->
  d ∈ ds -> k ∈ union_keys ds ->
  exists j dt,
    find_col (map LStr (union_keys ds)) k = Some j
    /\ union_keys ds !! j = Some k
    /\ dts !! j = Some dt
    /\ infer_dtype (column_cells j
         (map (fun d => map (cell_of d) (union_keys ds)) ds)) = Ok dt
    /\ cell_of d k ∈ column_cells j
         (map (fun d => map (cell_of d) (union_keys ds)) ds)
    /\ zip_with convert_cell dts (map (cell_of d) (union_keys ds)) !! j
       = Some (convert_cell dt (cell_of d k)).
Proof.
  intros Hdts Hd Hk.
  destruct (find_col_present _ _ Hk) as [j Hj]. exists j.
  pose proof (find_col_LStr _ _ _ Hj) as Hc.
  destruct (lookup_lt_is_Some_2 dts j) as [dt Hdt].
  { rewrite (infer_dtypes_length _ _ _ Hdts). eapply lookup_lt_Some. eassumption. }
  exists dt. split; [exact Hj|]. split; [exact Hc|]. split; [exact Hdt|].
  split; [eapply infer_dtypes_lookup; eassumption|]. split.
  - eapply column_cells_elem.
    + apply list_elem_of_fmap. exists d. split; [reflexivity|exact Hd].
    + rewrite list_lookup_fmap, Hc. reflexivity.
  - rewrite lookup_zip_with, Hdt, list_lookup_fmap, Hc. reflexivity.
Qed.

(** A text label matches a cell exactly when it matches the object the
    cell was built from. *)
Lemma label_match_text_convert id dt v :
  label_match (VStr id) (convert_cell dt v) = label_match (VStr id) v.
Proof. destruct dt, v; reflexivity. Qed.

(** A row that crosses a column of dtype [object] keeps its cells. *)
Lemma upcasts_object dts : DObject ∈ dts -> upcasts dts = false.
Proof.
  intros H. unfold upcasts.
  assert (Hn : forallb is_numeric dts = false); [|rewrite Hn; reflexivity].
  induction dts as [|dt dts IH]; [inversion H|].
  apply elem_of_cons in H as [<-|H]; simpl; [reflexivity|].
  rewrite IH by exact H. apply andb_false_r.
Qed.

Lemma interleave_object (df : DataFrame) c r x r' :
  (c < length (columns df))%nat -> r ∈ rows df -> r !! c = Some x ->
  is_object x = true -> interleave (frame_dtypes df) r' = r'.
Proof.
  intros Hc Hr Hx Ho. unfold interleave. rewrite upcasts_object; [reflexivity|].
  unfold frame_dtypes. apply list_elem_of_fmap. exists c. split.
  - symmetry. apply dtype_of_object. exists x. split; [|exact Ho].
    eapply column_cells_elem; eassumption.
  - apply elem_of_seq. lia.
Qed.

Lemma row_get_zip (cols : list string) (r : list value) k c x :
  find_col (map LStr cols) k = Some c -> r !! c = Some x ->
  row_get (zip (map LStr cols) r) k = Some x.
Proof.
  revert r c. induction cols as [|c0 cols IH]; intros r c Hc Hx;
    [discriminate|].
  simpl in Hc. destruct r as [|a r]; [discriminate|]. simpl.
  destruct (String.eqb c0 k).
  - injection Hc as <-. exact Hx.
  - destruct (find_col (map LStr cols) k) as [c1|] eqn:E; [|discriminate].
    injection Hc as <-. eapply IH; [reflexivity|exact Hx].
Qed.

(** Where a column is found once another one is taken out. *)
Lemma find_col_delete (cols : list string) j kj k c :
  cols !! j = Some kj -> k <> kj ->
  find_col (map LStr cols) k = Some c ->
  exists c', find_col (map LStr (delete j cols)) k = Some c'
             /\ forall r : list value, delete j r !! c' = r !! c.
Proof.
  revert j c. induction cols as [|c0 cols IH]; intros j c Hj Hne Hc;
    [discriminate|].
  simpl in Hc. destruct j as [|j]; simpl in Hj.
  - injection Hj as ->.
    destruct (String.eqb_spec kj k) as [->|_]; [congruence|].
    destruct (find_col (map LStr cols) k) as [c1|] eqn:E; [|discriminate].
    injection Hc as <-. exists c1. split; [exact E|].
    intros [|a r]; reflexivity.
  - destruct (String.eqb c0 k) eqn:E0.
    + injection Hc as <-. exists O. split; [simpl; rewrite E0; reflexivity|].
      intros [|a r]; reflexivity.
    + destruct (find_col (map LStr cols) k) as [c1|] eqn:E; [|discriminate].
      injection Hc as <-.
      destruct (IH j c1 Hj Hne eq_refl) as (c' & Hc' & Hr).
      exists (S c'). split; [simpl; rewrite E0, Hc'; reflexivity|].
      intros [|a r]; [reflexivity|]. apply Hr.
Qed.

Lemma find_col_lt cols k c : find_col cols k = Some c -> (c < length cols)%nat.
Proof.
  revert c. induction cols as [|c0 cols IH]; intros c; simpl; [discriminate|].
  destruct (label_is k c0); [intros [= <-]; lia|].
  destruct (find_col cols k) as [c1|]; [|discriminate].
  intros [= <-]. specialize (IH c1 eq_refl). lia.
Qed.

(** ** Frames *)

Section Properties.

Variable float_of_string : string -> option float.
Variable py_str : value -> string.
Variable json_loads : string -> result value.
Variable rng : Type.
Variable randbelow : nat -> rng -> nat * rng.

Lemma pd_DataFrame_columns_labels data cols df :
  pd_DataFrame_columns data cols = Ok df -> columns df = map LStr cols.
Proof.
  unfold pd_DataFrame_columns. intros H.
  destruct data as [|x data]; [injection H as <-; reflexivity|].
  destruct x; repeat (bind_inv H; try case_match; try discriminate);
    injection H as <-; reflexivity.
Qed.

Lemma astype_float_labels df df' :
  astype_float float_of_string df = Ok df' ->
  columns df' = columns df /\ index df' = index df.
Proof.
  unfold astype_float. intros H. bind_inv H. injection H as <-. auto.
Qed.

Lemma extrapolate_json_structure_labels fs name s v p i :
  extrapolate_json float_of_string fs name = Ok (s, v, p, i) ->
  columns s = [LStr "x"; LStr "y"; LStr "z"].
Proof.
  unfold extrapolate_json. intros H. bind_inv H. injection H as <- _ _ _.
  match goal with
  | H1 : astype_float _ _ = Ok _, H2 : pd_DataFrame_columns _ _ = Ok _ |- _ =>
      apply astype_float_labels in H1 as [-> _];
      apply pd_DataFrame_columns_labels in H2 as ->
  end.
  reflexivity.
Qed.

(** The structure frame has no column X: selecting it raises. *)
Lemma write_point_cloud_KeyError (s : DataFrame) (w : world rng) :
  columns s = [LStr "x"; LStr "y"; LStr "z"] ->
  write_point_cloud float_of_string s w = (Err (KeyError (VStr "X")), w).
Proof.
  intros Hc. unfold write_point_cloud, bindM, lift.
  unfold getitem, DataFrame_GetItem, df_column. rewrite Hc. reflexivity.
Qed.

(** C2: whenever [extrapolate_json] succeeds on sfm.json,
    [convert_sfm_to_parquet] raises KeyError X where it selects column X
    of the structure frame, whose columns are x, y, z; the world it
    leaves is the one it started in, so neither point_cloud.parquet nor
    train.json nor val.json is written. *)
Theorem convert_raises_KeyError_X (w : world rng) :
  is_ok (extrapolate_json float_of_string (files w) "sfm.json") = true ->
  convert_sfm_to_parquet float_of_string py_str json_loads randbelow w
  = (Err (KeyError (VStr "X")), w).
Proof.
  intros H. apply is_ok_true in H as ([[[s v] p] i] & H).
  unfold convert_sfm_to_parquet, bindM at 1, read_sfm. rewrite H.
  unfold bindM at 1.
  rewrite write_point_cloud_KeyError
    by (eapply extrapolate_json_structure_labels; eassumption).
  reflexivity.
Qed.

(** ** The two matrix builders *)

Lemma list_item_Ok {A} (l : list A) i x :
  list_item l i = Ok x -> l !! i = Some x.
Proof. unfold list_item. destruct (l !! i); congruence. Qed.

Lemma list_item_lt {A} (l : list A) i x :
  list_item l i = Ok x -> (i < length l)%nat.
Proof. intros H%list_item_Ok. eapply lookup_lt_Some; eassumption. Qed.

(** [prepare_intrinsic] on anything subscriptable: the record of the
    specification, or the frame the script passes. *)
Lemma prepare_intrinsic_getitem {T} `{GetItem T} (intrinsic : T)
    pp p0 x y fs f0 cx cy f :
  getitem intrinsic "principalPoint" = Ok pp ->
  getitem_nat pp 0 = Ok p0 ->
  getitem_nat p0 0 = Ok x ->
  getitem_nat p0 1 = Ok y ->
  getitem intrinsic "focalLength" = Ok fs ->
  getitem_nat fs 0 = Ok f0 ->
  py_float float_of_string x = Ok cx ->
  py_float float_of_string y = Ok cy ->
  py_float float_of_string f0 = Ok f ->
  prepare_intrinsic float_of_string intrinsic
  = Ok [[VFloat f; VInt 0; VFloat cx];
        [VInt 0; VFloat f; VFloat cy];
        [VInt 0; VInt 0; VInt 1]].
Proof.
  intros Hpp Hp0 Hx Hy Hfs Hf0 Hcx Hcy Hf. unfold prepare_intrinsic.
  rewrite Hpp. simpl. rewrite Hp0. simpl. rewrite Hx. simpl.
  rewrite Hcx. simpl. rewrite Hy. simpl. rewrite Hcy. simpl.
  rewrite Hfs. simpl. rewrite Hf0. simpl. rewrite Hf. reflexivity.
Qed.

(** C6: for an intrinsic record whose principalPoint starts with a pair
    [x, y] and whose focalLength starts with a scalar [f0], all three
    numbers, [prepare_intrinsic] returns [[f,0,cx],[0,f,cy],[0,0,1]]
    where cx, cy and f are the floats of x, y and f0: the skew and
    the lower triangle are the ints 0, the corner is the int 1, and
    the same f sits at [0][0] and [1][1]. *)
Theorem prepare_intrinsic_matrix (d : list (string * value))
    (x y f0 : value) (rest more more' : list value) (cx cy f : float) :
  dict_get d "principalPoint" = Some (VList (VList (x :: y :: rest) :: more)) ->
  dict_get d "focalLength" = Some (VList (f0 :: more')) ->
  py_float float_of_string x = Ok cx ->
  py_float float_of_string y = Ok cy ->
  py_float float_of_string f0 = Ok f ->
  prepare_intrinsic float_of_string (VDict d)
  = Ok [[VFloat f; VInt 0; VFloat cx];
        [VInt 0; VFloat f; VFloat cy];
        [VInt 0; VInt 0; VInt 1]].
Proof.
  intros Hpp Hfs Hcx Hcy Hf.
  eapply prepare_intrinsic_getitem; try eassumption;
    unfold getitem, value_GetItem, getitem_str;
    rewrite ?Hpp, ?Hfs; reflexivity.
Qed.

(** The same on the intrinsics frame, as [convert_sfm_to_parquet] calls
    it: the cells of the first row are read. *)
Lemma prepare_intrinsic_frame (df : DataFrame) jp jf r rs
    (x y f0 : value) (rest : list value) (cx cy f : float) :
  find_col (columns df) "principalPoint" = Some jp ->
  find_col (columns df) "focalLength" = Some jf ->
  rows df = r :: rs ->
  r !! jp = Some (VList (x :: y :: rest)) ->
  r !! jf = Some f0 ->
  py_float float_of_string x = Ok cx ->
  py_float float_of_string y = Ok cy ->
  py_float float_of_string f0 = Ok f ->
  prepare_intrinsic float_of_string df
  = Ok [[VFloat f; VInt 0; VFloat cx];
        [VInt 0; VFloat f; VFloat cy];
        [VInt 0; VInt 0; VInt 1]].
Proof.
  intros Hjp Hjf Hr Hp Hf0 Hcx Hcy Hf.
  eapply prepare_intrinsic_getitem; try eassumption;
    unfold getitem, DataFrame_GetItem, df_column;
    rewrite ?Hjp, ?Hjf, ?Hr; simpl; rewrite ?Hp, ?Hf0; reflexivity.
Qed.

(** C7: when the re-parsed pose holds a rotation list of at least 9
    numbers and a center list of at least 3 numbers,
    [prepare_rototranslation] returns a 4x4 matrix: its last row is
    [0,0,0,1], entry (i,j) of the upper-left 3x3 block is rotation value
    3i+j, and entry (i,3) is center value i, all as floats. *)
Theorem prepare_rototranslation_matrix {T} `{GetItem T} (original : T)
    (pose data tr : value) (rs ts : list value) (rot cen : list float) :
  getitem original "pose" = Ok pose ->
  reparse py_str json_loads pose = Ok data ->
  getitem_str data "transform" = Ok tr ->
  getitem_str tr "rotation" = Ok (VList rs) ->
  getitem_str tr "center" = Ok (VList ts) ->
  mapM (py_float float_of_string) rs = Ok rot ->
  mapM (py_float float_of_string) ts = Ok cen ->
  (9 <= length rs)%nat ->
  (3 <= length ts)%nat ->
  exists m,
    prepare_rototranslation float_of_string py_str json_loads original = Ok m
    /\ length m = 4%nat
    /\ Forall (fun r => length r = 4%nat) m
    /\ m !! 3%nat = Some [VInt 0; VInt 0; VInt 0; VInt 1]
    /\ (forall i j, (i < 3)%nat -> (j < 3)%nat ->
          entry m i j = VFloat <$> rot !! (3 * i + j)%nat)
    /\ (forall i, (i < 3)%nat -> entry m i 3 = VFloat <$> cen !! i).
Proof.
  intros Hpose Hdata Htr Hrot Hcen Hrs Hts Hn9 Hn3.
  apply mapM_length in Hrs as Hlr. apply mapM_length in Hts as Hlt.
  destruct rot as [|r0 [|r1 [|r2 [|r3 [|r4 [|r5 [|r6 [|r7 [|r8 rot]]]]]]]]];
    simpl in Hlr; try lia.
  destruct cen as [|t0 [|t1 [|t2 cen]]]; simpl in Hlt; try lia.
  eexists. split.
  - unfold prepare_rototranslation.
    rewrite Hpose. simpl. rewrite Hdata. simpl. rewrite Htr. simpl.
    rewrite Hrot, Hcen. simpl. rewrite Hrs. simpl. rewrite Hts. simpl.
    reflexivity.
  - split; [reflexivity|]. split; [repeat constructor|].
    split; [reflexivity|]. split.
    + intros i j Hi Hj.
      destruct i as [|[|[|i]]]; try lia;
        destruct j as [|[|[|j]]]; try lia; reflexivity.
    + intros i Hi. destruct i as [|[|[|i]]]; try lia; reflexivity.
Qed.

(** C9: [prepare_rototranslation] raises when the normalized pose text
    does not parse, and when the parsed transform has a rotation list
    of fewer than 9 elements or a center list of fewer than 3. *)
Theorem prepare_rototranslation_raises {T} `{GetItem T} (original : T)
    (pose : value) :
  getitem original "pose" = Ok pose ->
  (raises (reparse py_str json_loads pose)
   \/ exists data tr,
        reparse py_str json_loads pose = Ok data
        /\ getitem_str data "transform" = Ok tr
        /\ ((exists rs, getitem_str tr "rotation" = Ok (VList rs)
                        /\ (length rs < 9)%nat)
            \/ (exists ts, getitem_str tr "center" = Ok (VList ts)
                           /\ (length ts < 3)%nat))) ->
  raises (prepare_rototranslation float_of_string py_str json_loads original).
Proof.
  intros Hpose [[e He] | (data & tr & Hdata & Htr & Hshort)].
  - exists e. unfold prepare_rototranslation.
    rewrite Hpose. simpl. rewrite He. reflexivity.
  - apply not_Ok_raises. intros m Hm. unfold prepare_rototranslation in Hm.
    rewrite Hpose in Hm. simpl in Hm. rewrite Hdata in Hm. simpl in Hm.
    rewrite Htr in Hm. simpl in Hm. bind_inv Hm.
    destruct Hshort as [(rs & Hrot & Hlen) | (ts & Hcen & Hlen)].
    + match goal with
      | H1 : getitem_str tr "rotation" = Ok ?a |- _ =>
          rewrite Hrot in H1; injection H1 as <-
      end.
      match goal with
      | H1 : py_list (VList rs) = Ok ?a |- _ => injection H1 as <-
      end.
      match goal with
      | H1 : mapM _ rs = Ok ?a, H2 : list_item ?a 8 = Ok _ |- _ =>
          apply mapM_length in H1; apply list_item_lt in H2; lia
      end.
    + match goal with
      | H1 : getitem_str tr "center" = Ok ?a |- _ =>
          rewrite Hcen in H1; injection H1 as <-
      end.
      match goal with
      | H1 : py_list (VList ts) = Ok ?a |- _ => injection H1 as <-
      end.
      match goal with
      | H1 : mapM _ ts = Ok ?a, H2 : list_item ?a 2 = Ok _ |- _ =>
          apply mapM_length in H1; apply list_item_lt in H2; lia
      end.
Qed.

(** ** Assembly *)

Lemma df_loc_absent (images : DataFrame) (id : value) :
  hashable id = true ->
  loc_rows images id = [] ->
  df_loc images id = Err (KeyError id).
Proof.
  intros Hh Hr. unfold df_loc. rewrite Hr.
  destruct id; try reflexivity; discriminate.
Qed.

Lemma write_manifests_assemble_Err images poses intrinsic e (w : world rng) :
  assemble float_of_string py_str json_loads images poses intrinsic = Err e ->
  write_manifests float_of_string py_str json_loads randbelow
    images poses intrinsic w = (Err e, w).
Proof.
  intros H. unfold write_manifests, bindM at 1, lift. rewrite H. reflexivity.
Qed.

(** C8: a pose whose identifier (a string, a number) labels no row of
    the view table makes the loop body raise KeyError on that
    identifier.  Nothing catches it: the loop over any pose table
    holding that pose raises, with that very KeyError when the poses
    before it assemble, and the run ends there with the world as it
    was. *)
Theorem assemble_absent_view (images intrinsic : DataFrame)
    (i : value * Row) (id : value) :
  getitem (snd i) "poseId" = Ok id ->
  hashable id = true ->
  loc_rows images id = [] ->
  assemble_one float_of_string py_str json_loads images intrinsic i
  = Err (KeyError id)
  /\ forall poses (pre post : list (value * Row)),
       iterrows poses = (pre ++ i :: post)%list ->
       raises (assemble float_of_string py_str json_loads
                 images poses intrinsic)
       /\ (forall (w : world rng), exists e,
             write_manifests float_of_string py_str json_loads randbelow
               images poses intrinsic w = (Err e, w))
       /\ (is_ok (mapM (assemble_one float_of_string py_str json_loads
                          images intrinsic) pre) = true ->
           assemble float_of_string py_str json_loads images poses intrinsic
           = Err (KeyError id)
           /\ forall (w : world rng),
                write_manifests float_of_string py_str json_loads randbelow
                  images poses intrinsic w = (Err (KeyError id), w)).
Proof.
  intros Hid Hh Hr.
  assert (Hone : assemble_one float_of_string py_str json_loads
                   images intrinsic i = Err (KeyError id)).
  { unfold assemble_one. rewrite Hid. simpl.
    rewrite df_loc_absent by assumption. reflexivity. }
  split; [exact Hone|]. intros poses pre post Hrows.
  assert (Hr' : raises (assemble float_of_string py_str json_loads
                          images poses intrinsic)).
  { unfold assemble. rewrite Hrows. apply mapM_elem_raises.
    eexists; exact Hone. }
  split; [exact Hr'|]. split.
  - intros w. destruct Hr' as [e He]. exists e.
    apply write_manifests_assemble_Err. exact He.
  - intros Hpre. apply is_ok_true in Hpre as [recs Hpre].
    assert (Ha : assemble float_of_string py_str json_loads
                   images poses intrinsic = Err (KeyError id)).
    { unfold assemble. rewrite Hrows. eapply mapM_app_Err; eassumption. }
    split; [exact Ha|]. intros w.
    apply write_manifests_assemble_Err. exact Ha.
Qed.

(** ** The view table *)

(** A frame that has a text column was built from a non-empty list of
    records: its cells are the records' objects, each column with its
    dtype. *)
Lemma pd_DataFrame_text_column v df k j :
  pd_DataFrame v = Ok df ->
  find_col (columns df) k = Some j ->
  exists l ds dts,
    v = VList l /\ mapM as_dict l = Ok ds
    /\ infer_dtypes (length (union_keys ds))
         (map (fun d => map (cell_of d) (union_keys ds)) ds) = Ok dts
    /\ df = mkDF (map LStr (union_keys ds)) (range_index (length ds))
                 (map (fun d => zip_with convert_cell dts
                                  (map (cell_of d) (union_keys ds))) ds).
Proof.
  unfold pd_DataFrame. intros H Hj.
  destruct v as [| | | | |l| |]; try discriminate.
  - injection H as <-. discriminate.
  - destruct l as [|x l]; [injection H as <-; discriminate|].
    destruct x; try (bind_inv H; injection H as <-; discriminate).
    + bind_inv H. injection H as <-. simpl in Hj.
      rewrite find_col_LInt in Hj by apply range_labels_LInt. discriminate.
    + bind_inv H. injection H as <-.
      match goal with
      | H1 : convert_object_array _ _ = Ok _ |- _ =>
          apply convert_object_array_inv in H1 as (dts & Hdts & _ & ->)
      end.
      rewrite map_map. eauto 10.
Qed.

Lemma loc_rows_count {A} (f : A -> value) (g : A -> list value)
    (cols : list label) (l : list A) (key : value) :
  loc_rows (mkDF cols (map f l) (map g l)) key
  = map (fun d => (f d, g d))
        (filter (fun d => label_match key (f d) = true) l).
Proof.
  unfold loc_rows. simpl. induction l as [|d l IH]; [reflexivity|].
  simpl. rewrite !filter_cons. simpl.
  destruct (decide (label_match key (f d) = true)); simpl; rewrite IH; reflexivity.
Qed.

(** A label carried by two rows or more selects the frame of those
    rows. *)
Lemma df_loc_many (df : DataFrame) (key : value)
    (irs : list (value * list value)) :
  hashable key = true -> loc_rows df key = irs -> (2 <= length irs)%nat ->
  df_loc df key = Ok (ManyRows (frame_of_rows df irs)).
Proof.
  intros Hh Hloc Hlen. unfold df_loc. rewrite Hloc.
  destruct irs as [|[l1 r1] [|ir2 irs]]; simpl in Hlen; try lia.
  destruct key; try discriminate; reflexivity.
Qed.

(** The cell a frame of records holds for a value that is text, a list
    or a dict is that value. *)
Lemma record_cell_object (ds : list (list (string * value))) dts d k x :
  infer_dtypes (length (union_keys ds))
    (map (fun d => map (cell_of d) (union_keys ds)) ds) = Ok dts ->
  d ∈ ds -> dict_get d k = Some x -> is_object x = true ->
  exists c, union_keys ds !! c = Some k
            /\ zip_with convert_cell dts (map (cell_of d) (union_keys ds)) !! c
               = Some x.
Proof.
  intros Hdts Hd Hx Ho.
  assert (Hk : k ∈ union_keys ds).
  { apply union_keys_elem. exists d. split; [assumption|]. rewrite Hx. eauto. }
  destruct (proj1 (list_elem_of_lookup _ _) Hk) as [c Hc].
  exists c. split; [assumption|].
  apply infer_dtypes_length in Hdts.
  destruct (lookup_lt_is_Some_2 dts c) as [dt Hdt].
  { rewrite Hdts. eapply lookup_lt_Some. eassumption. }
  rewrite lookup_zip_with, Hdt, list_lookup_fmap, Hc. simpl.
  unfold cell_of. rewrite Hx. rewrite convert_cell_object by assumption.
  reflexivity.
Qed.

(** C3, as the code has it: [set_index] neither drops, merges nor
    overwrites rows.  The view table of a loaded export has one row per
    element of views, in input order; row n holds the cells of the n-th
    element (each one that element's own value, under the dtype of its
    column: a value that is text, a list or a dict is kept as it is)
    and is labelled by that element's poseId cell.  A lookup of a label
    yields every row carrying it, with its cells, in input order: a
    poseId shared by k >= 2 views selects the frame of those k rows,
    not a single row. *)
Theorem views_keep_every_row fs name (s views p i : DataFrame) :
  extrapolate_json float_of_string fs name = Ok (s, views, p, i) ->
  exists data vs ds dts j,
    json_load fs name = Ok data
    /\ getitem_str data "views" = Ok (VList vs)
    /\ mapM as_dict vs = Ok ds
    /\ union_keys ds !! j = Some "poseId"
    /\ infer_dtypes (length (union_keys ds))
         (map (fun d => map (cell_of d) (union_keys ds)) ds) = Ok dts
    /\ let cells d :=
         zip_with convert_cell dts (map (cell_of d) (union_keys ds)) in
       let lab d := default VNone (cells d !! j) in
       columns views = delete j (map LStr (union_keys ds))
       /\ index views = map lab ds
       /\ rows views = map (fun d => delete j (cells d)) ds
       /\ (forall d k x,
             d ∈ ds -> dict_get d k = Some x -> is_object x = true ->
             exists c, union_keys ds !! c = Some k /\ cells d !! c = Some x)
       /\ forall key,
            let same := filter (fun d => label_match key (lab d) = true) ds in
            loc_rows views key = map (fun d => (lab d, delete j (cells d))) same
            /\ (hashable key = true -> (2 <= length same)%nat ->
                df_loc views key
                = Ok (ManyRows
                        (mkDF (columns views) (map lab same)
                              (map (fun d => delete j (cells d)) same)))).
Proof.
  unfold extrapolate_json. intros H. bind_inv H. injection H as _ <- _ _.
  match goal with
  | H1 : pd_DataFrame ?v = Ok ?df, H2 : set_index ?df "poseId" = Ok _ |- _ =>
      unfold set_index in H2;
      destruct (find_col (columns df) "poseId") as [j|] eqn:Hj; [|discriminate];
      destruct (pd_DataFrame_text_column _ _ _ _ H1 Hj)
        as (vs & ds & dts & -> & Hds & Hdts & ->);
      injection H2 as <-; simpl in Hj
  end.
  apply find_col_LStr in Hj.
  exists a, vs, ds, dts, j.
  split; [assumption|]. split; [assumption|]. split; [assumption|].
  split; [assumption|]. split; [assumption|].
  cbn [columns index rows]. rewrite !map_map.
  split; [reflexivity|]. split; [reflexivity|]. split; [reflexivity|].
  split; [intros d k x; apply record_cell_object; assumption|].
  intros key.
  set (lab := fun d : list (string * value) =>
                default VNone
                  (zip_with convert_cell dts (map (cell_of d) (union_keys ds)) !! j)).
  set (row := fun d : list (string * value) =>
                delete j (zip_with convert_cell dts (map (cell_of d) (union_keys ds)))).
  set (same := filter (fun d => label_match key (lab d) = true) ds).
  assert (Hloc : loc_rows
            (mkDF (delete j (map LStr (union_keys ds))) (map lab ds) (map row ds)) key
          = map (fun d => (lab d, row d)) same).
  { apply (loc_rows_count lab row). }
  split; [exact Hloc|].
  intros Hh Hlen.
  erewrite df_loc_many; [|exact Hh|exact Hloc|rewrite length_map; exact Hlen].
  unfold frame_of_rows. cbn [columns]. rewrite !map_map. reflexivity.
Qed.

(** ** The point table *)

Lemma mapM_py_list_VList (rs : list (list value)) :
  mapM py_list (map VList rs) = Ok rs.
Proof.
  induction rs as [|r rs IH]; [reflexivity|]. simpl. rewrite IH. reflexivity.
Qed.

Lemma width_ge (rs : list (list value)) r :
  r ∈ rs -> (length r <= width rs)%nat.
Proof.
  intros Hr. unfold width. apply max_list_elem_of_le.
  apply list_elem_of_fmap. eauto.
Qed.

Lemma width_lt (rs : list (list value)) n :
  (0 < n)%nat -> (forall r, r ∈ rs -> (length r < n)%nat) -> (width rs < n)%nat.
Proof.
  intros Hn. unfold width. induction rs as [|r rs IH]; intros H; simpl; [lia|].
  assert (length r < n)%nat by (apply H; left).
  assert (max_list (map length rs) < n)%nat by (apply IH; intros; apply H; right; assumption).
  lia.
Qed.

Lemma mapM_fmap {A B C} (g : A -> B) (f : B -> result C) (l : list A) :
  mapM f (map g l) = mapM (fun a => f (g a)) l.
Proof.
  induction l as [|a l IH]; [reflexivity|]. simpl. rewrite IH. reflexivity.
Qed.

Lemma mapM_zip_with_ext {A B C} (f : B -> result C) (g : A -> B -> B)
    (l1 : list A) (l2 : list B) :
  (length l2 <= length l1)%nat ->
  (forall j a b, l1 !! j = Some a -> l2 !! j = Some b -> f (g a b) = f b) ->
  mapM f (zip_with g l1 l2) = mapM f l2.
Proof.
  revert l1. induction l2 as [|b l2 IH]; intros l1 Hlen H.
  - destruct l1; reflexivity.
  - destruct l1 as [|a l1]; simpl in Hlen; [lia|]. simpl.
    rewrite (H O a b) by reflexivity.
    rewrite IH; [reflexivity|lia|].
    intros j a' b' Ha Hb. apply (H (S j)); assumption.
Qed.

(** [astype(float)] reads a cell as it reads the object the cell was
    built from. *)
Lemma convert_cell_np_float col dt v :
  infer_dtype col = Ok dt -> v ∈ col ->
  np_float float_of_string (convert_cell dt v) = np_float float_of_string v.
Proof.
  intros Hdt Hv. destruct dt; try reflexivity.
  destruct v; try reflexivity. simpl.
  rewrite (infer_dtype_DFloat_int _ _ Hdt Hv). reflexivity.
Qed.

Lemma convert_cell_py_float col dt v f :
  infer_dtype col = Ok dt -> v ∈ col ->
  py_float float_of_string v = Ok f ->
  py_float float_of_string (convert_cell dt v) = Ok f.
Proof.
  intros Hdt Hv Hf. destruct dt; try exact Hf.
  destruct v; try exact Hf; try discriminate. simpl in *.
  rewrite (infer_dtype_DFloat_int _ _ Hdt Hv) in Hf. exact Hf.
Qed.

Lemma convert_object_array_shape k rs cells :
  convert_object_array k rs = Ok cells ->
  Forall (fun r => length r = k) rs ->
  length cells = length rs /\ Forall (fun r => length r = k) cells.
Proof.
  intros (dts & _ & Hlen & ->)%convert_object_array_inv Hrs.
  split; [apply length_map|].
  apply Forall_forall. intros r (r0 & -> & Hr0)%list_elem_of_fmap.
  rewrite length_zip_with, Hlen.
  rewrite (proj1 (Forall_forall _ _) Hrs r0 Hr0). lia.
Qed.

Lemma convert_object_array_np_float k rs cells :
  convert_object_array k rs = Ok cells ->
  Forall (fun r => length r = k) rs ->
  mapM (mapM (np_float float_of_string)) cells
  = mapM (mapM (np_float float_of_string)) rs.
Proof.
  intros (dts & Hdts & Hlen & ->)%convert_object_array_inv Hrs.
  rewrite mapM_fmap. apply mapM_ext_in. intros r Hr.
  apply mapM_zip_with_ext.
  - rewrite Hlen, (proj1 (Forall_forall _ _) Hrs r Hr). lia.
  - intros j dt v Hdt Hv.
    eapply convert_cell_np_float.
    + eapply infer_dtypes_lookup; eassumption.
    + eapply column_cells_elem; eassumption.
Qed.

(** The columns of a table whose cells all convert get their dtypes. *)
Lemma convert_object_array_total k rs out :
  mapM (mapM (np_float float_of_string)) rs = Ok out ->
  exists cells, convert_object_array k rs = Ok cells.
Proof.
  intros Hout. unfold convert_object_array, infer_dtypes.
  destruct (mapM_total (fun j => infer_dtype (column_cells j rs)) (seq 0 k))
    as [dts ->]; [|simpl; eauto].
  intros j _. apply infer_dtype_total. intros z Hz.
  apply column_cells_inv in Hz as [?|(r & Hr & Hj)]; [discriminate|].
  destruct (mapM_elem_Ok _ _ _ _ Hout Hr) as [fs Hfs].
  destruct (mapM_elem_Ok _ _ _ (VInt z) Hfs) as [f Hf].
  { eapply list_elem_of_lookup_2. eassumption. }
  exists f. exact Hf.
Qed.

Lemma pad_rows_length (rs : list (list value)) :
  Forall (fun r => length r = width rs) (map (pad (width rs)) rs).
Proof.
  apply Forall_forall. intros r (r0 & -> & Hr0)%list_elem_of_fmap.
  apply pad_length, width_ge, Hr0.
Qed.

(** The structure frame of an export whose X fields are all lists. *)
Lemma pd_DataFrame_columns_lists (rs : list (list value)) cols :
  rs <> [] ->
  pd_DataFrame_columns (map VList rs) cols
  = if Nat.eqb (width rs) (length cols)
    then
      let* cells := convert_object_array (width rs) (map (pad (width rs)) rs) in
      Ok (mkDF (map LStr cols) (range_index (length rs)) cells)
    else Err ValueError.
Proof.
  intros Hne. destruct rs as [|r rs]; [congruence|].
  unfold pd_DataFrame_columns. cbn [map mapM py_list bind].
  rewrite (mapM_py_list_VList rs). reflexivity.
Qed.

(** Line 31, [pd.DataFrame(..., columns=cols).astype(float)], on a list
    of lists: when it returns, the names are as many as the longest
    row has elements, and the table holds the floats of the rows, the
    shorter ones filled with [None]. *)
Lemma point_table_inv (rs : list (list value)) cols (s : DataFrame) :
  (let* df := pd_DataFrame_columns (map VList rs) cols in
   astype_float float_of_string df) = Ok s ->
  (rs = [] \/ width rs = length cols)
  /\ exists cells,
       mapM (mapM (np_float float_of_string)) (map (pad (length cols)) rs)
       = Ok cells
       /\ s = mkDF (map LStr cols) (range_index (length rs))
                   (map (map VFloat) cells).
Proof.
  destruct rs as [|r rs'] eqn:Hrs.
  - simpl. intros [= <-]. split; [left; reflexivity|].
    exists []. split; reflexivity.
  - rewrite <- Hrs. intros H.
    rewrite pd_DataFrame_columns_lists in H by (rewrite Hrs; discriminate).
    destruct (Nat.eqb (width rs) (length cols)) eqn:Hw; [|discriminate].
    apply Nat.eqb_eq in Hw. split; [right; exact Hw|].
    rewrite <- Hw. bind_inv H. bind_inv E. injection E as <-.
    unfold astype_float in H. cbn [rows columns index] in H. bind_inv H.
    injection H as <-.
    match goal with
    | H1 : convert_object_array _ _ = Ok _, H2 : mapM (mapM _) _ = Ok _ |- _ =>
        rewrite (convert_object_array_np_float _ _ _ H1 (pad_rows_length rs))
          in H2
    end.
    eexists. split; [eassumption|reflexivity].
Qed.

(** Conversely, line 31 builds the table as soon as the names are as
    many as the longest row has elements and every cell converts. *)
Lemma point_table_build (rs : list (list value)) cols cells :
  rs = [] \/ width rs = length cols ->
  mapM (mapM (np_float float_of_string)) (map (pad (length cols)) rs)
  = Ok cells ->
  (let* df := pd_DataFrame_columns (map VList rs) cols in
   astype_float float_of_string df)
  = Ok (mkDF (map LStr cols) (range_index (length rs))
             (map (map VFloat) cells)).
Proof.
  intros Hw Hcells. destruct rs as [|r rs'] eqn:Hrs.
  - simpl in *. injection Hcells as <-. reflexivity.
  - rewrite <- Hrs in *. destruct Hw as [Hw|Hw]; [rewrite Hrs in Hw; discriminate|].
    rewrite pd_DataFrame_columns_lists by (rewrite Hrs; discriminate).
    rewrite Hw, Nat.eqb_refl. rewrite <- Hw in Hcells |- *.
    destruct (convert_object_array_total (width rs) _ _ Hcells) as [c Hc].
    rewrite Hc. cbn [bind]. unfold astype_float. cbn [rows columns index].
    rewrite (convert_object_array_np_float _ _ _ Hc (pad_rows_length rs)).
    rewrite Hcells. reflexivity.
Qed.

(** C10, as the code has it: three column names are imposed on rows as
    wide as the longest X.  With list-valued X fields, [extrapolate_json]
    raises when some X has more than three elements, or when the
    structure list is not empty and every X has fewer than three.  It
    returns only when the structure list is empty or the longest X has
    exactly three elements, and then every X, the shorter ones filled
    with [None], has become a row of three floats (none for an empty
    list).  In those two cases line 31 does build the point table as
    soon as every coordinate converts to a float: a short X next to a
    full one is filled with NaN, not rejected. *)
Theorem structure_rows_width fs name (data : value) (xs : list value)
    (rs : list (list value)) :
  json_load fs name = Ok data ->
  getitem_str data "structure" = Ok (VList xs) ->
  mapM (fun x => getitem_str x "X") xs = Ok (map VList rs) ->
  (((exists r, r ∈ rs /\ (3 < length r)%nat)
    \/ (rs <> [] /\ forall r, r ∈ rs -> (length r < 3)%nat)) ->
   raises (extrapolate_json float_of_string fs name))
  /\ (forall s v p i,
        extrapolate_json float_of_string fs name = Ok (s, v, p, i) ->
        (rs = [] \/ width rs = 3%nat)
        /\ exists cells,
             mapM (mapM (np_float float_of_string)) (map (pad 3) rs) = Ok cells
             /\ rows s = map (map VFloat) cells)
  /\ (forall cells,
        rs = [] \/ width rs = 3%nat ->
        mapM (mapM (np_float float_of_string)) (map (pad 3) rs) = Ok cells ->
        (let* df := pd_DataFrame_columns (map VList rs) ["x"; "y"; "z"] in
         astype_float float_of_string df)
        = Ok (mkDF [LStr "x"; LStr "y"; LStr "z"] (range_index (length rs))
                   (map (map VFloat) cells))).
Proof.
  intros Hdata Hs Hxs.
  assert (Hrun : extrapolate_json float_of_string fs name
    = let* structure :=
        (let* df := pd_DataFrame_columns (map VList rs) ["x"; "y"; "z"] in
         astype_float float_of_string df) in
      let* v := getitem_str data "views" in
      let* views := pd_DataFrame v in
      let* views := set_index views "poseId" in
      let* p := getitem_str data "poses" in
      let* poses := pd_DataFrame p in
      let* i := getitem_str data "intrinsics" in
      let* intrinsics := pd_DataFrame i in
      Ok (structure, views, poses, intrinsics)).
  { unfold extrapolate_json. rewrite Hdata. simpl. rewrite Hs. simpl.
    rewrite Hxs. simpl.
    destruct (pd_DataFrame_columns (map VList rs) ["x"; "y"; "z"]);
      reflexivity. }
  assert (Hok : forall s v p i,
            extrapolate_json float_of_string fs name = Ok (s, v, p, i) ->
            (rs = [] \/ width rs = 3%nat)
            /\ exists cells,
                 mapM (mapM (np_float float_of_string)) (map (pad 3) rs)
                 = Ok cells
                 /\ rows s = map (map VFloat) cells).
  { intros s v p i H. rewrite Hrun in H. bind_inv H. injection H as <- _ _ _.
    match goal with
    | H1 : (let* df := _ in _) = Ok _ |- _ =>
        apply point_table_inv in H1 as (Hw & cells & Hcells & ->)
    end.
    split; [exact Hw|]. exists cells. split; [exact Hcells|reflexivity]. }
  split; [|split; [exact Hok|]].
  - intros Hbad. apply not_Ok_raises. intros [[[s v] p] i] H.
    destruct (Hok _ _ _ _ H) as [[->|Hw] _].
    + destruct Hbad as [(r & Hr & _) | [Hne _]];
        [inversion Hr | congruence].
    + destruct Hbad as [(r & Hr & Hlen) | [Hne Hall]].
      * apply width_ge in Hr. lia.
      * pose proof (width_lt rs 3 ltac:(lia) Hall). lia.
  - intros cells Hw Hcells.
    exact (point_table_build rs ["x"; "y"; "z"] cells Hw Hcells).
Qed.

(** ** Rounding in binary64 *)

Lemma digits2_pos_size p : digits2_pos p = Pos.size p.
Proof. induction p; simpl; congruence. Qed.

Lemma digits2_pos_bounds p :
  2 ^ (Zpos (digits2_pos p) - 1) <= Zpos p < 2 ^ Zpos (digits2_pos p).
Proof.
  rewrite digits2_pos_size.
  pose proof (Pos.size_gt p) as Hgt. pose proof (Pos.size_le p) as Hle.
  apply Pos2Z.pos_lt_pos in Hgt. apply Pos2Z.pos_le_pos in Hle.
  rewrite Pos2Z.inj_pow in Hgt, Hle.
  replace (Zpos (Pos.size p)) with (Z.succ (Zpos (Pos.size p) - 1)) in Hle at 1 by lia.
  rewrite Z.pow_succ_r in Hle by lia.
  change (Zpos p~0) with (2 * Zpos p) in Hle. lia.
Qed.

Lemma digits2_pos_unique p d :
  2 ^ (d - 1) <= Zpos p < 2 ^ d -> Zpos (digits2_pos p) = d.
Proof.
  intros [Hlo Hhi]. pose proof (digits2_pos_bounds p) as [Hlo' Hhi'].
  assert (0 < d). { destruct (Z.ltb_spec 0 d); [assumption|]. rewrite Z.pow_neg_r in Hlo by lia. 
     assert (2 ^ d <= 2^0) by (apply Z.pow_le_mono_r; lia). simpl in *. lia. }
  assert (d - 1 < Zpos (digits2_pos p)).
  { apply (Z.pow_lt_mono_r_iff 2); lia. }
  assert (Zpos (digits2_pos p) - 1 < d).
  { apply (Z.pow_lt_mono_r_iff 2); lia. }
  lia.
Qed.

Lemma iter_pos_eq {A} (f : A -> A) p x :
  SpecFloat.iter_pos f p x = Pos.iter f x p.
Proof.
  revert x. induction p as [p IH|p IH|]; intros x; simpl.
  - rewrite !IH. rewrite <- !Pos.iter_swap. reflexivity.
  - rewrite !IH. reflexivity.
  - reflexivity.
Qed.

Lemma Pos_iter_xO mx d : Zpos (Pos.iter xO mx d) = Zpos mx * 2 ^ Zpos d.
Proof.
  induction d using Pos.peano_ind.
  - simpl. lia.
  - rewrite Pos.iter_succ. rewrite Pos2Z.inj_succ, Z.pow_succ_r by lia.
    change (Zpos (Pos.iter xO mx d)~0) with (2 * Zpos (Pos.iter xO mx d)). lia.
Qed.

Lemma shr_1_step (m K : Z) (mrs : shr_record) (rem : Z) :
  0 < K -> 0 <= shr_m mrs ->
  m = shr_m mrs * K + rem -> 0 <= rem < K ->
  (shr_r mrs = true <-> K <= 2 * rem) ->
  (shr_s mrs = true <-> rem <> 0 /\ 2 * rem <> K) ->
  exists rem',
    0 <= shr_m (shr_1 mrs)
    /\ m = shr_m (shr_1 mrs) * (2 * K) + rem'
    /\ 0 <= rem' < 2 * K
    /\ (shr_r (shr_1 mrs) = true <-> 2 * K <= 2 * rem')
    /\ (shr_s (shr_1 mrs) = true <-> rem' <> 0 /\ 2 * rem' <> 2 * K).
Proof.
  intros HK Hq Hm Hrem Hr Hs. destruct mrs as [q r s].
  cbn [shr_m shr_r shr_s] in *.
  destruct q as [|[p|p|]|]; try lia; cbn [shr_1 shr_m shr_r shr_s].
  - exists rem.
    destruct r, s; cbn [orb]; intuition (try lia; try discriminate).
  - exists (rem + K). rewrite Pos2Z.inj_xI in Hm.
    destruct r, s; cbn [orb]; intuition (try lia; try discriminate).
  - exists rem. rewrite Pos2Z.inj_xO in Hm.
    destruct r, s; cbn [orb]; intuition (try lia; try discriminate).
  - exists (rem + K).
    destruct r, s; cbn [orb]; intuition (try lia; try discriminate).
Qed.

Lemma shr_iter (m : Z) (k : positive) :
  0 <= m ->
  exists rem,
    let mrs := Pos.iter shr_1 (Build_shr_record m false false) k in
    0 <= shr_m mrs
    /\ m = shr_m mrs * 2 ^ Zpos k + rem
    /\ 0 <= rem < 2 ^ Zpos k
    /\ (shr_r mrs = true <-> 2 ^ Zpos k <= 2 * rem)
    /\ (shr_s mrs = true <-> rem <> 0 /\ 2 * rem <> 2 ^ Zpos k).
Proof.
  intros Hm. induction k as [|k IH] using Pos.peano_ind.
  - change (2 ^ 1) with (2 * 1). cbn [Pos.iter].
    apply (shr_1_step m 1 (Build_shr_record m false false) 0);
      cbn [shr_m shr_r shr_s]; intuition (try lia; try discriminate).
  - destruct IH as (rem & H0 & H1 & H2 & H3 & H4).
    rewrite Pos.iter_succ, Pos2Z.inj_succ, Z.pow_succ_r by lia.
    apply (shr_1_step m (2 ^ Zpos k) _ rem); try assumption. lia.
Qed.

(** With the exponent in range, [shr_fexp] shifts an exact mantissa of
    [D] digits right by [D - 53] places. *)
Lemma shr_fexp_exact (p : positive) (e : Z) :
  -1074 <= e + Zpos (digits2_pos p) - 53 ->
  shr_fexp prec emax (Zpos p) e loc_Exact
  = shr (Build_shr_record (Zpos p) false false) e (Zpos (digits2_pos p) - 53).
Proof.
  intros H. unfold shr_fexp, fexp, emin, prec, emax. cbn [Zdigits2 shr_record_of_loc].
  f_equal. lia.
Qed.

Lemma shr_pos (m : Z) (e : Z) (k : positive) :
  0 <= m ->
  exists mrs rem,
    shr (Build_shr_record m false false) e (Zpos k) = (mrs, e + Zpos k)
    /\ 0 <= shr_m mrs
    /\ m = shr_m mrs * 2 ^ Zpos k + rem
    /\ 0 <= rem < 2 ^ Zpos k
    /\ (shr_r mrs = true <-> 2 ^ Zpos k <= 2 * rem)
    /\ (shr_s mrs = true <-> rem <> 0 /\ 2 * rem <> 2 ^ Zpos k).
Proof.
  intros Hm. destruct (shr_iter m k Hm) as (rem & H).
  eexists. exists rem. split; [|exact H].
  unfold shr. rewrite iter_pos_eq. reflexivity.
Qed.

(** Rounding to nearest even moves the shifted mantissa by at most half
    a unit. *)
Lemma round_nearest_even_near (mrs : shr_record) (m S rem : Z) :
  0 < S ->
  m = shr_m mrs * S + rem -> 0 <= rem < S ->
  (shr_r mrs = true <-> S <= 2 * rem) ->
  (shr_s mrs = true <-> rem <> 0 /\ 2 * rem <> S) ->
  let q' := round_nearest_even (shr_m mrs) (loc_of_shr_record mrs) in
  shr_m mrs <= q' <= shr_m mrs + 1 /\ 2 * Z.abs (q' * S - m) <= S.
Proof.
  intros HS Hm Hrem Hr Hs. destruct mrs as [q r s].
  cbn [shr_m shr_r shr_s] in *. cbn [loc_of_shr_record round_nearest_even].
  destruct r, s; cbn [round_nearest_even];
    try destruct (Z.even q); split; try lia;
    intuition (try discriminate; nia).
Qed.

(** The second normalization of [binary_round_aux]: a rounded mantissa
    of 53 digits is kept; one that reached 2^53 is halved. *)
Lemma renormalize (q' e' : Z) :
  2 ^ 52 <= q' <= 2 ^ 53 -> -1074 <= e' ->
  exists (m' : positive) (e'' : Z) (mrs : shr_record),
    shr_fexp prec emax q' e' loc_Exact = (mrs, e'')
    /\ shr_m mrs = Zpos m'
    /\ ((q' < 2 ^ 53 /\ Zpos m' = q' /\ e'' = e')
        \/ (q' = 2 ^ 53 /\ Zpos m' = 2 ^ 52 /\ e'' = e' + 1)).
Proof.
  intros Hq He. destruct q' as [|p|p]; try lia.
  destruct (Z.eq_dec (Zpos p) (2 ^ 53)) as [Heq|Hne].
  - injection Heq as ->. exists (2 ^ 52)%positive. eexists. eexists.
    split; [|split; [|right; split; [reflexivity|split; reflexivity]]].
    + rewrite shr_fexp_exact by (vm_compute (digits2_pos _); lia).
      vm_compute (digits2_pos _). change (54 - 53) with 1. reflexivity.
    + reflexivity.
  - assert (Hd : Zpos (digits2_pos p) = 53)
      by (apply digits2_pos_unique; change (53 - 1) with 52; lia).
    exists p. eexists. eexists. split.
    + rewrite shr_fexp_exact by lia. rewrite Hd. reflexivity.
    + split; [reflexivity|]. left. lia.
Qed.

(** [binary_round_aux] on an exact mantissa of at least 53 digits, away
    from underflow and overflow: the result is finite, its mantissa is
    the input shifted right and rounded to nearest. *)
Lemma binary_round_aux_spec (sx : bool) (mx : positive) (ex : Z) :
  let s := Zpos (digits2_pos mx) - 53 in
  0 <= s -> -1074 <= ex + s -> ex + s < 971 ->
  exists (m' : positive) (e' q' : Z),
    binary_round_aux prec emax sx (Zpos mx) ex loc_Exact = S754_finite sx m' e'
    /\ 2 ^ 52 <= q' <= 2 ^ 53
    /\ 2 * Z.abs (q' * 2 ^ s - Zpos mx) <= 2 ^ s
    /\ ((q' < 2 ^ 53 /\ Zpos m' = q' /\ e' = ex + s)
        \/ (q' = 2 ^ 53 /\ Zpos m' = 2 ^ 52 /\ e' = ex + s + 1)).
Proof.
  intros s Hs Hlo Hhi. unfold binary_round_aux.
  rewrite shr_fexp_exact by (fold s; lia). fold s.
  pose proof (digits2_pos_bounds mx) as [Hdlo Hdhi].
  replace (Zpos (digits2_pos mx) - 1) with (52 + s) in Hdlo by (unfold s; lia).
  replace (Zpos (digits2_pos mx)) with (53 + s) in Hdhi by (unfold s; lia).
  rewrite Z.pow_add_r in Hdlo, Hdhi by lia.
  assert (HS : 0 < 2 ^ s) by (apply Z.pow_pos_nonneg; lia).
  assert (Hstage : exists (mrs : shr_record) (q' : Z),
             shr (Build_shr_record (Zpos mx) false false) ex s = (mrs, ex + s)
             /\ q' = round_nearest_even (shr_m mrs) (loc_of_shr_record mrs)
             /\ 2 ^ 52 <= q' <= 2 ^ 53
             /\ 2 * Z.abs (q' * 2 ^ s - Zpos mx) <= 2 ^ s).
  { destruct s as [|k|k] eqn:Es; try lia.
    - eexists. eexists. split; [rewrite Z.add_0_r; reflexivity|].
      split; [reflexivity|]. cbn [shr_m loc_of_shr_record round_nearest_even].
      change (2 ^ 0) with 1 in *. lia.
    - destruct (shr_pos (Zpos mx) ex k ltac:(lia))
        as (mrs & rem & Hshr & Hq & Hm & Hrem & Hr & Hsb).
      exists mrs. eexists. split; [exact Hshr|]. split; [reflexivity|].
      pose proof (round_nearest_even_near mrs (Zpos mx) (2 ^ Zpos k) rem
                    HS Hm Hrem Hr Hsb) as [Hq' Hnear].
      split; [|exact Hnear]. nia. }
  destruct Hstage as (mrs & q' & -> & Hq' & Hbound & Hnear). rewrite <- Hq'.
  destruct (renormalize q' (ex + s) Hbound Hlo)
    as (m' & e'' & mrs'' & -> & Hm' & Hcase).
  rewrite Hm'. exists m', e'', q'.
  assert (He : (e'' <=? emax - prec) = true)
    by (apply Z.leb_le; unfold emax, prec; lia).
  rewrite He. auto.
Qed.

(** [float(n)] for 0 < n < 2^53 is exact: the mantissa is [n] shifted
    to 53 digits. *)
Lemma binary_normalize_small (n : positive) :
  let d := Zpos (digits2_pos n) in
  d <= 53 ->
  exists mx : positive,
    binary_normalize prec emax (Zpos n) 0 false = S754_finite false mx (d - 53)
    /\ Zpos mx = Zpos n * 2 ^ (53 - d)
    /\ 2 ^ 52 <= Zpos mx < 2 ^ 53.
Proof.
  intros d Hd. pose proof (digits2_pos_bounds n) as [Hlo Hhi]. fold d in Hlo, Hhi.
  assert (Hd0 : 0 < d) by (unfold d; lia).
  cbn [binary_normalize]. unfold binary_round.
  assert (Hal : exists mz : positive,
             shl_align n 0 (fexp prec emax (Zpos (digits2_pos n) + 0)) = (mz, d - 53)
             /\ Zpos mz = Zpos n * 2 ^ (53 - d)).
  { unfold shl_align, fexp, emin, prec, emax. fold d.
    replace (Z.max (d + 0 - 53) (3 - 1024 - 53) - 0) with (d - 53) by lia.
    replace (Z.max (d + 0 - 53) (3 - 1024 - 53)) with (d - 53) by lia.
    destruct (d - 53) as [|k|k] eqn:Ek; try lia.
    - exists n. split; [reflexivity|]. replace (53 - d) with 0 by lia. lia.
    - eexists. split; [reflexivity|]. rewrite Pos_iter_xO.
      replace (53 - d) with (Zpos k) by lia. reflexivity. }
  destruct Hal as (mz & -> & Hmz).
  assert (Hb : 2 ^ 52 <= Zpos mz < 2 ^ 53).
  { rewrite Hmz.
    assert (H52 : 2 ^ 52 = 2 ^ (d - 1) * 2 ^ (53 - d))
      by (rewrite <- Z.pow_add_r by lia; f_equal; lia).
    assert (H53 : 2 ^ 53 = 2 ^ d * 2 ^ (53 - d))
      by (rewrite <- Z.pow_add_r by lia; f_equal; lia).
    rewrite H52, H53.
    assert (0 < 2 ^ (53 - d)) by (apply Z.pow_pos_nonneg; lia). nia. }
  assert (Hdz : Zpos (digits2_pos mz) = 53)
    by (apply digits2_pos_unique; change (53 - 1) with 52; exact Hb).
  destruct (binary_round_aux_spec false mz (d - 53)) as (m' & e' & q' & -> & Hq & Hnear & Hcase);
    rewrite ?Hdz; try lia.
  rewrite Hdz in Hnear, Hcase. change (53 - 53) with 0 in Hnear, Hcase.
  change (2 ^ 0) with 1 in Hnear.
  exists m'. assert (Zpos m' = Zpos mz /\ e' = d - 53) as [Hm' ->] by lia.
  split; [reflexivity|]. rewrite Hm'. auto.
Qed.

(** The double behind the literal [0.8] lies within half a unit in the
    last place of 4/5. *)
Lemma float_0_8_nearest :
  float_0_8 = S754_finite false 7205759403792794 (-53)
  /\ 2 * Z.abs (5 * 7205759403792794 - 4 * 2 ^ 53) <= 5.
Proof. split; [reflexivity|]. vm_compute. discriminate. Qed.

(** [int(n * 0.8)] is the integer part of 4n/5 for every length below
    2^50: the rounding error of the product never reaches the next
    integer. *)
Lemma split_index_exact (n : Z) :
  0 <= n < 2 ^ 50 ->
  split_index n = Ok (4 * n / 5).
Proof.
  intros [Hn0 Hn]. unfold split_index, mul_int_float, float_of_Z.
  destruct n as [|p|p]; [reflexivity| |lia].
  pose proof (digits2_pos_bounds p) as [Hlo Hhi].
  set (d := Zpos (digits2_pos p)) in *.
  assert (Hd : 0 < d <= 50).
  { split; [unfold d; lia|].
    destruct (Z.le_gt_cases d 50) as [H|H]; [exact H|].
    assert (2 ^ 50 <= 2 ^ (d - 1)) by (apply Z.pow_le_mono_r; lia). lia. }
  destruct (binary_normalize_small p) as (mx & -> & Hmx & Hmxb); [fold d; lia|].
  fold d in Hmx |- *. cbn [bind]. unfold float_mul, float_0_8.
  cbn [SFmul xorb].
  set (M := 7205759403792794%positive).
  set (P := (mx * M)%positive).
  assert (HP : Zpos P = Zpos mx * 7205759403792794) by reflexivity.
  pose proof (digits2_pos_bounds P) as [HPlo HPhi].
  set (D := Zpos (digits2_pos P)) in *.
  assert (HPb : 2 ^ 104 <= Zpos P < 2 ^ 106).
  { rewrite HP. change (2 ^ 52) with 4503599627370496 in Hmxb.
    change (2 ^ 53) with 9007199254740992 in Hmxb.
    change (2 ^ 104) with 20282409603651670423947251286016.
    change (2 ^ 106) with 81129638414606681695789005144064. lia. }
  assert (HD : D = 105 \/ D = 106).
  { assert (104 < D).
    { destruct (Z.le_gt_cases D 104) as [H|H]; [|lia].
      assert (2 ^ D <= 2 ^ 104) by (apply Z.pow_le_mono_r; lia). lia. }
    assert (D - 1 < 106).
    { destruct (Z.le_gt_cases 106 (D - 1)) as [H'|H']; [|lia].
      assert (2 ^ 106 <= 2 ^ (D - 1)) by (apply Z.pow_le_mono_r; lia). lia. }
    lia. }
  destruct (binary_round_aux_spec false P (d - 53 + -53))
    as (m' & e' & q' & -> & Hq & Hnear & Hcase); fold D; try lia.
  fold D in Hnear, Hcase. cbn [int_of_float].
  assert (He : (0 <=? e') = false) by (apply Z.leb_gt; lia).
  rewrite He. f_equal.
  (* everything in terms of B = 2^(50-d) *)
  set (B := 2 ^ (50 - d)).
  assert (HB : 0 < B) by (apply Z.pow_pos_nonneg; lia).
  assert (HA : 2 ^ (53 - d) = 8 * B).
  { unfold B. replace (53 - d) with (3 + (50 - d)) by lia.
    rewrite Z.pow_add_r by lia. reflexivity. }
  assert (HpB : Zpos p * B < 2 ^ 50).
  { assert (2 ^ 50 = 2 ^ d * B)
      by (unfold B; rewrite <- Z.pow_add_r by lia; f_equal; lia).
    nia. }
  rewrite HA in Hmx.
  set (k := 4 * Zpos p / 5).
  assert (Hk : 5 * k <= 4 * Zpos p < 5 * k + 5).
  { unfold k. pose proof (Z.div_mod (4 * Zpos p) 5 ltac:(lia)).
    pose proof (Z.mod_pos_bound (4 * Zpos p) 5 ltac:(lia)). lia. }
  set (N := Zpos p * B) in *. set (W := k * B).
  assert (HW : 5 * W <= 4 * N < 5 * W + 5 * B) by (unfold W, N; nia).
  assert (HmxN : Zpos mx = 8 * N) by (unfold N; lia).
  rewrite HmxN in HP.
  change (2 ^ 50) with 1125899906842624 in HpB.
  change (2 ^ 52) with 4503599627370496 in *.
  change (2 ^ 53) with 9007199254740992 in *.
  assert (Hgoal : exists c, 2 ^ (- e') = B * c /\ 0 < c
                            /\ W * c <= Zpos m' < (W + B) * c).
  { destruct HD as [HD|HD]; rewrite HD in *;
      [change (105 - 53) with 52 in * | change (106 - 53) with 53 in *];
      destruct Hcase as [(Hlt & Hm' & ->) | (Heq & Hm' & ->)].
    - exists 16. split.
      { replace (- (d - 53 + -53 + 52)) with ((50 - d) + 4) by lia.
        rewrite Z.pow_add_r by lia. reflexivity. }
      change (2 ^ 52) with 4503599627370496 in Hnear. lia.
    - exists 8. split.
      { replace (- (d - 53 + -53 + 52 + 1)) with ((50 - d) + 3) by lia.
        rewrite Z.pow_add_r by lia. reflexivity. }
      change (2 ^ 52) with 4503599627370496 in Hnear. lia.
    - exists 8. split.
      { replace (- (d - 53 + -53 + 53)) with ((50 - d) + 3) by lia.
        rewrite Z.pow_add_r by lia. reflexivity. }
      change (2 ^ 53) with 9007199254740992 in Hnear. lia.
    - exists 4. split.
      { replace (- (d - 53 + -53 + 53 + 1)) with ((50 - d) + 2) by lia.
        rewrite Z.pow_add_r by lia. reflexivity. }
      change (2 ^ 53) with 9007199254740992 in Hnear. lia. }
  destruct Hgoal as (c & -> & Hc & Hbounds).
  symmetry. apply Z.div_unique with (Zpos m' - W * c).
  - left. unfold W in *. nia.
  - unfold W. ring.
Qed.

(** ** The shuffle and the split *)

Lemma swap_length {A} (x : list A) i j : length (swap x i j) = length x.
Proof.
  unfold swap. destruct (x !! i), (x !! j); try reflexivity.
  rewrite !length_insert. reflexivity.
Qed.

Lemma insert_cons_Permutation {A} (l : list A) j a b :
  l !! j = Some b -> b :: <[j := a]> l ≡ₚ a :: l.
Proof.
  revert j. induction l as [|y l IH]; intros j Hj; [discriminate|].
  destruct j as [|j]; simpl in *.
  - injection Hj as ->. apply perm_swap.
  - rewrite perm_swap, (IH j Hj). apply perm_swap.
Qed.

Lemma swap_Permutation {A} (x : list A) i j : swap x i j ≡ₚ x.
Proof.
  unfold swap.
  destruct (x !! i) as [a|] eqn:Hi; [|reflexivity].
  destruct (x !! j) as [b|] eqn:Hj; [|reflexivity].
  revert i j Hi Hj. induction x as [|y x IH]; intros i j Hi Hj; [discriminate|].
  destruct i as [|i], j as [|j]; simpl in *.
  - injection Hi as ->. injection Hj as ->. reflexivity.
  - injection Hi as ->. apply insert_cons_Permutation. exact Hj.
  - injection Hj as ->. apply insert_cons_Permutation. exact Hi.
  - rewrite (IH i j Hi Hj). reflexivity.
Qed.

Lemma shuffle_from_Permutation {A} i (x : list A) (g : rng) :
  (shuffle_from randbelow i x g).1 ≡ₚ x.
Proof.
  revert x g. induction i as [|i IH]; intros x g; simpl; [reflexivity|].
  destruct (randbelow (S (S i)) g) as [j g'].
  rewrite IH. apply swap_Permutation.
Qed.

(** [random.shuffle] rearranges: the shuffled list is a permutation of
    the list it was given. *)
Lemma shuffle_Permutation {A} (x : list A) (g : rng) :
  (shuffle randbelow x g).1 ≡ₚ x.
Proof. apply shuffle_from_Permutation. Qed.

Lemma shuffle_length {A} (x : list A) (g : rng) :
  length (shuffle randbelow x g).1 = length x.
Proof. apply Permutation_length, shuffle_Permutation. Qed.

(** The cut falls at the integer part of 4n/5. *)
Lemma split_train_val_cut {A} (l : list A) :
  Z.of_nat (length l) < 2 ^ 50 ->
  split_train_val l
  = Ok (take (Z.to_nat (4 * Z.of_nat (length l) / 5)) l,
        drop (Z.to_nat (4 * Z.of_nat (length l) / 5)) l).
Proof.
  intros Hn. unfold split_train_val. rewrite split_index_exact by lia.
  cbn [bind]. unfold slice_to, slice_from, slice_bound.
  set (k := 4 * Z.of_nat (length l) / 5).
  assert (Hk : 0 <= k <= Z.of_nat (length l)).
  { unfold k. split; [apply Z.div_pos; lia|].
    apply Z.div_le_upper_bound; lia. }
  assert (Hneg : (k <? 0) = false) by (apply Z.ltb_ge; lia). rewrite Hneg.
  replace (Nat.min (length l) (Z.to_nat k)) with (Z.to_nat k) by lia.
  reflexivity.
Qed.

(** C4: for n records, n below 2^50 (more than any list of records a
    machine can hold), the shuffled list is cut into a train list of
    exactly floor(4n/5) elements and a val list of the remaining
    n - floor(4n/5). *)
Theorem split_ratio {A} (list_images : list A) (g : rng) :
  Z.of_nat (length list_images) < 2 ^ 50 ->
  exists train val,
    split_train_val (shuffle randbelow list_images g).1 = Ok (train, val)
    /\ Z.of_nat (length train) = 4 * Z.of_nat (length list_images) / 5
    /\ Z.of_nat (length val)
       = Z.of_nat (length list_images) - 4 * Z.of_nat (length list_images) / 5.
Proof.
  intros Hn. pose proof (shuffle_length list_images g) as Hlen.
  eexists. eexists. split.
  - apply split_train_val_cut. rewrite Hlen. exact Hn.
  - rewrite Hlen. set (k := 4 * Z.of_nat (length list_images) / 5).
    assert (Hk : 0 <= k <= Z.of_nat (length list_images)).
    { unfold k. split; [apply Z.div_pos; lia|].
      apply Z.div_le_upper_bound; lia. }
    rewrite length_take, length_drop, Hlen. lia.
Qed.

(** C5: the train and val lists partition the assembled records: their
    lengths add up to the number of poses, every image path of the
    assembled list is in one of them and nothing else is, and when the
    paths are unique no path is in both. *)
Theorem split_partition (images poses intrinsic : DataFrame)
    (list_images : list image_record) (g : rng) :
  assemble float_of_string py_str json_loads images poses intrinsic
  = Ok list_images ->
  Z.of_nat (length list_images) < 2 ^ 50 ->
  exists train val,
    split_train_val (shuffle randbelow list_images g).1 = Ok (train, val)
    /\ (length train + length val)%nat = length (iterrows poses)
    /\ (forall p, p ∈ map image_path train \/ p ∈ map image_path val
                  <-> p ∈ map image_path list_images)
    /\ (NoDup (map image_path list_images) ->
        forall p, p ∈ map image_path train -> p ∉ map image_path val).
Proof.
  intros Hasm Hn. pose proof (shuffle_length list_images g) as Hlen.
  pose proof (shuffle_Permutation list_images g) as Hperm.
  set (l := (shuffle randbelow list_images g).1) in *.
  set (k := Z.to_nat (4 * Z.of_nat (length l) / 5)).
  exists (take k l), (drop k l).
  assert (Hpaths : (map image_path (take k l) ++ map image_path (drop k l))%list
                   ≡ₚ map image_path list_images).
  { rewrite <- map_app, take_drop. apply Permutation_map. exact Hperm. }
  split; [apply split_train_val_cut; rewrite Hlen; exact Hn|].
  split.
  - rewrite <- length_app, take_drop, Hlen.
    unfold assemble in Hasm. apply mapM_length in Hasm. exact Hasm.
  - split.
    + intros p. rewrite <- Hpaths, elem_of_app. reflexivity.
    + intros Hnd p Hin. rewrite <- Hpaths in Hnd.
      apply NoDup_app in Hnd as (_ & Hdisj & _). apply Hdisj. exact Hin.
Qed.

End Properties.

(** * The script on the sample exports *)

(** Past the 2^50 bound the product [n * 0.8] can round up to the next
    integer: the bound in [split_index_exact] is not an artefact. *)
Remark split_index_beyond_bound :
  split_index 1688849860263941 = Ok 1351079888211153
  /\ 4 * 1688849860263941 / 5 = 1351079888211152.
Proof. split; vm_compute; reflexivity. Qed.

(** The stand-ins of [Runtime] print floats as [str] does and read
    them back: a pose of floats with fractions survives the detour of
    [prepare_rototranslation] through its text. *)
Remark turned_pose_reads_back :
  Runtime.py_str Sample.turned_pose
  = "{'transform': {'rotation': [0.7071067811865476, -0.0, 0.7071067811865476, 0.0, 1.0, 0.0, -0.7071067811865476, 0.0, 0.7071067811865476], 'center': [1.25, -3.5e-05, 6e+22]}}"
  /\ reparse Runtime.py_str Runtime.json_loads Sample.turned_pose
     = Ok Sample.turned_pose
  /\ Runtime.float_of_string " 0.8 " = Some float_0_8.
Proof. vm_compute. repeat split; reflexivity. Qed.

(** C1 (the code departs from it): on the well-formed export
    [Sample.sfm], whose structure has two points, the point table is
    loaded with one row per point, but [convert_sfm_to_parquet] raises
    KeyError X before writing: no point-cloud file exists after the
    run, where the claim expects one of two rows. *)
Theorem convert_writes_no_point_cloud :
  let w := Sample.start Sample.sfm in
  let run := convert_sfm_to_parquet Runtime.float_of_string Runtime.py_str
               Runtime.json_loads Runtime.randbelow w in
  length (rows (Sample.structure_of Sample.sfm)) = 2%nat
  /\ run.1 = Err (KeyError (VStr "X"))
  /\ files run.2 !! "./point_cloud.parquet" = None
  /\ files run.2 = files w.
Proof. vm_compute. repeat split; reflexivity. Qed.

Lemma convert_raises_KeyError_X_witness :
  is_ok (extrapolate_json Runtime.float_of_string
           (files (Sample.start Sample.sfm)) "sfm.json") = true
  /\ convert_sfm_to_parquet Runtime.float_of_string Runtime.py_str
       Runtime.json_loads Runtime.randbelow (Sample.start Sample.sfm)
     = (Err (KeyError (VStr "X")), Sample.start Sample.sfm).
Proof.
  split; [vm_compute; reflexivity|].
  apply (convert_raises_KeyError_X Runtime.float_of_string Runtime.py_str
           Runtime.json_loads Runtime.rng Runtime.randbelow
           (Sample.start Sample.sfm)).
  vm_compute; reflexivity.
Defined.

(** C3 fails as stated: in [Sample.sfm_duplicate] two views carry the
    pose identifier p1; the view table holds both rows under that
    label, and looking p1 up selects a frame of two rows, not one
    row. *)
Lemma duplicate_views_both_kept :
  let views := Sample.views_of Sample.sfm_duplicate in
  is_ok (extrapolate_json Runtime.float_of_string
           (Sample.disk Sample.sfm_duplicate) "sfm.json") = true
  /\ index views = [VStr "p1"; VStr "p1"]
  /\ length (loc_rows views (VStr "p1")) = 2%nat
  /\ df_loc views (VStr "p1")
     = Ok (ManyRows (mkDF [LStr "path"; LStr "height"; LStr "width"]
                          [VStr "p1"; VStr "p1"]
                          [[VStr "a.jpg"; VInt 480; VInt 640];
                           [VStr "b.jpg"; VInt 480; VInt 640]])).
Proof. vm_compute. repeat split; reflexivity. Qed.

Lemma views_keep_every_row_witness :
  extrapolate_json Runtime.float_of_string
    (Sample.disk Sample.sfm_duplicate) "sfm.json"
  = Ok (Sample.structure_of Sample.sfm_duplicate,
        Sample.views_of Sample.sfm_duplicate,
        Sample.poses_of Sample.sfm_duplicate,
        Sample.intrinsics_of Sample.sfm_duplicate)
  /\ exists data vs ds dts j,
       json_load (Sample.disk Sample.sfm_duplicate) "sfm.json" = Ok data
       /\ getitem_str data "views" = Ok (VList vs)
       /\ mapM as_dict vs = Ok ds
       /\ union_keys ds !! j = Some "poseId"
       /\ rows (Sample.views_of Sample.sfm_duplicate)
          = map (fun d => delete j (zip_with convert_cell dts
                                      (map (cell_of d) (union_keys ds)))) ds
       /\ df_loc (Sample.views_of Sample.sfm_duplicate) (VStr "p1")
          = Ok (ManyRows
                  (mkDF [LStr "path"; LStr "height"; LStr "width"]
                        [VStr "p1"; VStr "p1"]
                        [[VStr "a.jpg"; VInt 480; VInt 640];
                         [VStr "b.jpg"; VInt 480; VInt 640]])).
Proof.
  assert (H : extrapolate_json Runtime.float_of_string
                (Sample.disk Sample.sfm_duplicate) "sfm.json"
              = Ok (Sample.structure_of Sample.sfm_duplicate,
                    Sample.views_of Sample.sfm_duplicate,
                    Sample.poses_of Sample.sfm_duplicate,
                    Sample.intrinsics_of Sample.sfm_duplicate))
    by (vm_compute; reflexivity).
  split; [exact H|].
  destruct (views_keep_every_row Runtime.float_of_string _ _ _ _ _ _ H)
    as (data & vs & ds & dts & j & H1 & H2 & H3 & H4 & H5 & H6).
  cbv zeta in H6. destruct H6 as (_ & _ & H8 & _ & _).
  exists data, vs, ds, dts, j.
  repeat (split; [assumption|]). vm_compute. reflexivity.
Defined.

Lemma split_ratio_witness :
  Z.of_nat (length [1; 2; 3; 4; 5]%nat) < 2 ^ 50
  /\ exists train val,
       split_train_val (shuffle Runtime.randbelow [1; 2; 3; 4; 5]%nat 42%nat).1
       = Ok (train, val)
       /\ Z.of_nat (length train) = 4
       /\ Z.of_nat (length val) = 1.
Proof.
  assert (H : Z.of_nat (length [1; 2; 3; 4; 5]%nat) < 2 ^ 50)
    by (vm_compute; reflexivity).
  split; [exact H|].
  exact (@split_ratio Runtime.rng Runtime.randbelow nat
           [1; 2; 3; 4; 5]%nat 42%nat H).
Defined.

Lemma split_partition_witness :
  Sample.records Sample.sfm = Ok (Sample.record_list Sample.sfm)
  /\ Z.of_nat (length (Sample.record_list Sample.sfm)) < 2 ^ 50
  /\ exists train val,
       split_train_val
         (shuffle Runtime.randbelow (Sample.record_list Sample.sfm) 42%nat).1
       = Ok (train, val)
       /\ (length train + length val)%nat = 5%nat.
Proof.
  assert (H1 : Sample.records Sample.sfm = Ok (Sample.record_list Sample.sfm))
    by (vm_compute; reflexivity).
  assert (H2 : Z.of_nat (length (Sample.record_list Sample.sfm)) < 2 ^ 50)
    by (vm_compute; reflexivity).
  split; [exact H1|]. split; [exact H2|].
  destruct (split_partition Runtime.float_of_string Runtime.py_str
              Runtime.json_loads Runtime.rng Runtime.randbelow
              (Sample.views_of Sample.sfm) (Sample.poses_of Sample.sfm)
              (Sample.intrinsics_of Sample.sfm)
              (Sample.record_list Sample.sfm) 42%nat H1 H2)
    as (train & val & Hs & Hlen & _).
  exists train, val. split; [exact Hs|exact Hlen].
Defined.

Lemma prepare_intrinsic_matrix_witness :
  dict_get [("principalPoint", VList [VList [VFloat (fl 100); VFloat (fl 50)]]);
            ("focalLength", VList [VFloat (fl 800)])] "principalPoint"
  = Some (VList [VList [VFloat (fl 100); VFloat (fl 50)]])
  /\ prepare_intrinsic Runtime.float_of_string Sample.intrinsic_record
     = Ok [[VFloat (fl 800); VInt 0; VFloat (fl 100)];
           [VInt 0; VFloat (fl 800); VFloat (fl 50)];
           [VInt 0; VInt 0; VInt 1]].
Proof.
  split; [reflexivity|].
  apply (prepare_intrinsic_matrix Runtime.float_of_string
           [("principalPoint", VList [VList [VFloat (fl 100); VFloat (fl 50)]]);
            ("focalLength", VList [VFloat (fl 800)])]
           (VFloat (fl 100)) (VFloat (fl 50)) (VFloat (fl 800)) [] [] []
           (fl 100) (fl 50) (fl 800)); reflexivity.
Defined.

Lemma prepare_rototranslation_matrix_witness :
  reparse Runtime.py_str Runtime.json_loads
    (Sample.transform_of Sample.identity_rotation [1; 2; 3])
  = Ok (Sample.transform_of Sample.identity_rotation [1; 2; 3])
  /\ prepare_rototranslation Runtime.float_of_string Runtime.py_str
       Runtime.json_loads (Sample.pose_entry "p1" [1; 2; 3])
     = Ok [[VFloat (fl 1); VFloat (fl 0); VFloat (fl 0); VFloat (fl 1)];
           [VFloat (fl 0); VFloat (fl 1); VFloat (fl 0); VFloat (fl 2)];
           [VFloat (fl 0); VFloat (fl 0); VFloat (fl 1); VFloat (fl 3)];
           [VInt 0; VInt 0; VInt 0; VInt 1]]
  /\ exists m,
       prepare_rototranslation Runtime.float_of_string Runtime.py_str
         Runtime.json_loads (Sample.pose_entry "p1" [1; 2; 3]) = Ok m
       /\ m !! 3%nat = Some [VInt 0; VInt 0; VInt 0; VInt 1].
Proof.
  split; [vm_compute; reflexivity|]. split; [vm_compute; reflexivity|].
  destruct (@prepare_rototranslation_matrix Runtime.float_of_string
              Runtime.py_str Runtime.json_loads value value_GetItem
              (Sample.pose_entry "p1" [1; 2; 3])
              (Sample.transform_of Sample.identity_rotation [1; 2; 3])
              (Sample.transform_of Sample.identity_rotation [1; 2; 3])
              (VDict [("rotation", Sample.identity_rotation);
                      ("center", VList (map VInt [1; 2; 3]))])
              (map VInt [1; 0; 0; 0; 1; 0; 0; 0; 1]) (map VInt [1; 2; 3])
              (map fl [1; 0; 0; 0; 1; 0; 0; 0; 1]) (map fl [1; 2; 3]))
    as (m & Hm & _ & _ & Hlast & _);
    try (vm_compute; reflexivity); try (simpl; lia).
  exists m. split; [exact Hm|exact Hlast].
Defined.

Lemma prepare_rototranslation_raises_witness :
  getitem Sample.short_pose "pose"
  = Ok (Sample.transform_of (VList (map VInt [1; 0; 0; 0; 1; 0; 0; 0])) [1; 2; 3])
  /\ raises (prepare_rototranslation Runtime.float_of_string Runtime.py_str
               Runtime.json_loads Sample.short_pose).
Proof.
  split; [reflexivity|].
  apply (@prepare_rototranslation_raises Runtime.float_of_string
           Runtime.py_str Runtime.json_loads value value_GetItem
           Sample.short_pose
           (Sample.transform_of (VList (map VInt [1; 0; 0; 0; 1; 0; 0; 0]))
                                [1; 2; 3]));
    [reflexivity|].
  right.
  exists (Sample.transform_of (VList (map VInt [1; 0; 0; 0; 1; 0; 0; 0])) [1; 2; 3]).
  exists (VDict [("rotation", VList (map VInt [1; 0; 0; 0; 1; 0; 0; 0]));
                 ("center", VList (map VInt [1; 2; 3]))]).
  split; [vm_compute; reflexivity|]. split; [reflexivity|].
  left. exists (map VInt [1; 0; 0; 0; 1; 0; 0; 0]).
  split; [reflexivity|simpl; lia].
Defined.

Lemma assemble_absent_view_witness :
  getitem (Sample.first_pose Sample.sfm_orphan).2 "poseId" = Ok (VStr "p9")
  /\ hashable (VStr "p9") = true
  /\ loc_rows (Sample.views_of Sample.sfm_orphan) (VStr "p9") = []
  /\ assemble_one Runtime.float_of_string Runtime.py_str Runtime.json_loads
       (Sample.views_of Sample.sfm_orphan)
       (Sample.intrinsics_of Sample.sfm_orphan)
       (Sample.first_pose Sample.sfm_orphan)
     = Err (KeyError (VStr "p9")).
Proof.
  assert (H1 : getitem (Sample.first_pose Sample.sfm_orphan).2 "poseId"
               = Ok (VStr "p9")) by (vm_compute; reflexivity).
  assert (H2 : hashable (VStr "p9") = true) by reflexivity.
  assert (H3 : loc_rows (Sample.views_of Sample.sfm_orphan) (VStr "p9") = [])
    by (vm_compute; reflexivity).
  split; [exact H1|]. split; [exact H2|]. split; [exact H3|].
  exact (proj1 (assemble_absent_view Runtime.float_of_string Runtime.py_str
                  Runtime.json_loads Runtime.rng Runtime.randbelow
                  (Sample.views_of Sample.sfm_orphan)
                  (Sample.intrinsics_of Sample.sfm_orphan)
                  (Sample.first_pose Sample.sfm_orphan) (VStr "p9")
                  H1 H2 H3)).
Defined.

(** C10 fails as stated: in [Sample.sfm_ragged] the second point has an
    X of two coordinates, yet [extrapolate_json] raises nothing and
    builds the point table, the missing coordinate read as NaN. *)
Lemma ragged_structure_loads :
  getitem_str (Sample.point [4; 5]) "X" = Ok (VList [VInt 4; VInt 5])
  /\ getitem_str Sample.sfm_ragged "structure"
     = Ok (VList [Sample.point [1; 2; 3]; Sample.point [4; 5]])
  /\ ~ raises (extrapolate_json Runtime.float_of_string
                 (Sample.disk Sample.sfm_ragged) "sfm.json")
  /\ rows (Sample.structure_of Sample.sfm_ragged)
     = [[VFloat (fl 1); VFloat (fl 2); VFloat (fl 3)];
        [VFloat (fl 4); VFloat (fl 5); VFloat float_nan]].
Proof.
  split; [reflexivity|]. split; [reflexivity|]. split.
  - intros [e He]. vm_compute in He. discriminate He.
  - vm_compute. reflexivity.
Qed.

Lemma structure_rows_width_witness :
  json_load (Sample.disk Sample.sfm_ragged) "sfm.json" = Ok Sample.sfm_ragged
  /\ getitem_str Sample.sfm_ragged "structure"
     = Ok (VList [Sample.point [1; 2; 3]; Sample.point [4; 5]])
  /\ mapM (fun x => getitem_str x "X")
          [Sample.point [1; 2; 3]; Sample.point [4; 5]]
     = Ok (map VList [[VInt 1; VInt 2; VInt 3]; [VInt 4; VInt 5]])
  /\ width [[VInt 1; VInt 2; VInt 3]; [VInt 4; VInt 5]] = 3%nat
  /\ (exists cells,
        mapM (mapM (np_float Runtime.float_of_string))
             (map (pad 3) [[VInt 1; VInt 2; VInt 3]; [VInt 4; VInt 5]])
        = Ok cells
        /\ rows (Sample.structure_of Sample.sfm_ragged)
           = map (map VFloat) cells)
  /\ (let* df := pd_DataFrame_columns
                   (map VList [[VInt 1; VInt 2; VInt 3]; [VInt 4; VInt 5]])
                   ["x"; "y"; "z"] in
      astype_float Runtime.float_of_string df)
     = Ok (mkDF [LStr "x"; LStr "y"; LStr "z"] (range_index 2)
                [[VFloat (fl 1); VFloat (fl 2); VFloat (fl 3)];
                 [VFloat (fl 4); VFloat (fl 5); VFloat float_nan]]).
Proof.
  assert (H1 : json_load (Sample.disk Sample.sfm_ragged) "sfm.json"
               = Ok Sample.sfm_ragged) by (vm_compute; reflexivity).
  assert (H2 : getitem_str Sample.sfm_ragged "structure"
               = Ok (VList [Sample.point [1; 2; 3]; Sample.point [4; 5]]))
    by reflexivity.
  assert (H3 : mapM (fun x => getitem_str x "X")
                    [Sample.point [1; 2; 3]; Sample.point [4; 5]]
               = Ok (map VList [[VInt 1; VInt 2; VInt 3]; [VInt 4; VInt 5]]))
    by reflexivity.
  assert (H4 : width [[VInt 1; VInt 2; VInt 3]; [VInt 4; VInt 5]] = 3%nat)
    by reflexivity.
  split; [exact H1|]. split; [exact H2|]. split; [exact H3|].
  split; [exact H4|].
  destruct (structure_rows_width Runtime.float_of_string
              (Sample.disk Sample.sfm_ragged) "sfm.json" Sample.sfm_ragged
              [Sample.point [1; 2; 3]; Sample.point [4; 5]]
              [[VInt 1; VInt 2; VInt 3]; [VInt 4; VInt 5]]
              H1 H2 H3) as (_ & Hb & Hc).
  split.
  - apply (Hb (Sample.structure_of Sample.sfm_ragged)
              (Sample.views_of Sample.sfm_ragged)
              (Sample.poses_of Sample.sfm_ragged)
              (Sample.intrinsics_of Sample.sfm_ragged)).
    vm_compute; reflexivity.
  - apply (Hc [[fl 1; fl 2; fl 3]; [fl 4; fl 5; float_nan]]
              (or_intror H4)).
    vm_compute; reflexivity.
Defined.

(** * Further properties of the loader, the builders and the writer *)

Section Loader.

Variable float_of_string : string -> option float.

(** Every row of a frame built with column names has one cell per
    name. *)
Lemma pd_DataFrame_columns_shape (data : list value) (cols : list string)
    (df : DataFrame) :
  pd_DataFrame_columns data cols = Ok df ->
  index df = range_index (length data)
  /\ length (rows df) = length data
  /\ Forall (fun r => length r = length cols) (rows df).
Proof.
  unfold pd_DataFrame_columns. intros H.
  destruct data as [|x data]; [injection H as <-; repeat split; constructor|].
  assert (Hcells : forall k (raw cells : list (list value)) (n : nat),
            convert_object_array k raw = Ok cells ->
            length raw = n -> k = length cols ->
            Forall (fun r => length r = k) raw ->
            index (mkDF (map LStr cols) (range_index n) cells) = range_index n
            /\ length (rows (mkDF (map LStr cols) (range_index n) cells)) = n
            /\ Forall (fun r => length r = length cols)
                      (rows (mkDF (map LStr cols) (range_index n) cells))).
  { intros k raw cells n Hc Hn Hk Hraw. cbn [index rows].
    destruct (convert_object_array_shape _ _ _ Hc Hraw) as [Hl Hf].
    rewrite Hl, Hn, <- Hk. auto. }
  assert (Hlist : forall rs, mapM py_list (x :: data) = Ok rs ->
            (if Nat.eqb (width rs) (length cols)
             then
               let* cells := convert_object_array (width rs)
                               (map (pad (width rs)) rs) in
               Ok (mkDF (map LStr cols) (range_index (length rs)) cells)
             else Err ValueError) = Ok df ->
            index df = range_index (length (x :: data))
            /\ length (rows df) = length (x :: data)
            /\ Forall (fun r => length r = length cols) (rows df)).
  { intros rs Hrs Hdf. apply mapM_length in Hrs as Hlen.
    destruct (Nat.eqb (width rs) (length cols)) eqn:Hw; [|discriminate].
    apply Nat.eqb_eq in Hw. bind_inv Hdf. injection Hdf as <-.
    rewrite Hlen. eapply Hcells; [eassumption| |exact Hw|].
    - rewrite length_map. exact Hlen.
    - apply pad_rows_length. }
  assert (Hdict : forall ds, mapM py_dict (x :: data) = Ok ds ->
            (let* cells := convert_object_array (length cols)
                             (map (fun d => map (cell_of d) cols) ds) in
             Ok (mkDF (map LStr cols) (range_index (length ds)) cells)) = Ok df ->
            index df = range_index (length (x :: data))
            /\ length (rows df) = length (x :: data)
            /\ Forall (fun r => length r = length cols) (rows df)).
  { intros ds Hds Hdf. apply mapM_length in Hds as Hlen.
    bind_inv Hdf. injection Hdf as <-.
    rewrite Hlen. eapply Hcells; [eassumption| |reflexivity|].
    - rewrite length_map. exact Hlen.
    - apply Forall_forall. intros r Hr.
      apply list_elem_of_fmap in Hr as (d & -> & _). apply length_map. }
  assert (Hone : (let* cells := convert_object_array 1
                                  (map (fun x => [x]) (x :: data)) in
                  if Nat.eqb (length cols) 1
                  then Ok (mkDF (map LStr cols)
                                (range_index (length (x :: data))) cells)
                  else Err ValueError) = Ok df ->
            index df = range_index (length (x :: data))
            /\ length (rows df) = length (x :: data)
            /\ Forall (fun r => length r = length cols) (rows df)).
  { intros Hdf. bind_inv Hdf.
    destruct (Nat.eqb (length cols) 1) eqn:Hw; [|discriminate].
    apply Nat.eqb_eq in Hw. injection Hdf as <-.
    eapply Hcells; [eassumption| |symmetry; exact Hw|].
    - apply length_map.
    - apply Forall_forall. intros r Hr.
      apply list_elem_of_fmap in Hr as (y & -> & _). reflexivity. }
  destruct x; try (exact (Hone H)).
  - bind_inv H. eapply Hlist; eassumption.
  - bind_inv H. eapply Hdict; [eassumption|].
    match goal with
    | H1 : convert_object_array _ _ = Ok _ |- _ => rewrite H1
    end.
    simpl. rewrite H. reflexivity.
Qed.

(** X1: whenever [extrapolate_json] returns, its structure frame has
    the columns x, y, z, the default index, and one row per element of
    the structure list, each row made of three floats. *)
Theorem extrapolate_json_structure_shape fs name (s v p i : DataFrame) :
  extrapolate_json float_of_string fs name = Ok (s, v, p, i) ->
  exists data st xs,
    json_load fs name = Ok data
    /\ getitem_str data "structure" = Ok st
    /\ py_list st = Ok xs
    /\ columns s = [LStr "x"; LStr "y"; LStr "z"]
    /\ index s = range_index (length xs)
    /\ length (rows s) = length xs
    /\ Forall (fun r => exists a b c : float,
                          r = [VFloat a; VFloat b; VFloat c]) (rows s).
Proof.
  intros H. pose proof (extrapolate_json_structure_labels _ _ _ _ _ _ _ H) as Hc.
  unfold extrapolate_json in H. bind_inv H. injection H as <- _ _ _.
  match goal with
  | H1 : json_load _ _ = Ok ?d, H2 : getitem_str ?d "structure" = Ok ?st,
    H3 : py_list ?st = Ok ?xs |- _ => exists d, st, xs
  end.
  split; [assumption|]. split; [assumption|]. split; [assumption|].
  split; [assumption|].
  match goal with
  | H1 : pd_DataFrame_columns _ _ = Ok _ |- _ =>
      apply pd_DataFrame_columns_shape in H1 as (Hi & Hl & Hr)
  end.
  match goal with
  | H1 : mapM (fun x => getitem_str x "X") _ = Ok _ |- _ =>
      apply mapM_length in H1 as Hpts
  end.
  match goal with
  | H1 : astype_float _ _ = Ok _ |- _ =>
      unfold astype_float in H1; bind_inv H1; injection H1 as <-
  end.
  cbn [index rows].
  match goal with
  | H1 : mapM (mapM _) _ = Ok ?cells |- _ =>
      apply mapM_Forall2 in H1 as Hcells
  end.
  split; [congruence|]. split.
  - rewrite length_map. apply Forall2_length in Hcells. congruence.
  - apply Forall_forall. intros r Hin.
    apply list_elem_of_fmap in Hin as (c & -> & Hc').
    destruct (proj1 (list_elem_of_lookup _ _) Hc') as [n Hn].
    destruct (Forall2_lookup_r _ _ _ _ _ Hcells Hn) as (r0 & Hr0 & Hconv).
    apply mapM_length in Hconv.
    assert (Hlen : length r0 = 3%nat).
    { eapply (proj1 (Forall_forall _ _) Hr).
      eapply list_elem_of_lookup_2. eassumption. }
    destruct c as [|c1 [|c2 [|c3 [|]]]]; simpl in Hconv; try lia.
    exists c1, c2, c3. reflexivity.
Qed.

(** X2: an export whose views hold no element with a poseId (an empty
    views list among them) cannot be loaded: [extrapolate_json] raises,
    and when the view frame itself is built the error is the KeyError
    of [set_index]. *)
Theorem extrapolate_json_views_without_poseId fs name (data : value)
    (vs : list value) :
  json_load fs name = Ok data ->
  getitem_str data "views" = Ok (VList vs) ->
  (forall v x, v ∈ vs -> getitem_str v "poseId" <> Ok x) ->
  raises (extrapolate_json float_of_string fs name)
  /\ forall df, pd_DataFrame (VList vs) = Ok df ->
                set_index df "poseId" = Err (KeyError (VStr "poseId")).
Proof.
  intros Hdata Hviews Hnone.
  assert (Hset : forall df, pd_DataFrame (VList vs) = Ok df ->
                   set_index df "poseId" = Err (KeyError (VStr "poseId"))).
  { intros df Hdf. unfold set_index.
    destruct (find_col (columns df) "poseId") as [j|] eqn:Hj; [|reflexivity].
    destruct (pd_DataFrame_text_column _ _ _ _ Hdf Hj)
      as (l & ds & dts & [= <-] & Hds & _ & ->).
    cbn [columns] in Hj. apply find_col_Some_elem in Hj.
    apply union_keys_elem in Hj as (d & Hd & [x Hx]).
    destruct (proj1 (list_elem_of_lookup _ _) Hd) as [n Hn].
    apply mapM_Forall2 in Hds.
    destruct (Forall2_lookup_r _ _ _ _ _ Hds Hn) as (v & Hv & Hvd).
    destruct v; try discriminate. injection Hvd as ->.
    exfalso. apply (Hnone (VDict d) x).
    - eapply list_elem_of_lookup_2. eassumption.
    - simpl. rewrite Hx. reflexivity. }
  split; [|exact Hset].
  apply not_Ok_raises. intros [[[s v] p] i] H.
  unfold extrapolate_json in H. rewrite Hdata in H. cbn [bind] in H.
  bind_inv H.
  match goal with
  | H1 : getitem_str data "views" = Ok ?a |- _ =>
      rewrite Hviews in H1; injection H1 as <-
  end.
  match goal with
  | H1 : pd_DataFrame (VList vs) = Ok ?df, H2 : set_index ?df _ = Ok _ |- _ =>
      rewrite (Hset _ H1) in H2; discriminate
  end.
Qed.

(** X3: [extrapolate_json] returns only when the file exists, holds a
    JSON object, and that object has the four keys structure, views,
    poses and intrinsics. *)
Theorem extrapolate_json_requires_keys fs name (s v p i : DataFrame) :
  extrapolate_json float_of_string fs name = Ok (s, v, p, i) ->
  exists d,
    fs !! name = Some (TextFile (Some (VDict d)))
    /\ Forall (fun k => is_Some (dict_get d k))
              ["structure"; "views"; "poses"; "intrinsics"].
Proof.
  unfold extrapolate_json. intros H. bind_inv H.
  match goal with
  | H1 : json_load _ _ = Ok ?a |- _ =>
      unfold json_load in H1;
      destruct (fs !! name) as [[[doc|]|t]|]; try discriminate;
      injection H1 as ->
  end.
  match goal with
  | H1 : getitem_str ?a "structure" = Ok _ |- _ =>
      destruct a as [| | | | | |d|]; try discriminate
  end.
  exists d. split; [reflexivity|].
  repeat constructor;
    match goal with
    | H1 : getitem_str (VDict d) ?k = Ok _ |- is_Some (dict_get d ?k) =>
        unfold getitem_str in H1; destruct (dict_get d k);
        [eauto | discriminate]
    end.
Qed.

End Loader.

Section Builders.

Variable float_of_string : string -> option float.
Variable py_str : value -> string.
Variable json_loads : string -> result value.

(** X4: whatever it is given, a matrix [prepare_intrinsic] returns is
    3x3 of the form [[f,0,cx],[0,f,cy],[0,0,1]]: three floats, the
    same one at [0][0] and [1][1], and the ints 0 and 1 elsewhere. *)
Theorem prepare_intrinsic_shape {T} `{GetItem T} (intrinsic : T)
    (m : list (list value)) :
  prepare_intrinsic float_of_string intrinsic = Ok m ->
  exists f cx cy : float,
    m = [[VFloat f; VInt 0; VFloat cx];
         [VInt 0; VFloat f; VFloat cy];
         [VInt 0; VInt 0; VInt 1]].
Proof.
  unfold prepare_intrinsic. intros Hm. bind_inv Hm. injection Hm as <-.
  eauto.
Qed.

(** X5: whatever it is given, a matrix [prepare_rototranslation]
    returns has four rows of four entries: twelve floats above the
    last row [0,0,0,1].  It returns only when the pose has a transform
    whose rotation and center convert, element by element, to at least
    9 and 3 floats, which are the entries it lays out. *)
Theorem prepare_rototranslation_shape {T} `{GetItem T} (original : T)
    (m : list (list value)) :
  prepare_rototranslation float_of_string py_str json_loads original = Ok m ->
  exists pose data tr rotation center rs ts (rot cen : list float),
    getitem original "pose" = Ok pose
    /\ reparse py_str json_loads pose = Ok data
    /\ getitem_str data "transform" = Ok tr
    /\ getitem_str tr "rotation" = Ok rotation
    /\ getitem_str tr "center" = Ok center
    /\ py_list rotation = Ok rs /\ py_list center = Ok ts
    /\ mapM (py_float float_of_string) rs = Ok rot
    /\ mapM (py_float float_of_string) ts = Ok cen
    /\ (9 <= length rs)%nat /\ (3 <= length ts)%nat
    /\ exists r0 r1 r2 r3 r4 r5 r6 r7 r8 t0 t1 t2 : float,
         take 9 rot = [r0; r1; r2; r3; r4; r5; r6; r7; r8]
         /\ take 3 cen = [t0; t1; t2]
         /\ m = [[VFloat r0; VFloat r1; VFloat r2; VFloat t0];
                 [VFloat r3; VFloat r4; VFloat r5; VFloat t1];
                 [VFloat r6; VFloat r7; VFloat r8; VFloat t2];
                 [VInt 0; VInt 0; VInt 0; VInt 1]].
Proof.
  unfold prepare_rototranslation. intros Hm. bind_inv Hm. injection Hm as <-.
  repeat match goal with
         | H1 : list_item _ _ = Ok _ |- _ => apply list_item_Ok in H1
         end.
  match goal with
  | H1 : getitem_str ?d "transform" = Ok ?t1,
    H2 : getitem_str ?d "transform" = Ok ?t2 |- _ =>
      rewrite H1 in H2; injection H2 as <-
  end.
  match goal with
  | Hr : mapM _ ?rs = Ok ?rot, Hc : mapM _ ?ts = Ok ?cen,
    H8 : ?rot !! 8%nat = Some _, H2 : ?cen !! 2%nat = Some _ |- _ =>
      pose proof (mapM_length _ _ _ Hr) as Hlr;
      pose proof (mapM_length _ _ _ Hc) as Hlc;
      pose proof (lookup_lt_Some _ _ _ H8) as Hl8;
      pose proof (lookup_lt_Some _ _ _ H2) as Hl2;
      destruct rot as [|? [|? [|? [|? [|? [|? [|? [|? [|? rot']]]]]]]]];
        simpl in Hl8; try lia;
      destruct cen as [|? [|? [|? cen']]]; simpl in Hl2; try lia
  end.
  simpl in *.
  repeat match goal with
         | H1 : Some _ = Some _ |- _ => injection H1 as <-
         end.
  do 9 eexists. repeat (split; [eassumption|]).
  split; [lia|]. split; [lia|].
  do 12 eexists. repeat split.
Qed.

(** X6: every element of rotation and center is converted, also those
    past the ninth and the third that the matrix does not use: one
    that [float] rejects makes [prepare_rototranslation] raise. *)
Theorem prepare_rototranslation_converts_all {T} `{GetItem T} (original : T)
    (pose data tr : value) (rs ts : list value) (x : value) :
  getitem original "pose" = Ok pose ->
  reparse py_str json_loads pose = Ok data ->
  getitem_str data "transform" = Ok tr ->
  getitem_str tr "rotation" = Ok (VList rs) ->
  getitem_str tr "center" = Ok (VList ts) ->
  x ∈ rs \/ x ∈ ts ->
  raises (py_float float_of_string x) ->
  raises (prepare_rototranslation float_of_string py_str json_loads original).
Proof.
  intros Hpose Hdata Htr Hrot Hcen Hx Hbad.
  apply not_Ok_raises. intros m Hm.
  apply prepare_rototranslation_shape in Hm
    as (pose' & data' & tr' & rotation & center & rs' & ts' & rot & cen
        & H1 & H2 & H3 & H4 & H5 & H6 & H7 & H8 & H9 & _).
  rewrite Hpose in H1. injection H1 as <-.
  rewrite Hdata in H2. injection H2 as <-.
  rewrite Htr in H3. injection H3 as <-.
  rewrite Hrot in H4. injection H4 as <-.
  rewrite Hcen in H5. injection H5 as <-.
  injection H6 as <-. injection H7 as <-.
  apply mapM_Forall2 in H8, H9. destruct Hbad as [e He].
  destruct Hx as [Hx | Hx];
    destruct (proj1 (list_elem_of_lookup _ _) Hx) as [n Hn].
  - destruct (Forall2_lookup_l _ _ _ _ _ H8 Hn) as (y & _ & Hy). congruence.
  - destruct (Forall2_lookup_l _ _ _ _ _ H9 Hn) as (y & _ & Hy). congruence.
Qed.

(** X7: the text handed to [json.loads] has the length of [str(pose)],
    holds no single quote, and differs from [str(pose)] only where
    that had one: no other character is touched, quotes inside string
    values included. *)
Theorem reparse_text_has_no_single_quote (pose : value) :
  let text := replace_char single_quote double_quote (py_str pose) in
  String.length text = String.length (py_str pose)
  /\ (forall n, String.get n text <> Some single_quote)
  /\ (forall n c, String.get n (py_str pose) = Some c -> c <> single_quote ->
                  String.get n text = Some c)
  /\ (forall n, String.get n (py_str pose) = Some single_quote ->
                String.get n text = Some double_quote).
Proof.
  cbv zeta. generalize (py_str pose) as s.
  induction s as [|c s (IH1 & IH2 & IH3 & IH4)]; simpl.
  - repeat split; intros; discriminate.
  - split; [f_equal; exact IH1|].
    destruct (Ascii.eqb c single_quote) eqn:E.
    + apply Ascii.eqb_eq in E as ->. repeat split.
      * intros [|n]; [discriminate | apply IH2].
      * intros [|n] c' Hc Hne; [congruence | apply IH3; assumption].
      * intros [|n] Hc; [reflexivity | apply IH4; assumption].
    + apply Ascii.eqb_neq in E. repeat split.
      * intros [|n]; [congruence | apply IH2].
      * intros [|n] c' Hc Hne; [assumption | apply IH3; assumption].
      * intros [|n] Hc; [congruence | apply IH4; assumption].
Qed.

End Builders.

Section Assembly.

Variable float_of_string : string -> option float.
Variable py_str : value -> string.
Variable json_loads : string -> result value.

(** X8: on the intrinsics frame of an export, [prepare_intrinsic]
    reads the first intrinsics record and no other: its principalPoint
    [x, y, ...] and its focalLength give the matrix, whatever records
    follow. *)
Theorem prepare_intrinsic_first_record (d0 : list (string * value))
    (more : list value) (df : DataFrame) (x y f0 : value)
    (rest : list value) (cx cy f : float) :
  pd_DataFrame (VList (VDict d0 :: more)) = Ok df ->
  dict_get d0 "principalPoint" = Some (VList (x :: y :: rest)) ->
  dict_get d0 "focalLength" = Some f0 ->
  py_float float_of_string x = Ok cx ->
  py_float float_of_string y = Ok cy ->
  py_float float_of_string f0 = Ok f ->
  prepare_intrinsic float_of_string df
  = Ok [[VFloat f; VInt 0; VFloat cx];
        [VInt 0; VFloat f; VFloat cy];
        [VInt 0; VInt 0; VInt 1]].
Proof.
  intros Hdf Hpp Hfl Hcx Hcy Hf. unfold pd_DataFrame in Hdf.
  cbn [mapM as_dict bind] in Hdf. bind_inv Hdf. injection Hdf as <-.
  match goal with
  | H1 : bind (mapM as_dict more) _ = Ok _ |- _ =>
      bind_inv H1; injection H1 as <-
  end.
  match goal with
  | H1 : mapM as_dict more = Ok ?bs |- _ => set (ds := d0 :: bs) in *
  end.
  match goal with
  | H1 : convert_object_array _ _ = Ok _ |- _ =>
      apply convert_object_array_inv in H1 as (dts & Hdts & _ & ->)
  end.
  assert (Hd0 : d0 ∈ ds) by left.
  destruct (record_cell ds dts d0 "principalPoint" Hdts Hd0)
    as (jp & dtp & Hjp & _ & _ & _ & _ & Hcp).
  { apply union_keys_elem. exists d0. split; [left|]. rewrite Hpp. eauto. }
  destruct (record_cell ds dts d0 "focalLength" Hdts Hd0)
    as (jf & dtf & Hjf & _ & _ & Hinf & Hin & Hcf).
  { apply union_keys_elem. exists d0. split; [left|]. rewrite Hfl. eauto. }
  unfold cell_of in Hcp, Hin, Hcf. rewrite Hpp in Hcp. rewrite Hfl in Hin, Hcf.
  rewrite convert_cell_object in Hcp by reflexivity.
  eapply prepare_intrinsic_frame;
    [exact Hjp | exact Hjf | reflexivity | exact Hcp | exact Hcf
    | exact Hcx | exact Hcy |].
  eapply convert_cell_py_float; eassumption.
Qed.

(** X9: when the loop over the poses completes it has built one record
    per pose row, in row order.  Each record holds the pose's own
    matrix, the path and the float height and width of the view
    selected by the pose's identifier, and camera_id 0; all records
    hold the one matrix of the intrinsics. *)
Theorem assemble_in_pose_order (images poses intrinsic : DataFrame)
    (l : list image_record) :
  assemble float_of_string py_str json_loads images poses intrinsic = Ok l ->
  Forall2
    (fun (i : value * Row) (r : image_record) =>
       prepare_rototranslation float_of_string py_str json_loads i.2
       = Ok (T_pointcloud_camera r)
       /\ camera_id r = 0
       /\ exists id view h w,
            getitem i.2 "poseId" = Ok id
            /\ df_loc images id = Ok view
            /\ getitem view "path" = Ok (image_path r)
            /\ getitem view "height" = Ok h
            /\ py_float float_of_string h = Ok (camera_height r)
            /\ getitem view "width" = Ok w
            /\ py_float float_of_string w = Ok (camera_width r))
    (iterrows poses) l
  /\ forall r, r ∈ l ->
       prepare_intrinsic float_of_string intrinsic = Ok (camera_intrinsics r).
Proof.
  unfold assemble. intros H. apply mapM_Forall2 in H.
  assert (Hone : forall i r,
            assemble_one float_of_string py_str json_loads images intrinsic i
            = Ok r ->
            (prepare_rototranslation float_of_string py_str json_loads i.2
             = Ok (T_pointcloud_camera r)
             /\ camera_id r = 0
             /\ exists id view h w,
                  getitem i.2 "poseId" = Ok id
                  /\ df_loc images id = Ok view
                  /\ getitem view "path" = Ok (image_path r)
                  /\ getitem view "height" = Ok h
                  /\ py_float float_of_string h = Ok (camera_height r)
                  /\ getitem view "width" = Ok w
                  /\ py_float float_of_string w = Ok (camera_width r))
            /\ prepare_intrinsic float_of_string intrinsic
               = Ok (camera_intrinsics r)).
  { intros i r Hr. unfold assemble_one in Hr. bind_inv Hr.
    injection Hr as <-. cbn [T_pointcloud_camera camera_id camera_intrinsics
      image_path camera_height camera_width].
    repeat match goal with
           | H1 : df_loc images ?id = Ok ?v1, H2 : df_loc images ?id = Ok ?v2
             |- _ => rewrite H1 in H2; injection H2 as <-
           end.
    split; [|assumption]. split; [assumption|]. split; [reflexivity|].
    do 4 eexists. repeat (split; [eassumption|]). eassumption. }
  split.
  - eapply Forall2_impl; [exact H|]. intros i r Hr.
    exact (proj1 (Hone i r Hr)).
  - intros r Hr. destruct (proj1 (list_elem_of_lookup _ _) Hr) as [n Hn].
    destruct (Forall2_lookup_r _ _ _ _ _ H Hn) as (i & _ & Hi).
    exact (proj2 (Hone i r Hi)).
Qed.

(** X10: a pose whose identifier labels two or more view rows never
    yields a record: the lookup selects a frame, its height column is
    a Series of several cells, and [float] refuses it. *)
Theorem assemble_duplicate_view (images intrinsic : DataFrame)
    (i : value * Row) (id : value) :
  getitem i.2 "poseId" = Ok id ->
  hashable id = true ->
  (2 <= length (loc_rows images id))%nat ->
  raises (assemble_one float_of_string py_str json_loads images intrinsic i).
Proof.
  intros Hid Hh Hrows. apply not_Ok_raises. intros r Hr.
  unfold assemble_one in Hr. rewrite Hid in Hr. cbn [bind] in Hr.
  assert (Hloc : df_loc images id
                 = Ok (ManyRows (frame_of_rows images (loc_rows images id)))).
  { unfold df_loc.
    destruct (loc_rows images id) as [|[l1 r1] [|ir2 irs]] eqn:E;
      simpl in Hrows; try lia.
    destruct id; try discriminate; reflexivity. }
  rewrite Hloc in Hr. cbn [bind] in Hr. bind_inv Hr.
  match goal with
  | H1 : getitem (ManyRows _) "height" = Ok ?h,
    H2 : py_float _ ?h = Ok _ |- _ =>
      unfold getitem, selection_GetItem, getitem, DataFrame_GetItem,
        df_column in H1;
      destruct (find_col _ "height") as [j|]; [|discriminate];
      injection H1 as <-; cbn [frame_of_rows rows] in H2
  end.
  destruct (loc_rows images id) as [|[l1 r1] [|[l2 r2] irs]];
    simpl in Hrows; try lia.
  discriminate.
Qed.

(** X11: a text identifier that is the poseId of exactly one view
    selects that view's row in the loaded view table; subscripting the
    row by a key other than poseId gives that view's value for the key
    when the value is text, a list or a dict. *)
Theorem views_unique_lookup fs name (s views p i : DataFrame) :
  extrapolate_json float_of_string fs name = Ok (s, views, p, i) ->
  exists data vs ds,
    json_load fs name = Ok data
    /\ getitem_str data "views" = Ok (VList vs)
    /\ mapM as_dict vs = Ok ds
    /\ forall id d k x,
         filter (fun d => label_match (VStr id) (cell_of d "poseId") = true) ds
         = [d] ->
         k <> "poseId" ->
         dict_get d k = Some x ->
         is_object x = true ->
         exists r, df_loc views (VStr id) = Ok (OneRow r)
                   /\ getitem r k = Ok x.
Proof.
  unfold extrapolate_json. intros H. bind_inv H. injection H as _ <- _ _.
  match goal with
  | H1 : pd_DataFrame ?v = Ok ?df, H2 : set_index ?df "poseId" = Ok _ |- _ =>
      unfold set_index in H2;
      destruct (find_col (columns df) "poseId") as [j|] eqn:Hj; [|discriminate];
      destruct (pd_DataFrame_text_column _ _ _ _ H1 Hj)
        as (vs & ds & dts & -> & Hds & Hdts & ->);
      injection H2 as <-; simpl in Hj
  end.
  pose proof (find_col_LStr _ _ _ Hj) as Hjc.
  match goal with
  | H1 : json_load _ _ = Ok ?a |- _ => exists a, vs, ds
  end.
  split; [assumption|]. split; [assumption|]. split; [assumption|].
  intros id d k x Hsame Hk Hx Ho. cbn [rows].
  set (cells := fun d : list (string * value) =>
                  zip_with convert_cell dts (map (cell_of d) (union_keys ds))).
  set (lab := fun d : list (string * value) => default VNone (cells d !! j)).
  set (views := mkDF (delete j (map LStr (union_keys ds))) (map lab ds)
                     (map (fun d => delete j (cells d)) ds)).
  rewrite !map_map.
  change (exists r, df_loc views (VStr id) = Ok (OneRow r)
                    /\ getitem r k = Ok x).
  assert (Hd : d ∈ ds).
  { eapply (list_elem_of_filter
              (fun d => label_match (VStr id) (cell_of d "poseId") = true)).
    rewrite Hsame. left. }
  assert (Hlab : forall d', label_match (VStr id) (lab d') = true
                            <-> label_match (VStr id) (cell_of d' "poseId") = true).
  { intros d'.
    destruct (lookup_lt_is_Some_2 dts j) as [dt Hdt].
    { rewrite (infer_dtypes_length _ _ _ Hdts). eapply lookup_lt_Some. eassumption. }
    assert (Hl : lab d' = convert_cell dt (cell_of d' "poseId")).
    { unfold lab, cells.
      rewrite lookup_zip_with, Hdt, list_lookup_fmap, Hjc. reflexivity. }
    rewrite Hl, label_match_text_convert. reflexivity. }
  assert (Hloc : loc_rows views (VStr id) = [(lab d, delete j (cells d))]).
  { unfold views.
    rewrite (loc_rows_count lab (fun d => delete j (cells d))).
    rewrite (list_filter_iff _ _ ds Hlab), Hsame. reflexivity. }
  destruct (record_cell ds dts d k Hdts Hd) as (c & dt & Hc & _ & _ & _ & _ & Hcell).
  { apply union_keys_elem. exists d. split; [exact Hd|]. rewrite Hx. eauto. }
  unfold cell_of in Hcell. rewrite Hx in Hcell.
  rewrite convert_cell_object in Hcell by exact Ho.
  destruct (find_col_delete _ _ _ _ _ Hjc Hk Hc) as (c' & Hc' & Hdel).
  eexists. split.
  - unfold df_loc. rewrite Hloc. reflexivity.
  - unfold getitem, Row_GetItem.
    rewrite (interleave_object views c' (delete j (cells d)) x).
    + cbn [columns views]. rewrite <- list_fmap_delete.
      erewrite row_get_zip; [reflexivity|exact Hc'|].
      rewrite Hdel. exact Hcell.
    + cbn [columns views]. rewrite <- list_fmap_delete.
      apply find_col_lt in Hc'. exact Hc'.
    + cbn [rows views]. apply list_elem_of_fmap. exists d. auto.
    + rewrite Hdel. exact Hcell.
    + exact Ho.
Qed.

End Assembly.

Section Writer.

Variable float_of_string : string -> option float.
Variable py_str : value -> string.
Variable json_loads : string -> result value.
Variable rng : Type.
Variable randbelow : nat -> rng -> nat * rng.

(** X12: with a pose table of no rows the second half of the script
    writes two manifests holding the empty array, draws nothing from
    the generator, and reads neither the views nor the intrinsics. *)
Theorem write_manifests_no_poses (images poses intrinsic : DataFrame)
    (w : world rng) :
  rows poses = [] ->
  write_manifests float_of_string py_str json_loads randbelow
    images poses intrinsic w
  = (Ok tt,
     mkWorld (<["val.json" := TextFile (Some (VList []))]>
                (<["train.json" := TextFile (Some (VList []))]> (files w)))
             (gen w)).
Proof.
  intros Hrows. unfold write_manifests, bindM at 1, lift, assemble, iterrows.
  rewrite Hrows. cbn [map]. rewrite zip_with_nil_r. reflexivity.
Qed.

Lemma json_document_Ok (l : list image_record) :
  Forall (fun r => serializable (image_path r) = true) l ->
  json_document l = Ok (VList (map record_value l)).
Proof.
  intros H. unfold json_document.
  destruct (existsb (fun r => is_series (image_path r)) l) eqn:E.
  { apply existsb_exists in E as (r & Hr & Hs).
    apply list_elem_of_In in Hr.
    pose proof (proj1 (Forall_forall _ _) H r Hr) as Hser.
    cbv beta in Hs, Hser. revert Hs Hser.
    destruct (image_path r); simpl; intros; congruence. }
  replace (forallb (fun r => serializable (image_path r)) l) with true;
    [reflexivity|].
  symmetry. apply forallb_forall. intros r Hr.
  apply (proj1 (Forall_forall _ _) H), list_elem_of_In, Hr.
Qed.

(** X13: when the records assemble (fewer than 2^50 of them, each with
    a path that is text, [None], a double, a list or a dict), the
    second half of the script succeeds and
    writes exactly two files: train.json with the first floor(4n/5)
    records of the shuffled list and val.json with the rest, the two
    together a rearrangement of the assembled records.  Every other
    file is as it was. *)
Theorem write_manifests_writes (images poses intrinsic : DataFrame)
    (l : list image_record) (w : world rng) :
  assemble float_of_string py_str json_loads images poses intrinsic = Ok l ->
  Z.of_nat (length l) < 2 ^ 50 ->
  Forall (fun r => serializable (image_path r) = true) l ->
  exists train val g',
    write_manifests float_of_string py_str json_loads randbelow
      images poses intrinsic w
    = (Ok tt,
       mkWorld (<["val.json" := TextFile (Some (VList (map record_value val)))]>
                  (<["train.json" :=
                       TextFile (Some (VList (map record_value train)))]>
                     (files w)))
               g')
    /\ (train ++ val)%list = (shuffle randbelow l (gen w)).1
    /\ (train ++ val)%list ≡ₚ l
    /\ Z.of_nat (length train) = 4 * Z.of_nat (length l) / 5.
Proof.
  intros Hasm Hn Hser.
  pose proof (shuffle_Permutation rng randbelow l (gen w)) as Hperm.
  pose proof (shuffle_length rng randbelow l (gen w)) as Hlen.
  destruct (shuffle randbelow l (gen w)) as [l' g'] eqn:Hsh.
  cbn [fst] in Hperm, Hlen.
  set (k := Z.to_nat (4 * Z.of_nat (length l') / 5)).
  exists (take k l'), (drop k l'), g'.
  assert (Hser' : Forall (fun r => serializable (image_path r) = true) l')
    by (rewrite Hperm; exact Hser).
  split.
  - unfold write_manifests, bindM at 1, lift. rewrite Hasm.
    unfold bindM at 1, random_shuffle. rewrite Hsh. cbn [gen files].
    unfold bindM at 1, lift.
    rewrite split_train_val_cut by (rewrite Hlen; exact Hn). fold k.
    unfold bindM, json_dump. cbn [files gen].
    rewrite !json_document_Ok; [reflexivity | |].
    + apply Forall_drop, Hser'.
    + apply Forall_take, Hser'.
  - split; [apply take_drop|]. split; [rewrite take_drop; exact Hperm|].
    assert (Hk : 0 <= 4 * Z.of_nat (length l') / 5 <= Z.of_nat (length l')).
    { split; [apply Z.div_pos; lia | apply Z.div_le_upper_bound; lia]. }
    rewrite length_take. unfold k. rewrite <- Hlen. lia.
Qed.

(** X14: as written, [convert_sfm_to_parquet] never completes and never
    writes: from any starting world it ends in an exception and leaves
    every file and the generator untouched. *)
Theorem convert_never_writes (w : world rng) :
  exists e,
    convert_sfm_to_parquet float_of_string py_str json_loads randbelow w
    = (Err e, w).
Proof.
  unfold convert_sfm_to_parquet, bindM at 1, read_sfm.
  destruct (extrapolate_json float_of_string (files w) "sfm.json")
    as [[[[s v] p] i]|e] eqn:H.
  - exists (KeyError (VStr "X")). unfold bindM at 1.
    rewrite write_point_cloud_KeyError
      by (eapply extrapolate_json_structure_labels; eassumption).
    reflexivity.
  - exists e. reflexivity.
Qed.

(** X15: on the frame lines 100-102 expect, one that has a
    column X whose cells are lists of at most three numbers, one of
    them of three, they write point_cloud.parquet and nothing else: a
    table with columns x, y, z and one row of three floats per cell. *)
Theorem write_point_cloud_raw_frame (df : DataFrame) (j : nat)
    (rs : list (list value)) (cells : list (list float)) (w : world rng) :
  find_col (columns df) "X" = Some j ->
  map (fun r => default VNone (r !! j)) (rows df) = map VList rs ->
  (rs <> [] -> width rs = 3%nat) ->
  mapM (mapM (np_float float_of_string)) (map (pad 3) rs) = Ok cells ->
  write_point_cloud float_of_string df w
  = (Ok tt,
     mkWorld (<["./point_cloud.parquet" :=
                  ParquetFile (mkDF [LStr "x"; LStr "y"; LStr "z"]
                                    (range_index (length rs))
                                    (map (map VFloat) cells))]> (files w))
             (gen w)).
Proof.
  intros Hj Hcol Hw Hcells. unfold write_point_cloud, bindM, lift.
  unfold getitem, DataFrame_GetItem, df_column. rewrite Hj, Hcol.
  cbn [bind to_list].
  assert (Hw' : rs = [] \/ width rs = length ["x"; "y"; "z"]).
  { destruct rs as [|r rs]; [left; reflexivity|right; apply Hw; discriminate]. }
  rewrite (point_table_build float_of_string rs ["x"; "y"; "z"] cells Hw' Hcells).
  reflexivity.
Qed.

(** X16: for 1 <= n < 2^50 records the val list is never empty: it has
    ceil(n/5) = floor((n+4)/5) elements; the train list is empty
    exactly when there is a single record. *)
Theorem split_val_nonempty {A} (l : list A) (g : rng) :
  (1 <= length l)%nat ->
  Z.of_nat (length l) < 2 ^ 50 ->
  exists train val,
    split_train_val (shuffle randbelow l g).1 = Ok (train, val)
    /\ val <> []
    /\ Z.of_nat (length val) = (Z.of_nat (length l) + 4) / 5
    /\ (train = [] <-> length l = 1%nat).
Proof.
  intros H1 Hn. pose proof (shuffle_length rng randbelow l g) as Hlen.
  set (l' := (shuffle randbelow l g).1) in *.
  set (n := Z.of_nat (length l)).
  assert (Hk : 4 * n / 5 = n - (n + 4) / 5).
  { pose proof (Z.div_mod (4 * n) 5 ltac:(lia)).
    pose proof (Z.mod_pos_bound (4 * n) 5 ltac:(lia)).
    pose proof (Z.div_mod (n + 4) 5 ltac:(lia)).
    pose proof (Z.mod_pos_bound (n + 4) 5 ltac:(lia)). lia. }
  assert (Hc : 1 <= (n + 4) / 5 <= n).
  { pose proof (Z.div_mod (n + 4) 5 ltac:(lia)).
    pose proof (Z.mod_pos_bound (n + 4) 5 ltac:(lia)). unfold n in *. lia. }
  eexists. eexists. split.
  - apply split_train_val_cut. rewrite Hlen. exact Hn.
  - rewrite Hlen. fold n. rewrite Hk.
    assert (Hlv : Z.of_nat (length (drop (Z.to_nat (n - (n + 4) / 5)) l'))
                  = (n + 4) / 5)
      by (rewrite length_drop, Hlen; unfold n in *; lia).
    split; [intros Hnil; rewrite Hnil in Hlv; simpl in Hlv; lia|].
    split; [exact Hlv|].
    assert (Hlt : length (take (Z.to_nat (n - (n + 4) / 5)) l')
                  = Z.to_nat (n - (n + 4) / 5))
      by (rewrite length_take, Hlen; unfold n in *; lia).
    split.
    + intros Hnil. rewrite Hnil in Hlt. simpl in Hlt.
      pose proof (Z.div_mod (n + 4) 5 ltac:(lia)).
      pose proof (Z.mod_pos_bound (n + 4) 5 ltac:(lia)). unfold n in *. lia.
    + intros Hone. apply length_zero_iff_nil. rewrite Hlt.
      unfold n. rewrite Hone. reflexivity.
Qed.

End Writer.

(** X17: a frame built from a list of records hands the loop one row
    per record, in order, numbered from 0; subscripting the n-th row by
    a key of the n-th record gives that record's value when the value
    is text, a list or a dict (as a poseId and a pose are). *)
Theorem iterrows_of_records (d0 : list (string * value)) (more : list value)
    (df : DataFrame) :
  pd_DataFrame (VList (VDict d0 :: more)) = Ok df ->
  length (iterrows df) = S (length more)
  /\ forall n v,
       (VDict d0 :: more) !! n = Some v ->
       exists d i,
         v = VDict d
         /\ iterrows df !! n = Some i
         /\ i.1 = VInt (Z.of_nat n)
         /\ forall k x, dict_get d k = Some x -> is_object x = true ->
                        getitem i.2 k = Ok x.
Proof.
  intros Hdf. unfold pd_DataFrame in Hdf. bind_inv Hdf. injection Hdf as <-.
  match goal with
  | H1 : mapM as_dict _ = Ok ?a |- _ => rename a into ds; rename H1 into Hds
  end.
  match goal with
  | H1 : convert_object_array _ _ = Ok _ |- _ =>
      apply convert_object_array_inv in H1 as (dts & Hdts & _ & ->)
  end.
  pose proof (mapM_length _ _ _ Hds) as Hlen.
  apply mapM_Forall2 in Hds. rewrite map_map.
  set (cells := fun d : list (string * value) =>
                  zip_with convert_cell dts (map (cell_of d) (union_keys ds))).
  set (df := mkDF (map LStr (union_keys ds)) (range_index (length ds))
                  (map cells ds)).
  unfold iterrows. cbn [index columns rows df].
  split.
  - unfold range_index. rewrite length_zip_with, !length_map, length_seq.
    simpl in Hlen. lia.
  - intros n v Hn.
    destruct (Forall2_lookup_l _ _ _ _ _ Hds Hn) as (d & Hd & Hvd).
    destruct v; try discriminate. injection Hvd as ->.
    exists d. eexists. split; [reflexivity|].
    assert (Hidx : range_index (length ds) !! n = Some (VInt (Z.of_nat n))).
    { unfold range_index. rewrite list_lookup_fmap, lookup_seq_lt; [reflexivity|].
      eapply lookup_lt_Some. eassumption. }
    split.
    + apply lookup_zip_with_Some. do 2 eexists. split; [reflexivity|].
      split; [exact Hidx|]. rewrite !list_lookup_fmap, Hd. reflexivity.
    + split; [reflexivity|]. intros k x Hk Ho. cbn [snd].
      assert (Hin : d ∈ ds) by (eapply list_elem_of_lookup_2; eassumption).
      destruct (record_cell ds dts d k Hdts Hin)
        as (c & dt & Hc & _ & _ & _ & _ & Hcell).
      { apply union_keys_elem. exists d. split; [exact Hin|]. rewrite Hk. eauto. }
      unfold cell_of in Hcell. rewrite Hk in Hcell.
      rewrite convert_cell_object in Hcell by exact Ho.
      unfold getitem, Row_GetItem.
      rewrite (interleave_object df c (cells d) x);
        [|apply find_col_lt in Hc; exact Hc
         |apply list_elem_of_fmap; exists d; auto
         |exact Hcell|exact Ho].
      erewrite row_get_zip; [reflexivity|exact Hc|exact Hcell].
Qed.

(** ** The further properties on the sample exports *)

Lemma extrapolate_json_structure_shape_witness :
  extrapolate_json Runtime.float_of_string (Sample.disk Sample.sfm) "sfm.json"
  = Ok (Sample.frames Sample.sfm)
  /\ length (rows (Sample.structure_of Sample.sfm)) = 2%nat
  /\ Forall (fun r => exists a b c : float, r = [VFloat a; VFloat b; VFloat c])
            (rows (Sample.structure_of Sample.sfm)).
Proof.
  assert (H : extrapolate_json Runtime.float_of_string
                (Sample.disk Sample.sfm) "sfm.json"
              = Ok (Sample.structure_of Sample.sfm, Sample.views_of Sample.sfm,
                    Sample.poses_of Sample.sfm, Sample.intrinsics_of Sample.sfm))
    by (vm_compute; reflexivity).
  split; [vm_compute; reflexivity|].
  destruct (extrapolate_json_structure_shape Runtime.float_of_string
              _ _ _ _ _ _ H) as (data & st & xs & _ & _ & _ & _ & _ & _ & Hr).
  split; [vm_compute; reflexivity | exact Hr].
Defined.

Lemma extrapolate_json_views_without_poseId_witness :
  json_load (Sample.disk (Sample.document [Sample.point [1; 2; 3]] [] []))
            "sfm.json"
  = Ok (Sample.document [Sample.point [1; 2; 3]] [] [])
  /\ raises (extrapolate_json Runtime.float_of_string
               (Sample.disk (Sample.document [Sample.point [1; 2; 3]] [] []))
               "sfm.json").
Proof.
  assert (H : json_load
                (Sample.disk (Sample.document [Sample.point [1; 2; 3]] [] []))
                "sfm.json"
              = Ok (Sample.document [Sample.point [1; 2; 3]] [] []))
    by (vm_compute; reflexivity).
  split; [exact H|].
  refine (proj1 (extrapolate_json_views_without_poseId
                   Runtime.float_of_string _ "sfm.json" _ [] H _ _)).
  - reflexivity.
  - intros v x Hv. inversion Hv.
Defined.

Lemma extrapolate_json_requires_keys_witness :
  extrapolate_json Runtime.float_of_string (Sample.disk Sample.sfm) "sfm.json"
  = Ok (Sample.frames Sample.sfm)
  /\ exists d,
       Sample.disk Sample.sfm !! "sfm.json" = Some (TextFile (Some (VDict d)))
       /\ Forall (fun k => is_Some (dict_get d k))
                 ["structure"; "views"; "poses"; "intrinsics"].
Proof.
  assert (H : extrapolate_json Runtime.float_of_string
                (Sample.disk Sample.sfm) "sfm.json"
              = Ok (Sample.structure_of Sample.sfm, Sample.views_of Sample.sfm,
                    Sample.poses_of Sample.sfm, Sample.intrinsics_of Sample.sfm))
    by (vm_compute; reflexivity).
  split; [vm_compute; reflexivity|].
  exact (extrapolate_json_requires_keys Runtime.float_of_string _ _ _ _ _ _ H).
Defined.

Lemma prepare_intrinsic_shape_witness :
  prepare_intrinsic Runtime.float_of_string (Sample.intrinsics_of Sample.sfm)
  = Ok [[VFloat (fl 800); VInt 0; VFloat (fl 100)];
        [VInt 0; VFloat (fl 800); VFloat (fl 50)];
        [VInt 0; VInt 0; VInt 1]]
  /\ exists f cx cy : float,
       [[VFloat (fl 800); VInt 0; VFloat (fl 100)];
        [VInt 0; VFloat (fl 800); VFloat (fl 50)];
        [VInt 0; VInt 0; VInt 1]]
       = [[VFloat f; VInt 0; VFloat cx];
          [VInt 0; VFloat f; VFloat cy];
          [VInt 0; VInt 0; VInt 1]].
Proof.
  assert (H : prepare_intrinsic Runtime.float_of_string
                (Sample.intrinsics_of Sample.sfm)
              = Ok [[VFloat (fl 800); VInt 0; VFloat (fl 100)];
                    [VInt 0; VFloat (fl 800); VFloat (fl 50)];
                    [VInt 0; VInt 0; VInt 1]])
    by (vm_compute; reflexivity).
  split; [exact H|].
  exact (@prepare_intrinsic_shape Runtime.float_of_string DataFrame
           DataFrame_GetItem (Sample.intrinsics_of Sample.sfm) _ H).
Defined.

Lemma prepare_rototranslation_shape_witness :
  prepare_rototranslation Runtime.float_of_string Runtime.py_str
    Runtime.json_loads (Sample.pose_entry "p1" [1; 2; 3])
  = Ok [[VFloat (fl 1); VFloat (fl 0); VFloat (fl 0); VFloat (fl 1)];
        [VFloat (fl 0); VFloat (fl 1); VFloat (fl 0); VFloat (fl 2)];
        [VFloat (fl 0); VFloat (fl 0); VFloat (fl 1); VFloat (fl 3)];
        [VInt 0; VInt 0; VInt 0; VInt 1]]
  /\ exists pose, getitem (Sample.pose_entry "p1" [1; 2; 3]) "pose" = Ok pose.
Proof.
  assert (H : prepare_rototranslation Runtime.float_of_string Runtime.py_str
                Runtime.json_loads (Sample.pose_entry "p1" [1; 2; 3])
              = Ok [[VFloat (fl 1); VFloat (fl 0); VFloat (fl 0); VFloat (fl 1)];
                    [VFloat (fl 0); VFloat (fl 1); VFloat (fl 0); VFloat (fl 2)];
                    [VFloat (fl 0); VFloat (fl 0); VFloat (fl 1); VFloat (fl 3)];
                    [VInt 0; VInt 0; VInt 0; VInt 1]])
    by (vm_compute; reflexivity).
  split; [exact H|].
  destruct (@prepare_rototranslation_shape Runtime.float_of_string
              Runtime.py_str Runtime.json_loads value value_GetItem
              (Sample.pose_entry "p1" [1; 2; 3]) _ H) as (pose & _ & _ & _ & _ & _ & _ & _ & _ & Hp & _).
  exists pose. exact Hp.
Defined.

Lemma prepare_rototranslation_converts_all_witness :
  let pose := Sample.transform_of
                (VList (map VInt [1; 0; 0; 0; 1; 0; 0; 0; 1] ++ [VStr "x"]))
                [1; 2; 3] in
  reparse Runtime.py_str Runtime.json_loads pose = Ok pose
  /\ raises (py_float Runtime.float_of_string (VStr "x"))
  /\ raises (prepare_rototranslation Runtime.float_of_string Runtime.py_str
               Runtime.json_loads (VDict [("pose", pose)])).
Proof.
  cbv zeta.
  assert (H1 : reparse Runtime.py_str Runtime.json_loads
                 (Sample.transform_of
                    (VList (map VInt [1; 0; 0; 0; 1; 0; 0; 0; 1] ++ [VStr "x"]))
                    [1; 2; 3])
               = Ok (Sample.transform_of
                       (VList (map VInt [1; 0; 0; 0; 1; 0; 0; 0; 1] ++ [VStr "x"]))
                       [1; 2; 3])) by (vm_compute; reflexivity).
  assert (H2 : raises (py_float Runtime.float_of_string (VStr "x")))
    by (exists ValueError; vm_compute; reflexivity).
  split; [exact H1|]. split; [exact H2|].
  refine (@prepare_rototranslation_converts_all Runtime.float_of_string
            Runtime.py_str Runtime.json_loads value value_GetItem
            (VDict [("pose", _)]) _ _
            (VDict [("rotation", _); ("center", VList (map VInt [1; 2; 3]))])
            (map VInt [1; 0; 0; 0; 1; 0; 0; 0; 1] ++ [VStr "x"])
            (map VInt [1; 2; 3]) (VStr "x") _ H1 _ _ _ _ H2);
    try reflexivity.
  left. simpl. repeat constructor.
Defined.

Lemma prepare_intrinsic_first_record_witness :
  pd_DataFrame (VList [Sample.intrinsic_entry])
  = Ok (Sample.intrinsics_of Sample.sfm)
  /\ prepare_intrinsic Runtime.float_of_string (Sample.intrinsics_of Sample.sfm)
     = Ok [[VFloat (fl 800); VInt 0; VFloat (fl 100)];
           [VInt 0; VFloat (fl 800); VFloat (fl 50)];
           [VInt 0; VInt 0; VInt 1]].
Proof.
  assert (H : pd_DataFrame (VList [Sample.intrinsic_entry])
              = Ok (Sample.intrinsics_of Sample.sfm))
    by (vm_compute; reflexivity).
  split; [exact H|].
  apply (prepare_intrinsic_first_record Runtime.float_of_string
           [("principalPoint", VList [VFloat (fl 100); VFloat (fl 50)]);
            ("focalLength", VFloat (fl 800))] []
           (Sample.intrinsics_of Sample.sfm)
           (VFloat (fl 100)) (VFloat (fl 50)) (VFloat (fl 800)) []
           (fl 100) (fl 50) (fl 800) H); reflexivity.
Defined.

Lemma assemble_in_pose_order_witness :
  Sample.records Sample.sfm = Ok (Sample.record_list Sample.sfm)
  /\ length (Sample.record_list Sample.sfm) = 5%nat
  /\ forall r, r ∈ Sample.record_list Sample.sfm ->
       prepare_intrinsic Runtime.float_of_string
         (Sample.intrinsics_of Sample.sfm) = Ok (camera_intrinsics r).
Proof.
  assert (H : Sample.records Sample.sfm = Ok (Sample.record_list Sample.sfm))
    by (vm_compute; reflexivity).
  split; [exact H|]. split; [vm_compute; reflexivity|].
  exact (proj2 (assemble_in_pose_order Runtime.float_of_string Runtime.py_str
                  Runtime.json_loads _ _ _ _ H)).
Defined.

Lemma assemble_duplicate_view_witness :
  getitem (Sample.first_pose Sample.sfm_duplicate).2 "poseId" = Ok (VStr "p1")
  /\ (2 <= length (loc_rows (Sample.views_of Sample.sfm_duplicate) (VStr "p1")))%nat
  /\ raises (assemble_one Runtime.float_of_string Runtime.py_str
               Runtime.json_loads (Sample.views_of Sample.sfm_duplicate)
               (Sample.intrinsics_of Sample.sfm_duplicate)
               (Sample.first_pose Sample.sfm_duplicate)).
Proof.
  assert (H1 : getitem (Sample.first_pose Sample.sfm_duplicate).2 "poseId"
               = Ok (VStr "p1")) by (vm_compute; reflexivity).
  assert (H2 : (2 <= length (loc_rows (Sample.views_of Sample.sfm_duplicate)
                               (VStr "p1")))%nat) by (vm_compute; lia).
  split; [exact H1|]. split; [exact H2|].
  exact (assemble_duplicate_view Runtime.float_of_string Runtime.py_str
           Runtime.json_loads _ _ _ (VStr "p1") H1 eq_refl H2).
Defined.

Lemma views_unique_lookup_witness :
  extrapolate_json Runtime.float_of_string (Sample.disk Sample.sfm) "sfm.json"
  = Ok (Sample.structure_of Sample.sfm, Sample.views_of Sample.sfm,
        Sample.poses_of Sample.sfm, Sample.intrinsics_of Sample.sfm)
  /\ exists r, df_loc (Sample.views_of Sample.sfm) (VStr "p2") = Ok (OneRow r)
               /\ getitem r "path" = Ok (VStr "b.jpg").
Proof.
  assert (H : extrapolate_json Runtime.float_of_string
                (Sample.disk Sample.sfm) "sfm.json"
              = Ok (Sample.structure_of Sample.sfm, Sample.views_of Sample.sfm,
                    Sample.poses_of Sample.sfm, Sample.intrinsics_of Sample.sfm))
    by (vm_compute; reflexivity).
  split; [exact H|].
  destruct (views_unique_lookup Runtime.float_of_string _ _ _ _ _ _ H)
    as (data & vs & ds & H1 & H2 & H3 & Hlook).
  assert (Hdata : data = Sample.sfm)
    by (vm_compute in H1; injection H1 as <-; reflexivity).
  subst data.
  assert (Hvs : vs = Sample.views5)
    by (vm_compute in H2; injection H2 as <-; reflexivity).
  subst vs.
  assert (Hds : ds = map (fun v => match v with VDict d => d | _ => [] end)
                         Sample.views5)
    by (vm_compute in H3; injection H3 as <-; reflexivity).
  subst ds.
  assert (Hf : filter (fun d => label_match (VStr "p2") (cell_of d "poseId") = true)
                 (map (fun v => match v with VDict d => d | _ => [] end)
                      Sample.views5)
               = [[("poseId", VStr "p2"); ("path", VStr "b.jpg");
                   ("height", VInt 480); ("width", VInt 640)]])
    by (vm_compute; reflexivity).
  assert (Hk : "path" <> "poseId") by discriminate.
  destruct (Hlook "p2" _ "path" (VStr "b.jpg") Hf Hk eq_refl eq_refl)
    as (r & Hr1 & Hr2).
  exists r. split; [exact Hr1 | exact Hr2].
Defined.

Lemma write_manifests_no_poses_witness :
  rows (mkDF [] [] []) = []
  /\ write_manifests Runtime.float_of_string Runtime.py_str Runtime.json_loads
       Runtime.randbelow (Sample.views_of Sample.sfm) (mkDF [] [] [])
       (Sample.intrinsics_of Sample.sfm) (Sample.start Sample.sfm)
     = (Ok tt,
        mkWorld (<["val.json" := TextFile (Some (VList []))]>
                   (<["train.json" := TextFile (Some (VList []))]>
                      (files (Sample.start Sample.sfm))))
                (gen (Sample.start Sample.sfm))).
Proof.
  split; [reflexivity|].
  apply (write_manifests_no_poses Runtime.float_of_string Runtime.py_str
           Runtime.json_loads Runtime.rng Runtime.randbelow).
  reflexivity.
Defined.

Lemma write_manifests_writes_witness :
  Sample.records Sample.sfm = Ok (Sample.record_list Sample.sfm)
  /\ Z.of_nat (length (Sample.record_list Sample.sfm)) < 2 ^ 50
  /\ exists train val g',
       write_manifests Runtime.float_of_string Runtime.py_str
         Runtime.json_loads Runtime.randbelow (Sample.views_of Sample.sfm)
         (Sample.poses_of Sample.sfm) (Sample.intrinsics_of Sample.sfm)
         (Sample.start Sample.sfm)
       = (Ok tt,
          mkWorld (<["val.json" :=
                       TextFile (Some (VList (map record_value val)))]>
                     (<["train.json" :=
                          TextFile (Some (VList (map record_value train)))]>
                        (files (Sample.start Sample.sfm))))
                  g')
       /\ Z.of_nat (length train) = 4.
Proof.
  assert (H1 : Sample.records Sample.sfm = Ok (Sample.record_list Sample.sfm))
    by (vm_compute; reflexivity).
  assert (H2 : Z.of_nat (length (Sample.record_list Sample.sfm)) < 2 ^ 50)
    by (vm_compute; reflexivity).
  assert (H3 : Forall (fun r => serializable (image_path r) = true)
                      (Sample.record_list Sample.sfm))
    by (vm_compute; repeat constructor).
  split; [exact H1|]. split; [exact H2|].
  destruct (write_manifests_writes Runtime.float_of_string Runtime.py_str
              Runtime.json_loads Runtime.rng Runtime.randbelow
              _ _ _ _ (Sample.start Sample.sfm) H1 H2 H3)
    as (train & val & g' & Hw & _ & _ & Hlen).
  exists train, val, g'. split; [exact Hw | exact Hlen].
Defined.

Lemma write_point_cloud_raw_frame_witness :
  let df := mkDF [LStr "X"] (range_index 2)
                 [[VList [VInt 1; VInt 2; VInt 3]];
                  [VList [VInt 4; VInt 5; VInt 6]]] in
  find_col (columns df) "X" = Some 0%nat
  /\ write_point_cloud Runtime.float_of_string df (Sample.start Sample.sfm)
     = (Ok tt,
        mkWorld (<["./point_cloud.parquet" :=
                     ParquetFile (mkDF [LStr "x"; LStr "y"; LStr "z"]
                                       (range_index 2)
                                       [[VFloat (fl 1); VFloat (fl 2); VFloat (fl 3)];
                                        [VFloat (fl 4); VFloat (fl 5); VFloat (fl 6)]])]>
                   (files (Sample.start Sample.sfm)))
                (gen (Sample.start Sample.sfm))).
Proof.
  cbv zeta. split; [reflexivity|].
  apply (write_point_cloud_raw_frame Runtime.float_of_string Runtime.rng
           (mkDF [LStr "X"] (range_index 2)
                 [[VList [VInt 1; VInt 2; VInt 3]];
                  [VList [VInt 4; VInt 5; VInt 6]]])
           0%nat
           [[VInt 1; VInt 2; VInt 3]; [VInt 4; VInt 5; VInt 6]]
           [[fl 1; fl 2; fl 3]; [fl 4; fl 5; fl 6]]
           (Sample.start Sample.sfm));
    reflexivity.
Defined.

Lemma split_val_nonempty_witness :
  (1 <= length [7]%nat)%nat
  /\ Z.of_nat (length [7]%nat) < 2 ^ 50
  /\ exists train val,
       split_train_val (shuffle Runtime.randbelow [7]%nat 42%nat).1
       = Ok (train, val)
       /\ val <> [] /\ train = [].
Proof.
  assert (H1 : (1 <= length [7]%nat)%nat) by (simpl; lia).
  assert (H2 : Z.of_nat (length [7]%nat) < 2 ^ 50) by (vm_compute; reflexivity).
  split; [exact H1|]. split; [exact H2|].
  destruct (@split_val_nonempty Runtime.rng Runtime.randbelow nat
              [7]%nat 42%nat H1 H2) as (train & val & Hs & Hv & _ & Ht).
  exists train, val. split; [exact Hs|]. split; [exact Hv|].
  apply Ht. reflexivity.
Defined.

Lemma iterrows_of_records_witness :
  pd_DataFrame (VList Sample.poses5) = Ok (Sample.poses_of Sample.sfm)
  /\ length (iterrows (Sample.poses_of Sample.sfm)) = 5%nat
  /\ exists i,
       iterrows (Sample.poses_of Sample.sfm) !! 1%nat = Some i
       /\ i.1 = VInt 1
       /\ getitem i.2 "poseId" = Ok (VStr "p2")
       /\ getitem i.2 "pose"
          = Ok (Sample.transform_of Sample.identity_rotation [4; 5; 6]).
Proof.
  assert (H : pd_DataFrame (VList Sample.poses5) = Ok (Sample.poses_of Sample.sfm))
    by (vm_compute; reflexivity).
  split; [exact H|].
  destruct (iterrows_of_records
              [("poseId", VStr "p1");
               ("pose", Sample.transform_of Sample.identity_rotation [1; 2; 3])]
              [Sample.pose_entry "p2" [4; 5; 6];
               Sample.pose_entry "p3" [7; 8; 9];
               Sample.pose_entry "p4" [1; 1; 1];
               Sample.pose_entry "p5" [2; 2; 2]]
              (Sample.poses_of Sample.sfm) H) as [Hlen Hrows].
  split; [exact Hlen|].
  destruct (Hrows 1%nat (Sample.pose_entry "p2" [4; 5; 6]) eq_refl)
    as (d & i & Hd & Hi & Hl & Hget).
  injection Hd as <-.
  exists i. split; [exact Hi|]. split; [exact Hl|].
  split; apply Hget; reflexivity.
Defined.

Lemma reparse_text_has_no_single_quote_witness :
  String.length
    (replace_char single_quote double_quote
       (Runtime.py_str (Sample.transform_of Sample.identity_rotation [1; 2; 3])))
  = String.length
      (Runtime.py_str (Sample.transform_of Sample.identity_rotation [1; 2; 3])).
Proof.
  exact (proj1 (reparse_text_has_no_single_quote Runtime.py_str
                  (Sample.transform_of Sample.identity_rotation [1; 2; 3]))).
Defined.
